(** * CodeAnchor: the incremental analysis-and-cache pipeline

    A shallow embedding of
      - [src/core/cache-manager.ts]   (class [DependencyAwareCacheManager]),
      - [src/analyzers/component-analyzer.ts] (class [ComponentAnalyzer]),
      - [src/git/pre-commit-handler.ts] (class [PreCommitHandler]),
      - the per-file loop of [src/cli/commands/sync.ts],
    followed by the properties of the cache store, the extractor and the
    batch loops.

    Conventions.  An [async] function that may reject is a function into
    [Exc]; [await] is the monadic bind; [try { .. } catch { .. }] is
    [try_catch].  The file system, the cache directory, the ts-morph
    project and the clocks are fields of one explicit [World].  Console
    output is not modelled. *)

From Stdlib Require Import ZArith QArith String Ascii List Bool Lia.
From stdpp Require Import base option list strings gmap.

Local Open Scope string_scope.

(** ** Exceptions *)

(** What a rejected promise or a [throw] carries. *)
Inductive JsError : Type :=
| FsError (p : string)                               (* fs/promises: ENOENT, EACCES, EISDIR, .. *)
| ProjectError (p : string)                          (* ts-morph could not load the source file *)
| ConfigError                                        (* configLoader.loadOrThrow *)
| ComponentAnalysisError (p : string) (cause : JsError)
| ExternalError (msg : string).                      (* git, RegExp, doc generator, .. *)

Inductive Exc (A : Type) : Type :=
| Ok (a : A)
| Throw (e : JsError).
Arguments Ok {A} a.
Arguments Throw {A} e.

#[global] Instance exc_ret : MRet Exc := fun _ a => Ok a.
#[global] Instance exc_bind : MBind Exc := fun _ _ f m =>
  match m with
  | Ok a => f a
  | Throw e => Throw e
  end.

(** [try { body } catch (error) { handler error }] *)
Definition try_catch {A : Type} (body : Exc A) (handler : JsError → Exc A) : Exc A :=
  match body with
  | Ok a => Ok a
  | Throw e => handler e
  end.

(** [promise.catch(() => null)] *)
Definition catch_null {A : Type} (m : Exc A) : option A :=
  match m with
  | Ok a => Some a
  | Throw _ => None
  end.

Definition throws {A : Type} (m : Exc A) : Prop := ∃ e, m = Throw e.

(** ** Strings *)

(** [s.includes(needle)] *)
Fixpoint includes (s needle : string) : bool :=
  String.prefix needle s ||
  match s with
  | EmptyString => false
  | String _ s' => includes s' needle
  end.

(** The characters of a string, last one first. *)
Definition fromEnd (s : string) : list ascii := rev (list_ascii_of_string s).

Definition toEnd (l : list ascii) : string := string_of_list_ascii (rev l).

(** [l] without the leading [pre], when it starts with it. *)
Fixpoint stripLeading (pre l : list ascii) : option (list ascii) :=
  match pre, l with
  | [], _ => Some l
  | p :: pre', c :: l' => if Ascii.eqb p c then stripLeading pre' l' else None
  | _ :: _, [] => None
  end.

(** [name] without the ending [suffix], when it ends with it: what a
    match of [/suffix$/] leaves when it is replaced by the empty string. *)
Definition stripSuffix (suffix name : string) : option string :=
  toEnd <$> stripLeading (fromEnd suffix) (fromEnd name).

(** [/^[A-Z]/.test(name)] *)
Definition startsUpper (name : string) : bool :=
  match name with
  | EmptyString => false
  | String c _ => (65 <=? nat_of_ascii c)%nat && (nat_of_ascii c <=? 90)%nat
  end.

Definition isSlash (c : ascii) : bool := Ascii.eqb c "/"%char.

Fixpoint dropSlashes (l : list ascii) : list ascii :=
  match l with
  | [] => []
  | c :: l' => if isSlash c then dropSlashes l' else l
  end.

Fixpoint untilSlash (l : list ascii) : list ascii :=
  match l with
  | [] => []
  | c :: l' => if isSlash c then [] else c :: untilSlash l'
  end.

(** [path.basename(p)] (POSIX): scanning from the end, trailing slashes
    are skipped and the characters back to the previous slash are kept. *)
Definition basename (p : string) : string :=
  toEnd (untilSlash (dropSlashes (fromEnd p))).

(** [basename.replace(/\.(tsx?|jsx?)$/, '')]: the regular expression is
    anchored at the end of the input, so it matches exactly when the name
    ends in one of the four extensions, and then removes that ending. *)
Definition stripScriptExtension (name : string) : string :=
  match stripSuffix ".tsx" name with
  | Some stem => stem
  | None =>
      match stripSuffix ".jsx" name with
      | Some stem => stem
      | None =>
          match stripSuffix ".ts" name with
          | Some stem => stem
          | None =>
              match stripSuffix ".js" name with
              | Some stem => stem
              | None => name
              end
          end
      end
  end.

(** The four endings that the regular expression matches. *)
Definition scriptExtensions : list string := [".ts"; ".tsx"; ".js"; ".jsx"].

Fixpoint afterDot (l : list ascii) : option (list ascii) :=
  match l with
  | [] => None
  | c :: l' => if Ascii.eqb c "."%char then Some l' else afterDot l'
  end.

(** A base name with its extension removed, in the words of the
    specification: the extension is what [path.extname] names, the text
    from the last dot on, unless that dot opens the name. *)
Definition withoutExtension (name : string) : string :=
  match afterDot (fromEnd name) with
  | Some (c :: stem) => toEnd (c :: stem)
  | _ => name
  end.

(** ** The world the pipeline runs in *)

(** A node of the working tree.  [fs.stat] succeeds on every node;
    [fs.readFile] only when [fileBytes] is present (a directory or a file
    without read permission has none).  [mtimeMs] is a JavaScript number
    with a sub-millisecond fraction. *)
Record FileNode : Type := {
  fileBytes : option string;
  mtimeMs : Q
}.

(** cache-manager.ts, lines 14-28 *)
Record DependencyCache : Type := {
  dep_path : string;
  dep_hash : string;
  dep_mtime : Q
}.

Record PropStructure : Type := {
  prop_name : string;
  prop_type : string;
  prop_required : bool;
  prop_description : option string
}.

Record ComponentStructure : Type := {
  cs_name : string;
  cs_props : list PropStructure
}.

(** cache-manager.ts, lines 6-12.  [lastParsed] is a [Date]: an integral
    number of milliseconds, which is what [new Date(..).getTime()] gives
    back after the round trip through JSON. *)
Record CacheEntry : Type := {
  fileHash : string;
  dependencies : list DependencyCache;
  structure : ComponentStructure;
  lastParsed : Z;
  version : string
}.

(** What a file of the cache directory holds: text that [JSON.parse]
    rejects, or the serialisation of an entry. *)
Inductive CacheFile : Type :=
| CorruptJson
| EntryJson (e : CacheEntry).

(** ts-morph nodes, as far as the analyzers read them. *)
Record JSDoc : Type := { jsdoc_description : string }.

Record PropertySignature : Type := {
  ps_name : string;
  ps_typeText : string;
  ps_hasQuestionToken : bool;
  ps_jsDocs : list JSDoc
}.

Record InterfaceDeclaration : Type := {
  iface_name : string;
  iface_properties : list PropertySignature
}.

(** [imp.getModuleSpecifierSourceFile()?.getFilePath()] *)
Record ImportDeclaration : Type := {
  moduleSpecifierSourceFile : option string
}.

Record SourceFile : Type := {
  (* the entries of getExportedDeclarations(), in the Map's iteration
     order: export name and number of declarations behind it *)
  exportedDeclarations : list (string * nat);
  interfaces : list InterfaceDeclaration;
  functionJsDocs : list (list JSDoc);
  variableStatementJsDocs : list (list JSDoc);
  importDeclarations : list ImportDeclaration
}.

(** The cache directory is kept apart from the working tree: no source
    path names a cache file.  The two ts-morph projects of a run (the
    analyzer's and the cache manager's) are configured alike and read the
    same tree, so one field answers for both. *)
Record World : Type := {
  files : gmap string FileNode;        (* the working tree *)
  cacheFiles : gmap string CacheFile;  (* the files under .anchor/cache *)
  cacheWritable : bool;                (* do mkdir and writeFile there succeed *)
  project : gmap string SourceFile;    (* project.getSourceFile(p) || project.addSourceFileAtPath(p) *)
  dateNow : Z;                         (* new Date(), in milliseconds *)
  performanceNow : Q                   (* performance.now() *)
}.

Definition fs_readFile (w : World) (p : string) : Exc string :=
  match files w !! p with
  | Some {| fileBytes := Some bytes |} => Ok bytes
  | _ => Throw (FsError p)
  end.

Definition fs_stat (w : World) (p : string) : Exc FileNode :=
  match files w !! p with
  | Some node => Ok node
  | None => Throw (FsError p)
  end.

Definition getOrAddSourceFile (w : World) (p : string) : Exc SourceFile :=
  match project w !! p with
  | Some sf => Ok sf
  | None => Throw (ProjectError p)
  end.

(** [a > b] on JavaScript numbers that are not NaN. *)
Definition Qgtb (a b : Q) : bool := negb (Qle_bool a b).

(** ** DependencyAwareCacheManager (cache-manager.ts) *)

Section CacheManager.

(** [crypto.createHash('sha256').update(x).digest('hex')] *)
Variable sha256 : string → string.

Definition this_cacheDir : string := ".anchor/cache".
Definition this_version : string := "1.0.0".

(** lines 176-179; the digest is a run of hexadecimal digits, so
    [path.join] has nothing to normalise. *)
Definition getCacheFilePath (filePath : string) : string :=
  this_cacheDir +:+ "/" +:+ sha256 filePath +:+ ".json".

(** lines 163-171 *)
Definition hashFile (w : World) (filePath : string) : Exc string :=
  try_catch
    (content ← fs_readFile w filePath;
     mret (sha256 content))
    (fun _ => mret "").

(** lines 118-133 *)
Definition loadCache (w : World) (filePath : string) : Exc (option CacheEntry) :=
  try_catch
    (let cacheFile := getCacheFilePath filePath in
     cache ← match cacheFiles w !! cacheFile with
             | Some (EntryJson e) => Ok e
             | Some CorruptJson | None => Throw (FsError cacheFile)
             end;
     if negb (String.eqb (version cache) this_version)
     then mret None
     else mret (Some cache))
    (fun _ => mret None).

(** lines 143-151: the body of the loop over the import declarations *)
Fixpoint localImports (decls : list ImportDeclaration) : list string :=
  match decls with
  | [] => []
  | imp :: rest =>
      match moduleSpecifierSourceFile imp with
      | Some p =>
          if negb (includes p "node_modules") && negb (includes p "@types")
          then p :: localImports rest
          else localImports rest
      | None => localImports rest
      end
  end.

(** lines 138-158 *)
Definition extractImports (w : World) (filePath : string) : Exc (list string) :=
  try_catch
    (sourceFile ← getOrAddSourceFile w filePath;
     mret (localImports (importDeclarations sourceFile)))
    (fun _ => mret []).

(** lines 60-71: [true] is the [return true] inside the loop, [false]
    is falling out of it. *)
Fixpoint dependencyModified (w : World) (cache : CacheEntry) (imports : list string) : bool :=
  match imports with
  | [] => false
  | imp :: rest =>
      match catch_null (fs_stat w imp) with
      | None => dependencyModified w cache rest
      | Some stats =>
          let depCache := List.find (fun d => String.eqb (dep_path d) imp) (dependencies cache) in
          if negb (bool_decide (is_Some depCache))
             || Qgtb (mtimeMs stats) (inject_Z (lastParsed cache))
          then true
          else dependencyModified w cache rest
      end
  end.

(** lines 46-78 *)
Definition needsUpdate (w : World) (filePath : string) : Exc bool :=
  cache ← loadCache w filePath;
  match cache with
  | None => mret true
  | Some cache =>
      currentHash ← hashFile w filePath;
      if negb (String.eqb currentHash (fileHash cache))
      then mret true
      else
        try_catch
          (imports ← extractImports w filePath;
           if dependencyModified w cache imports
           then mret true
           else mret false)
          (fun _ => mret true)
  end.

(** [fs.writeFile(cacheFile, JSON.stringify(cacheEntry, null, 2))]:
    reading the file back and parsing it gives the entry again. *)
Definition writeCacheFile (w : World) (cacheFile : string) (e : CacheEntry) : World :=
  {| files := files w;
     cacheFiles := <[cacheFile := EntryJson e]> (cacheFiles w);
     cacheWritable := cacheWritable w;
     project := project w;
     dateNow := dateNow w;
     performanceNow := performanceNow w |}.

(** lines 90-97: the function mapped over the imports *)
Definition snapshotDependency (w : World) (imp : string) : Exc DependencyCache :=
  stats ← fs_stat w imp;
  h ← hashFile w imp;
  mret {| dep_path := imp; dep_hash := h; dep_mtime := mtimeMs stats |}.

(** lines 85-109: the [try] block of [saveCache] *)
Definition saveCacheTry (w : World) (filePath : string)
    (structure : ComponentStructure) : Exc World :=
  _ ← (if cacheWritable w then Ok () else Throw (FsError this_cacheDir));
  imports ← extractImports w filePath;
  dependencies ← mapM (snapshotDependency w) imports;
  h ← hashFile w filePath;
  let cacheEntry :=
    {| fileHash := h;
       dependencies := dependencies;
       structure := structure;
       lastParsed := dateNow w;
       version := this_version |} in
  let cacheFile := getCacheFilePath filePath in
  _ ← (if cacheWritable w then Ok () else Throw (FsError cacheFile));
  mret (writeCacheFile w cacheFile cacheEntry).

(** lines 83-113: the world after the call; the promise always
    resolves. *)
Definition saveCache (w : World) (filePath : string)
    (structure : ComponentStructure) : World * Exc unit :=
  match saveCacheTry w filePath structure with
  | Ok w' => (w', Ok ())
  | Throw _ => (w, Ok ())
  end.

(** lines 184-190: [fs.rm] with [force] on the cache directory. *)
Definition clearCache (w : World) : World * Exc unit :=
  if cacheWritable w
  then ({| files := files w;
           cacheFiles := ∅;
           cacheWritable := cacheWritable w;
           project := project w;
           dateNow := dateNow w;
           performanceNow := performanceNow w |}, Ok ())
  else (w, Ok ()).

(** *** Vocabulary of the statements *)

(** The entry stored for a file, when its cache file exists and parses. *)
Definition storedEntry (w : World) (filePath : string) : option CacheEntry :=
  match cacheFiles w !! getCacheFilePath filePath with
  | Some (EntryJson e) => Some e
  | _ => None
  end.

(** The direct dependencies as [needsUpdate] re-derives them. *)
Definition liveDependencies (w : World) (filePath : string) : list string :=
  match extractImports w filePath with
  | Ok imports => imports
  | Throw _ => []
  end.

Definition snapshotPaths (e : CacheEntry) : list string :=
  map dep_path (dependencies e).

(** A live dependency that is on disk with a modification time strictly
    after the entry's [lastParsed]. *)
Definition dependencyNewer (w : World) (filePath : string) (e : CacheEntry) : Prop :=
  ∃ d node, d ∈ liveDependencies w filePath ∧ files w !! d = Some node ∧
            (inject_Z (lastParsed e) < mtimeMs node)%Q.

(** A live dependency that is on disk and that the entry's snapshot list
    does not mention. *)
Definition dependencyUntracked (w : World) (filePath : string) (e : CacheEntry) : Prop :=
  ∃ d node, d ∈ liveDependencies w filePath ∧ files w !! d = Some node ∧
            d ∉ snapshotPaths e.

(** Staleness in the words of the specification: four causes. *)
Definition staleBySpec (w : World) (filePath : string) : Prop :=
  match storedEntry w filePath with
  | None => True
  | Some e =>
      version e ≠ this_version ∨
      hashFile w filePath ≠ Ok (fileHash e) ∨
      dependencyNewer w filePath e
  end.

(** Staleness as the code decides it: the four causes and the snapshot
    miss. *)
Definition staleByCode (w : World) (filePath : string) : Prop :=
  match storedEntry w filePath with
  | None => True
  | Some e =>
      version e ≠ this_version ∨
      hashFile w filePath ≠ Ok (fileHash e) ∨
      dependencyNewer w filePath e ∨
      dependencyUntracked w filePath e
  end.

(** Nothing [needsUpdate filePath] reads has changed from [w1] to [w2]:
    the cache file, the bytes of the file, its import list, and the
    nodes of its direct dependencies. *)
Definition unchangedFor (filePath : string) (w1 w2 : World) : Prop :=
  cacheFiles w2 !! getCacheFilePath filePath = cacheFiles w1 !! getCacheFilePath filePath ∧
  fs_readFile w2 filePath = fs_readFile w1 filePath ∧
  project w2 !! filePath = project w1 !! filePath ∧
  ∀ d, d ∈ liveDependencies w1 filePath → files w2 !! d = files w1 !! d.

(** [fs.unlink(p)] *)
Definition unlink (w : World) (p : string) : World :=
  {| files := delete p (files w);
     cacheFiles := cacheFiles w;
     cacheWritable := cacheWritable w;
     project := project w;
     dateNow := dateNow w;
     performanceNow := performanceNow w |}.

End CacheManager.

(** ** ComponentAnalyzer (component-analyzer.ts) *)

(** lines 14-31 *)
Record PropMeta : Type := {
  pm_name : string;
  pm_type : string;
  pm_required : bool;
  pm_description : option string;
  pm_default : option string
}.

Record ComponentMeta : Type := {
  cm_name : string;
  cm_filePath : string;
  cm_props : list PropMeta;
  cm_dependencies : list string;
  cm_hasJSDoc : bool
}.

(** lines 91-99: the loop over the exported declarations; [None] is
    falling out of the loop. *)
Fixpoint firstComponentExport (entries : list (string * nat)) : option string :=
  match entries with
  | [] => None
  | (name, _) :: rest =>
      if String.eqb name "default" then firstComponentExport rest
      else if startsUpper name then Some name
      else firstComponentExport rest
  end.

(** lines 87-104 *)
Definition extractComponentName (sourceFile : SourceFile) (filePath : string) : string :=
  match firstComponentExport (exportedDeclarations sourceFile) with
  | Some name => name
  | None => stripScriptExtension (basename filePath)
  end.

(** The white space that [String.prototype.trim] removes is the
    WhiteSpace and LineTerminator of ECMAScript.  Text is held here as its
    UTF-8 bytes, so such a code point is one, two or three characters:
    U+0009 to U+000D and U+0020 are one; *)
Definition isSpace (c : ascii) : bool :=
  let n := nat_of_ascii c in
  ((9 <=? n)%nat && (n <=? 13)%nat) || (n =? 32)%nat.

(** U+00A0 is two (C2 A0); *)
Definition isSpace2 (a b : ascii) : bool :=
  (nat_of_ascii a =? 194)%nat && (nat_of_ascii b =? 160)%nat.

(** and U+1680 (E1 9A 80), U+2000 to U+200A, U+2028, U+2029 and U+202F
    (E2 80 80 to 8A, A8, A9, AF), U+205F (E2 81 9F), U+3000 (E3 80 80)
    and U+FEFF (EF BB BF) are three. *)
Definition isSpace3 (a b c : ascii) : bool :=
  let x := nat_of_ascii a in
  let y := nat_of_ascii b in
  let z := nat_of_ascii c in
  ((x =? 225) && (y =? 154) && (z =? 128))%nat
  || ((x =? 226) && (y =? 128) &&
      (((128 <=? z) && (z <=? 138)) || (z =? 168) || (z =? 169) || (z =? 175)))%nat
  || ((x =? 226) && (y =? 129) && (z =? 159))%nat
  || ((x =? 227) && (y =? 128) && (z =? 128))%nat
  || ((x =? 239) && (y =? 187) && (z =? 191))%nat.

(** The text without the white space it starts with. *)
Fixpoint dropSpaces (l : list ascii) : list ascii :=
  match l with
  | [] => []
  | a :: l1 =>
      if isSpace a then dropSpaces l1
      else
        match l1 with
        | [] => l
        | b :: l2 =>
            if isSpace2 a b then dropSpaces l2
            else
              match l2 with
              | [] => l
              | c :: l3 => if isSpace3 a b c then dropSpaces l3 else l
              end
        end
  end.

(** The same on a text that is read from its end: the bytes of a code
    point come last one first. *)
Fixpoint dropSpacesFromEnd (l : list ascii) : list ascii :=
  match l with
  | [] => []
  | c :: l1 =>
      if isSpace c then dropSpacesFromEnd l1
      else
        match l1 with
        | [] => l
        | b :: l2 =>
            if isSpace2 b c then dropSpacesFromEnd l2
            else
              match l2 with
              | [] => l
              | a :: l3 => if isSpace3 a b c then dropSpacesFromEnd l3 else l
              end
        end
  end.

(** [s.trim()] *)
Definition trim (s : string) : string :=
  toEnd (dropSpacesFromEnd (rev (dropSpaces (list_ascii_of_string s)))).

(** lines 161-165 *)
Definition extractDefaultValue (prop : PropertySignature) : option string := None.

(** lines 132-153: one turn of the loop *)
Definition propMetaOf (prop : PropertySignature) : PropMeta :=
  {| pm_name := ps_name prop;
     pm_type := ps_typeText prop;
     pm_required := negb (ps_hasQuestionToken prop);
     pm_description :=
       match ps_jsDocs prop with
       | doc :: _ => Some (trim (jsdoc_description doc))
       | [] => None
       end;
     pm_default := extractDefaultValue prop |}.

(** lines 128-156 *)
Definition extractPropsFromInterface (iface : InterfaceDeclaration) : list PropMeta :=
  map propMetaOf (iface_properties iface).

(** lines 109-123 *)
Fixpoint extractPropsLoop (ifaces : list InterfaceDeclaration) : list PropMeta :=
  match ifaces with
  | [] => []
  | iface :: rest =>
      if includes (iface_name iface) "Props"
      then extractPropsFromInterface iface ++ extractPropsLoop rest
      else extractPropsLoop rest
  end.

Definition extractProps (sourceFile : SourceFile) : list PropMeta :=
  extractPropsLoop (interfaces sourceFile).

(** lines 174-184: the loop over the import declarations; every
    declaration that resolves to a local file pushes its path. *)
Fixpoint extractDependenciesLoop (imports : list ImportDeclaration) : list string :=
  match imports with
  | [] => []
  | imp :: rest =>
      match moduleSpecifierSourceFile imp with
      | Some filePath =>
          if negb (includes filePath "node_modules") && negb (includes filePath "@types")
          then filePath :: extractDependenciesLoop rest
          else extractDependenciesLoop rest
      | None => extractDependenciesLoop rest
      end
  end.

(** lines 170-187 *)
Definition extractDependencies (sourceFile : SourceFile) : list string :=
  extractDependenciesLoop (importDeclarations sourceFile).

Definition nonEmpty {A : Type} (l : list A) : bool := (0 <? length l)%nat.

(** lines 192-224 *)
Definition hasJSDocumentation (sourceFile : SourceFile) : bool :=
  existsb (fun iface =>
             includes (iface_name iface) "Props" &&
             existsb (fun prop => nonEmpty (ps_jsDocs prop)) (iface_properties iface))
          (interfaces sourceFile)
  || existsb nonEmpty (functionJsDocs sourceFile)
  || existsb nonEmpty (variableStatementJsDocs sourceFile).

(** lines 51-82 *)
Definition analyze (w : World) (filePath : string) : Exc ComponentMeta :=
  try_catch
    (sourceFile ← getOrAddSourceFile w filePath;
     let name := extractComponentName sourceFile filePath in
     let props := extractProps sourceFile in
     let dependencies := extractDependencies sourceFile in
     let hasJSDoc := hasJSDocumentation sourceFile in
     mret {| cm_name := name;
             cm_filePath := filePath;
             cm_props := props;
             cm_dependencies := dependencies;
             cm_hasJSDoc := hasJSDoc |})
    (fun error => Throw (ComponentAnalysisError filePath error)).

(** A path is local when [extractDependencies] keeps it. *)
Definition isLocalPath (p : string) : bool :=
  negb (includes p "node_modules") && negb (includes p "@types").

(** ** Stateful asynchronous code *)

(** A computation that may change the world and may reject. *)
Definition M (A : Type) : Type := World → World * Exc A.

#[global] Instance m_ret : MRet M := fun _ a w => (w, Ok a).
#[global] Instance m_bind : MBind M := fun _ _ f m w =>
  match m w with
  | (w', Ok a) => f a w'
  | (w', Throw e) => (w', Throw e)
  end.

(** A call that only reads the world. *)
Definition reads {A : Type} (f : World → Exc A) : M A := fun w => (w, f w).

(** A computation that does not touch the world. *)
Definition pure {A : Type} (m : Exc A) : M A := fun w => (w, m).

(** ** PreCommitHandler (pre-commit-handler.ts) and the sync loop *)

Record AnchorConfig : Type := {
  watchPatterns : list string
}.

(** lines 16-21 *)
Record PreCommitResult : Type := {
  processed : nat;
  skipped : nat;
  errors : nat;
  duration : Q
}.

(** The three counters of [run], lines 38-40. *)
Record Counters : Type := {
  n_processed : nat;
  n_skipped : nat;
  n_errors : nat
}.

Definition noCounts : Counters :=
  {| n_processed := 0; n_skipped := 0; n_errors := 0 |}.

(** [{ name: componentMeta.name, props: componentMeta.props }] as
    [JSON.stringify] writes it: [default] is always undefined and is
    dropped. *)
Definition structureOf (componentMeta : ComponentMeta) : ComponentStructure :=
  {| cs_name := cm_name componentMeta;
     cs_props :=
       map (fun p => {| prop_name := pm_name p;
                        prop_type := pm_type p;
                        prop_required := pm_required p;
                        prop_description := pm_description p |})
           (cm_props componentMeta) |}.

(** [s.replace(/x/g, by)] for a literal [x] of one or two characters:
    [replaceStars2] is [.replace(/\*\*/g, '.*')] and [replaceStars1] is
    [.replace(/\*/g, '[^/]*')]. *)
Fixpoint replaceStars2 (s : string) : string :=
  match s with
  | String "*" (String "*" rest) => ".*" +:+ replaceStars2 rest
  | String c rest => String c (replaceStars2 rest)
  | EmptyString => EmptyString
  end.

Fixpoint replaceStars1 (s : string) : string :=
  match s with
  | String "*" rest => "[^/]*" +:+ replaceStars1 rest
  | String c rest => String c (replaceStars1 rest)
  | EmptyString => EmptyString
  end.

Section Orchestrators.

Variable sha256 : string → string.

(** Collaborators that are not part of the pipeline. *)
Variable loadOrThrow : M AnchorConfig.                              (* configLoader *)
Variable getStagedFiles : M (list string).                          (* git-utils *)
Variable stageFile : string → M unit.                               (* git-utils *)
Variable regExpTest : string → string → Exc bool.                   (* new RegExp(source).test(s) *)
Variable initComponents : M unit.                                   (* the constructors of lines 67-77 *)
Variable generateToFile : ComponentMeta → string → bool → M unit.   (* DocGenerator *)
Variable path_dirname : string → string.
Variable path_join : string → string → string.

(** lines 55-59: [watchPatterns.some(pattern => regex.test(file))] *)
Fixpoint matchesSomePattern (patterns : list string) (file : string) : Exc bool :=
  match patterns with
  | [] => mret false
  | pattern :: rest =>
      hit ← regExpTest (replaceStars1 (replaceStars2 pattern)) file;
      if hit : bool then mret true else matchesSomePattern rest file
  end.

(** lines 54-60: [stagedFiles.filter(..)] *)
Fixpoint filterComponentFiles (config : AnchorConfig) (stagedFiles : list string)
    : Exc (list string) :=
  match stagedFiles with
  | [] => mret []
  | file :: rest =>
      keep ← matchesSomePattern (watchPatterns config) file;
      kept ← filterComponentFiles config rest;
      mret (if keep : bool then file :: kept else kept)
  end.

(** lines 82-107: the [try] block of one turn of the loop; the result
    says whether the file was processed ([true]) or skipped. *)
Definition processFileTry (file : string) : M bool :=
  stale ← reads (fun w => needsUpdate sha256 w file);
  if stale : bool then
    componentMeta ← reads (fun w => analyze w file);
    let outputPath := path_join (path_dirname file) "README.md" in
    _ ← generateToFile componentMeta outputPath false;
    _ ← stageFile outputPath;
    _ ← ((fun w => saveCache sha256 w file (structureOf componentMeta)) : M unit);
    mret true
  else mret false.

(** lines 81-111: one turn of the loop, with its [catch] *)
Definition processFile (file : string) (c : Counters) (w : World) : World * Counters :=
  match processFileTry file w with
  | (w', Ok true) =>
      (w', {| n_processed := S (n_processed c); n_skipped := n_skipped c; n_errors := n_errors c |})
  | (w', Ok false) =>
      (w', {| n_processed := n_processed c; n_skipped := S (n_skipped c); n_errors := n_errors c |})
  | (w', Throw _) =>
      (w', {| n_processed := n_processed c; n_skipped := n_skipped c; n_errors := S (n_errors c) |})
  end.

(** lines 80-112 *)
Fixpoint processFiles (componentFiles : list string) (c : Counters) (w : World)
    : World * Counters :=
  match componentFiles with
  | [] => (w, c)
  | file :: rest =>
      let '(w', c') := processFile file c w in
      processFiles rest c' w'
  end.

(** lines 43-77: what precedes the loop; [None] is one of the two early
    returns. *)
Definition prepare : M (option (list string)) :=
  config ← loadOrThrow;
  stagedFiles ← getStagedFiles;
  if (length stagedFiles =? 0)%nat then mret None
  else
    componentFiles ← pure (filterComponentFiles config stagedFiles);
    if (length componentFiles =? 0)%nat then mret None
    else
      _ ← initComponents;
      mret (Some componentFiles).

(** lines 36-132.  Nothing rejects once the loop has started, so the
    outer [catch] sees the counters as they were initialised. *)
Definition run : M PreCommitResult := fun w0 =>
  let startTime := performanceNow w0 in
  let c0 := noCounts in
  match prepare w0 with
  | (w1, Ok None) =>
      (w1, Ok {| processed := 0; skipped := 0; errors := 0; duration := 0 |})
  | (w1, Ok (Some componentFiles)) =>
      let '(w2, c) := processFiles componentFiles c0 w1 in
      (w2, Ok {| processed := n_processed c;
                 skipped := n_skipped c;
                 errors := n_errors c;
                 duration := performanceNow w2 - startTime |})
  | (w1, Throw _) =>
      (w1, Ok {| processed := n_processed c0;
                 skipped := n_skipped c0;
                 errors := n_errors c0 + 1;
                 duration := performanceNow w1 - startTime |})
  end.

(** lines 138-144 *)
Definition runSilent : M unit := fun w =>
  match run w with
  | (w', Ok _) => (w', Ok ())
  | (w', Throw _) => (w', Ok ())
  end.

(** sync.ts, lines 101-119: the [try] block of one turn *)
Definition syncFileTry (useAI : bool) (file : string) : M unit :=
  componentMeta ← reads (fun w => analyze w file);
  let outputPath := path_join (path_dirname file) "README.md" in
  _ ← generateToFile componentMeta outputPath useAI;
  _ ← ((fun w => saveCache sha256 w file (structureOf componentMeta)) : M unit);
  mret ().

(** sync.ts, lines 95-124: the loop, returning [successCount] and
    [errorCount] *)
Fixpoint syncFiles (useAI : bool) (filesToSync : list string)
    (successCount errorCount : nat) (w : World) : World * (nat * nat) :=
  match filesToSync with
  | [] => (w, (successCount, errorCount))
  | file :: rest =>
      match syncFileTry useAI file w with
      | (w', Ok _) => syncFiles useAI rest (S successCount) errorCount w'
      | (w', Throw _) => syncFiles useAI rest successCount (S errorCount) w'
      end
  end.

(** *** Vocabulary of the statements *)

(** The file's turn finds it stale, analysis succeeds, and the document
    is written and staged. *)
Definition goodTurn (w : World) (file : string) : Prop :=
  needsUpdate sha256 w file = Ok true ∧
  ∃ componentMeta w1 w2,
    analyze w file = Ok componentMeta ∧
    generateToFile componentMeta (path_join (path_dirname file) "README.md") false w = (w1, Ok ()) ∧
    stageFile (path_join (path_dirname file) "README.md") w1 = (w2, Ok ()).

(** The file's turn finds it stale and analysis succeeds; nothing is
    said of the document. *)
Definition analysableTurn (w : World) (file : string) : Prop :=
  needsUpdate sha256 w file = Ok true ∧ ∃ componentMeta, analyze w file = Ok componentMeta.

(** The file's turn finds it stale and analysis fails. *)
Definition failingTurn (w : World) (file : string) : Prop :=
  needsUpdate sha256 w file = Ok true ∧ throws (analyze w file).

(** The world after the turns of the given files. *)
Definition worldAfter (componentFiles : list string) (w : World) : World :=
  (processFiles componentFiles noCounts w).1.

(** [P] holds of every file of the batch when its turn comes. *)
Fixpoint atEachTurn (P : World → string → Prop) (componentFiles : list string)
    (w : World) : Prop :=
  match componentFiles with
  | [] => True
  | file :: rest => P w file ∧ atEachTurn P rest (worldAfter [file] w)
  end.

Definition attempted (c : Counters) : nat := n_processed c + n_skipped c + n_errors c.

End Orchestrators.

(** sync.ts, lines 75-80: the loop of the fast mode; [force] is tested
    first, so a forced run does not ask the cache. *)
Fixpoint changedFilesOf (sha256 : string → string) (force : bool) (files : list string)
    (w : World) : Exc (list string) :=
  match files with
  | [] => mret []
  | file :: rest =>
      changed ← (if force then mret true else needsUpdate sha256 w file);
      more ← changedFilesOf sha256 force rest w;
      mret (if changed : bool then file :: more else more)
  end.

(** sync.ts, lines 72-83 *)
Definition filesToSyncOf (sha256 : string → string) (fast force : bool) (files : list string)
    (w : World) : Exc (list string) :=
  if fast then changedFilesOf sha256 force files w else mret files.

(** ** git-utils.ts *)

Definition newline : ascii := ascii_of_nat 10.
Definition doubleQuote : string := String (ascii_of_nat 34) EmptyString.

(** [s.split('\n')]: one piece more than there are line feeds. *)
Fixpoint splitLines (s : string) : list string :=
  match s with
  | EmptyString => [EmptyString]
  | String c rest =>
      if Ascii.eqb c newline then EmptyString :: splitLines rest
      else match splitLines rest with
           | line :: more => String c line :: more
           | [] => [String c EmptyString]
           end
  end.

(** [message.replace(/'/g, "'\\''")]: every single quote becomes the
    four characters quote, backslash, quote, quote. *)
Fixpoint escapeSingleQuotes (message : string) : string :=
  match message with
  | EmptyString => EmptyString
  | String c rest =>
      if Ascii.eqb c "'" then "'\''" +:+ escapeSingleQuotes rest
      else String c (escapeSingleQuotes rest)
  end.

(** How [sh] reads a word made of single-quoted stretches and backslash
    escapes (POSIX, Shell Command Language, 2.2.1 and 2.2.2): inside
    single quotes every character stands for itself up to the closing
    quote; outside, a backslash makes the next character stand for itself
    (a backslash before a line feed is a line continuation).  [None] when
    a quote is left open, a backslash ends the text, or a bare character
    is met, which this reader does not interpret. *)
Fixpoint shWord (inQuote : bool) (s : string) : option string :=
  match s with
  | EmptyString => if inQuote then None else Some EmptyString
  | String c rest =>
      if inQuote then
        if Ascii.eqb c "'" then shWord false rest
        else String c <$> shWord true rest
      else if Ascii.eqb c "'" then shWord true rest
      else if Ascii.eqb c "\" then
        match rest with
        | String c' rest' =>
            if Ascii.eqb c' newline then shWord false rest'
            else String c' <$> shWord false rest'
        | EmptyString => None
        end
      else None
  end.

Section GitUtils.

(** [promisify(exec)(command, { cwd })]: the standard output, or a
    rejection when the command cannot be run or exits with an error. *)
Variable execAsync : string → string → M string.
Variable path_resolve : string → string → string.
Variable path_relative : string → string → string.

(** A rejected command, wrapped: [new GitError(message, error)]. *)
Definition gitError (message : string) : JsError := ExternalError message.

Definition orGitError {A : Type} (message : string) (m : M A) : M A := fun w =>
  match m w with
  | (w', Ok a) => (w', Ok a)
  | (w', Throw _) => (w', Throw (gitError message))
  end.

(** [true] when the command runs, [false] when it rejects. *)
Definition succeeds {A : Type} (m : M A) : M bool := fun w =>
  match m w with
  | (w', Ok _) => (w', Ok true)
  | (w', Throw _) => (w', Ok false)
  end.

(** lines 138-147 of templates/index.ts, shared by [getStagedFiles] and
    [getChangedFiles] *)
Definition fileListOf (cwd stdout : string) : list string :=
  if String.eqb (trim stdout) EmptyString then []
  else map (path_resolve cwd) (splitLines (trim stdout)).

(** templates/index.ts, lines 121-128 *)
Definition isGitRepository (cwd : string) : M bool :=
  succeeds (execAsync "git rev-parse --git-dir" cwd).


(** lines 157-164 *)
Definition getStagedDiff (cwd : string) : M string :=
  orGitError "Failed to get staged diff" (execAsync "git diff --cached" cwd).

(** lines 169-176 *)
Definition stageFileOf (filePath cwd : string) : M unit :=
  orGitError ("Failed to stage file: " +:+ filePath)
    (_ ← execAsync ("git add " +:+ doubleQuote +:+ path_relative cwd filePath +:+ doubleQuote) cwd;
     mret ()).

(** lines 181-185: the loop stops at the first file that cannot be
    staged. *)
Fixpoint stageFiles (filePaths : list string) (cwd : string) : M unit :=
  match filePaths with
  | [] => mret ()
  | filePath :: rest =>
      _ ← stageFileOf filePath cwd;
      stageFiles rest cwd
  end.

(** lines 190-197 *)
Definition getCurrentBranch (cwd : string) : M string :=
  orGitError "Failed to get current branch"
    (stdout ← execAsync "git rev-parse --abbrev-ref HEAD" cwd;
     mret (trim stdout)).

(** lines 202-210 *)
Definition isTrackedFile (filePath cwd : string) : M bool :=
  succeeds
    (execAsync ("git ls-files --error-unmatch " +:+ doubleQuote +:+ path_relative cwd filePath
                +:+ doubleQuote) cwd).

(** lines 215-222 *)
Definition getGitRoot (cwd : string) : M string :=
  orGitError "Failed to get git root"
    (stdout ← execAsync "git rev-parse --show-toplevel" cwd;
     mret (trim stdout)).

(** lines 227-244 *)
Definition getChangedFiles (cwd : string) : M (list string) :=
  orGitError "Failed to get changed files"
    (stdout ← execAsync "git diff --name-only --diff-filter=ACMR" cwd;
     mret (fileListOf cwd stdout)).

(** lines 249-257 *)
Definition commitCommandLine (message : string) : string :=
  "git commit -m '" +:+ escapeSingleQuotes message +:+ "'".

Definition createCommit (message cwd : string) : M unit :=
  orGitError "Failed to create commit"
    (_ ← execAsync (commitCommandLine message) cwd;
     mret ()).

(** ** HooksInstaller (hooks-installer.ts) *)

(** Whether the process may create, write or remove the node at a path. *)
Variable mayWrite : string → bool.

(** [path.join(a, b, ..)] is read as nested joins of two. *)
Variable path_join : string → string → string.

(** lines 16-29 *)
Definition PRE_COMMIT_SCRIPT : string :=
  "#!/bin/sh" +:+ String newline
  ("# CodeAnchor Pre-commit Hook" +:+ String newline
  ("# Auto-generated - do not edit manually" +:+ String newline
  ("# Fast template-only documentation sync (<2s target)" +:+ String newline
  (String newline
  ("# Run anchor pre-commit handler" +:+ String newline
  ("node -e " +:+ doubleQuote +:+ String newline
  ("const { preCommitHandler } = require('./dist/git/pre-commit-handler.js');" +:+ String newline
  ("preCommitHandler.runSilent().catch(() => process.exit(0));" +:+ String newline
  (doubleQuote +:+ " || exit 0" +:+ String newline
  (String newline
  ("# Never block commit" +:+ String newline
  ("exit 0" +:+ String newline EmptyString)))))))))))).

Definition hookMarker : string := "CodeAnchor Pre-commit Hook".

(** The node that [fs.writeFile] leaves. *)
Definition writtenNode (w : World) (content : string) : FileNode :=
  {| fileBytes := Some content; mtimeMs := inject_Z (dateNow w) |}.

(** [fs.writeFile(p, content)]; the file mode is not modelled. *)
Definition fs_writeFile (p content : string) : M unit := fun w =>
  if mayWrite p
  then ({| files := <[p := writtenNode w content]> (files w);
           cacheFiles := cacheFiles w;
           cacheWritable := cacheWritable w;
           project := project w;
           dateNow := dateNow w;
           performanceNow := performanceNow w |}, Ok ())
  else (w, Throw (FsError p)).

(** [fs.unlink(p)] *)
Definition fs_unlink (p : string) : M unit := fun w =>
  match files w !! p with
  | Some _ => if mayWrite p then (unlink w p, Ok ()) else (w, Throw (FsError p))
  | None => (w, Throw (FsError p))
  end.

(** [fs.mkdir(p, { recursive: true })]: directories are not nodes of
    their own here, so a permitted call changes nothing. *)
Definition fs_mkdir (p : string) : M unit := fun w =>
  if mayWrite p then (w, Ok ()) else (w, Throw (FsError p)).

(** [throw error] *)
Definition throwM {A : Type} (error : JsError) : M A := fun w => (w, Throw error).

(** [fs.readFile(p, 'utf-8')] inside a [try] whose [catch] keeps [null] *)
Definition readFileOrNull (p : string) : M (option string) := fun w =>
  (w, Ok (catch_null (fs_readFile w p))).

Definition hooksDirOf (gitRoot : string) : string :=
  path_join (path_join gitRoot ".git") "hooks".

Definition hookPathOf (gitRoot : string) : string :=
  path_join (hooksDirOf gitRoot) "pre-commit".

Definition backupPathOf (gitRoot : string) : string :=
  hookPathOf gitRoot +:+ ".backup".

(** lines 38-70 *)
Definition install (cwd : string) : M unit :=
  isRepository ← isGitRepository cwd;
  if negb isRepository
  then throwM (ExternalError
         "Not a git repository. Run this command from inside a git repository.")
  else
    gitRoot ← getGitRoot cwd;
    let hooksDir := hooksDirOf gitRoot in
    let hookPath := hookPathOf gitRoot in
    _ ← fs_mkdir hooksDir;
    existingHook ← readFileOrNull hookPath;
    _ ← match existingHook with
        | Some existing =>
            (* an empty string is falsy *)
            if negb (String.eqb existing EmptyString) && negb (includes existing hookMarker)
            then fs_writeFile (backupPathOf gitRoot) existing
            else mret ()
        | None => mret ()
        end;
    fs_writeFile hookPath PRE_COMMIT_SCRIPT.

(** lines 96-105: the inner [try], whose [catch] swallows everything *)
Definition restoreBackup (gitRoot : string) : M unit := fun w =>
  match fs_readFile w (backupPathOf gitRoot) with
  | Throw _ => (w, Ok ())
  | Ok backup =>
      match fs_writeFile (hookPathOf gitRoot) backup w with
      | (w1, Throw _) => (w1, Ok ())
      | (w1, Ok _) =>
          match fs_unlink (backupPathOf gitRoot) w1 with
          | (w2, _) => (w2, Ok ())
          end
      end
  end.

(** lines 84-112: the outer [try] and its [catch].  Of the failures
    that can reach the [catch], only reading a hook that does not exist
    carries the code ENOENT; any other is thrown again. *)
Definition removeOwnHook (gitRoot : string) : M unit := fun w =>
  let hookPath := hookPathOf gitRoot in
  match files w !! hookPath with
  | None => (w, Ok ())
  | Some {| fileBytes := None |} => (w, Throw (FsError hookPath))
  | Some {| fileBytes := Some hookContent |} =>
      if negb (includes hookContent hookMarker) then (w, Ok ())
      else
        match fs_unlink hookPath w with
        | (w1, Throw e) => (w1, Throw e)
        | (w1, Ok _) => restoreBackup gitRoot w1
        end
  end.

(** lines 75-113 *)
Definition uninstall (cwd : string) : M unit :=
  isRepository ← isGitRepository cwd;
  if negb isRepository
  then throwM (ExternalError "Not a git repository")
  else
    gitRoot ← getGitRoot cwd;
    removeOwnHook gitRoot.

(** lines 123-130: the [try] and its [catch] *)
Definition ownHookPresent (cwd : string) : M bool := fun w =>
  match getGitRoot cwd w with
  | (w1, Throw _) => (w1, Ok false)
  | (w1, Ok gitRoot) =>
      match fs_readFile w1 (hookPathOf gitRoot) with
      | Ok hookContent => (w1, Ok (includes hookContent hookMarker))
      | Throw _ => (w1, Ok false)
      end
  end.

(** lines 118-131 *)
Definition isInstalled (cwd : string) : M bool :=
  isRepository ← isGitRepository cwd;
  if negb isRepository then mret false else ownHookPresent cwd.

(** Inside a work tree: the two git queries of the installer run, answer
    the same in every world, and leave the world alone. *)
Definition gitAnswers (cwd gitDir topLevel : string) : Prop :=
  (∀ w, execAsync "git rev-parse --git-dir" cwd w = (w, Ok gitDir)) ∧
  (∀ w, execAsync "git rev-parse --show-toplevel" cwd w = (w, Ok topLevel)).

(** The hook that is in place is somebody else's: it can be read, is not
    empty and does not carry the marker. *)
Definition foreignHook (w : World) (gitRoot existing : string) : Prop :=
  fs_readFile w (hookPathOf gitRoot) = Ok existing ∧
  existing ≠ EmptyString ∧
  includes existing hookMarker = false.

End GitUtils.

(** ** TechDetector (tech-detector.ts) *)

(** lines 11-24.  [dependencies] and [devDependencies] are records of
    strings, absent when the key is. *)
Record PackageJson : Type := {
  pkg_dependencies : option (gmap string string);
  pkg_devDependencies : option (gmap string string);
  pkg_name : option string
}.

Inductive Structure : Type := Atomic | FeatureBased | Modular | Custom.

Record Suggestions : Type := {
  sg_structure : Structure;
  sg_watchPatterns : list string
}.

Record DetectionResult : Type := {
  dr_stack : list string;
  dr_suggestions : Suggestions
}.

(** lines 170-172: [version.replace(/^[\^~]/, '')] *)
Definition cleanVersion (version : string) : string :=
  match version with
  | String c rest => if Ascii.eqb c "^" || Ascii.eqb c "~" then rest else version
  | EmptyString => version
  end.

(** [deps.key] read as a condition: present and not the empty string. *)
Definition truthy (deps : gmap string string) (key : string) : bool :=
  match deps !! key with
  | Some v => negb (String.eqb v EmptyString)
  | None => false
  end.

Definition versionOf (deps : gmap string string) (key : string) : string :=
  default EmptyString (deps !! key).

(** [{ ...pkg.dependencies, ...pkg.devDependencies }]: on a shared key
    the later spread wins. *)
Definition mergedDependencies (pkg : PackageJson) : gmap string string :=
  default ∅ (pkg_devDependencies pkg) ∪ default ∅ (pkg_dependencies pkg).

Definition pushIf (cond : bool) (label : string) : list string :=
  if cond then [label] else [].

(** lines 45-107: the labels, in the order they are pushed *)
Definition detectLabels (deps : gmap string string) : list string :=
  (if truthy deps "next" then ["Next.js " +:+ cleanVersion (versionOf deps "next")]
   else if truthy deps "react" then ["React " +:+ cleanVersion (versionOf deps "react")]
   else [])
  ++ pushIf (truthy deps "vue") ("Vue " +:+ cleanVersion (versionOf deps "vue"))
  ++ pushIf (truthy deps "svelte") ("Svelte " +:+ cleanVersion (versionOf deps "svelte"))
  ++ pushIf (truthy deps "tailwindcss") "TailwindCSS"
  ++ pushIf (truthy deps "styled-components") "Styled Components"
  ++ pushIf (truthy deps "@emotion/react" || truthy deps "@emotion/styled") "Emotion"
  ++ pushIf (truthy deps "zustand") "Zustand"
  ++ pushIf (truthy deps "redux" || truthy deps "@reduxjs/toolkit") "Redux"
  ++ pushIf (truthy deps "jotai") "Jotai"
  ++ pushIf (truthy deps "typescript") "TypeScript"
  ++ (if truthy deps "vitest" then ["Vitest"]
      else if truthy deps "jest" then ["Jest"]
      else [])
  ++ pushIf (truthy deps "vite") "Vite"
  ++ pushIf (truthy deps "turbopack" || truthy deps "turbo") "Turbo".

(** lines 131-165 *)
Definition generateSuggestions (detected : list string) : Suggestions :=
  let hasNext := existsb (fun d => includes d "Next.js") detected in
  let hasReact := existsb (fun d => includes d "React") detected in
  let hasVue := existsb (fun d => includes d "Vue") detected in
  {| sg_structure :=
       if hasNext then FeatureBased
       else if hasReact || hasVue then Atomic
       else FeatureBased;
     sg_watchPatterns :=
       if hasNext then ["app/**/*.{ts,tsx}"; "components/**/*.{ts,tsx}"]
       else if hasReact then ["src/components/**/*.{ts,tsx}"]
       else if hasVue then ["src/components/**/*.vue"]
       else ["src/**/*.{js,jsx,ts,tsx}"] |}.

Definition defaultDetection : DetectionResult :=
  {| dr_stack := ["JavaScript"];
     dr_suggestions := {| sg_structure := FeatureBased;
                          sg_watchPatterns := ["src/**/*.{js,jsx,ts,tsx}"] |} |}.

Section TechDetector.

(** [JSON.parse(content)], read at the type [PackageJson] *)
Variable parsePackageJson : string → Exc PackageJson.

(** [path.basename(process.cwd())] *)
Variable cwdName : string.

(** lines 35-126 *)
Definition detectFromPackageJson (w : World) (pkgPath : string) : Exc DetectionResult :=
  try_catch
    (content ← fs_readFile w pkgPath;
     pkg ← parsePackageJson content;
     let deps := mergedDependencies pkg in
     let detected := detectLabels deps in
     let suggestions := generateSuggestions detected in
     mret {| dr_stack := if nonEmpty detected then detected else ["JavaScript"];
             dr_suggestions := suggestions |})
    (fun _ => mret defaultDetection).

(** lines 177-185: [pkg.name || path.basename(process.cwd())] *)
Definition detectProjectName (w : World) (pkgPath : string) : Exc string :=
  try_catch
    (content ← fs_readFile w pkgPath;
     pkg ← parsePackageJson content;
     mret (match pkg_name pkg with
           | Some name => if String.eqb name EmptyString then cwdName else name
           | None => cwdName
           end))
    (fun _ => mret cwdName).

End TechDetector.

(** ** DocGenerator (doc-generator.ts) *)

(** templates/index.ts, lines 19-31 *)
Record ComponentTemplateData : Type := {
  td_name : string;
  td_description : option string;
  td_props : list PropMeta;
  td_example : option string;
  td_dependencies : option (list string);
  td_lastUpdated : option string
}.

(** What the provider is handed: [{ name, props, dependencies }]. *)
Record AIComponent : Type := {
  ai_name : string;
  ai_props : list PropMeta;
  ai_dependencies : list string
}.

Record AIProvider : Type := {
  generateDescription : AIComponent → M string;
  generateExample : AIComponent → M string
}.

Section DocGenerator.

Variable renderComponentDoc : ComponentTemplateData → M string.   (* templates/index.ts *)
Variable toISOString : Z → string.                                (* new Date().toISOString() *)
Variable mayWrite : string → bool.
Variable path_dirname : string → string.

(** The fields of the generator, lines 27-35 *)
Variable aiProvider : option AIProvider.
Variable includeExamples : bool.
Variable includeTimestamp : bool.

(** lines 45-50 *)
Definition templateDataOf (component : ComponentMeta) (w : World) : ComponentTemplateData :=
  {| td_name := cm_name component;
     td_description := None;
     td_props := cm_props component;
     td_example := None;
     td_dependencies :=
       if nonEmpty (cm_dependencies component) then Some (cm_dependencies component) else None;
     td_lastUpdated := if includeTimestamp then Some (toISOString (dateNow w)) else None |}.

Definition aiComponentOf (component : ComponentMeta) : AIComponent :=
  {| ai_name := cm_name component;
     ai_props := cm_props component;
     ai_dependencies := cm_dependencies component |}.

Definition withDescription (data : ComponentTemplateData) (description : string)
    : ComponentTemplateData :=
  {| td_name := td_name data;
     td_description := Some description;
     td_props := td_props data;
     td_example := td_example data;
     td_dependencies := td_dependencies data;
     td_lastUpdated := td_lastUpdated data |}.

Definition withExample (data : ComponentTemplateData) (example : string)
    : ComponentTemplateData :=
  {| td_name := td_name data;
     td_description := td_description data;
     td_props := td_props data;
     td_example := Some example;
     td_dependencies := td_dependencies data;
     td_lastUpdated := td_lastUpdated data |}.

(** lines 53-72: the template data after the calls to the provider.
    The description is assigned before the example is asked for, so it
    stays when the example fails; the [catch] swallows either failure. *)
Definition enrich (ai : AIProvider) (component : ComponentMeta) (data : ComponentTemplateData)
    (w : World) : World * ComponentTemplateData :=
  match generateDescription ai (aiComponentOf component) w with
  | (w1, Throw _) => (w1, data)
  | (w1, Ok description) =>
      let data1 := withDescription data description in
      if includeExamples then
        match generateExample ai (aiComponentOf component) w1 with
        | (w2, Throw _) => (w2, data1)
        | (w2, Ok example) => (w2, withExample data1 example)
        end
      else (w1, data1)
  end.

(** lines 43-76 *)
Definition generate (component : ComponentMeta) (useAI : bool) : M string := fun w =>
  let templateData := templateDataOf component w in
  match aiProvider with
  | Some ai =>
      if useAI then
        let '(w1, data) := enrich ai component templateData w in
        renderComponentDoc data w1
      else renderComponentDoc templateData w
  | None => renderComponentDoc templateData w
  end.

(** lines 84-96 *)
Definition generateToFileOf (component : ComponentMeta) (outputPath : string) (useAI : bool)
    : M unit :=
  markdown ← generate component useAI;
  _ ← fs_mkdir mayWrite (path_dirname outputPath);
  fs_writeFile mayWrite outputPath markdown.

(** lines 104-116: the map from component name to markdown *)
Fixpoint generateBatchLoop (components : list ComponentMeta) (useAI : bool)
    (results : gmap string string) : M (gmap string string) :=
  match components with
  | [] => mret results
  | component :: rest =>
      markdown ← generate component useAI;
      generateBatchLoop rest useAI (<[cm_name component := markdown]> results)
  end.

Definition generateBatch (components : list ComponentMeta) (useAI : bool)
    : M (gmap string string) :=
  generateBatchLoop components useAI ∅.

End DocGenerator.

(** ** Concrete worlds *)

Module Examples.

(** A stand-in for the digest: injective and never empty. *)
Definition demoDigest (s : string) : string := "sha256:" +:+ s.

Definition sourceFileOf (exports : list string) (imports : list (option string)) : SourceFile :=
  {| exportedDeclarations := map (fun name => (name, 1%nat)) exports;
     interfaces := [];
     functionJsDocs := [];
     variableStatementJsDocs := [];
     importDeclarations := map (fun p => {| moduleSpecifierSourceFile := p |}) imports |}.

Definition plainFile (bytes : string) (mtime : Q) : FileNode :=
  {| fileBytes := Some bytes; mtimeMs := mtime |}.

Definition cardStructure : ComponentStructure :=
  {| cs_name := "Card"; cs_props := [] |}.

Definition cardBytes : string := "import { Variant } from './types'; export const Card = null;".

(** [Card.tsx] imports [types.ts]; nothing is cached yet; [types.ts]
    was last written at [typesMtime], the clock reads 1000. *)
Definition cardWorldAt (typesMtime : Q) : World :=
  {| files := {[ "/app/Card.tsx" := plainFile cardBytes 400;
                 "/app/types.ts" := plainFile "export type Variant = 'primary';" typesMtime ]};
     cacheFiles := ∅;
     cacheWritable := true;
     project := {[ "/app/Card.tsx" := sourceFileOf ["Card"] [Some "/app/types.ts"] ]};
     dateNow := 1000;
     performanceNow := 0 |}.

Definition cardWorld : World := cardWorldAt 500.

(** The same tree with [types.ts] dated after the clock. *)
Definition futureDependencyWorld : World := cardWorldAt 5000.

Definition cardCached : World := (saveCache demoDigest cardWorld "/app/Card.tsx" cardStructure).1.

(** [Card.tsx] is edited after it was cached. *)
Definition cardEdited : World :=
  {| files := <["/app/Card.tsx" := plainFile "export const Card = 1;" 2000]> (files cardCached);
     cacheFiles := cacheFiles cardCached;
     cacheWritable := true;
     project := project cardCached;
     dateNow := 3000;
     performanceNow := 0 |}.

(** [Card.tsx] is cached while its import does not resolve: the
    snapshot list is empty. *)
Definition unresolvedWorld : World :=
  {| files := {[ "/app/Card.tsx" := plainFile cardBytes 400 ]};
     cacheFiles := ∅;
     cacheWritable := true;
     project := {[ "/app/Card.tsx" := sourceFileOf ["Card"] [None] ]};
     dateNow := 1000;
     performanceNow := 0 |}.

(** Later [types.ts] is moved into place with its old modification
    time, and the import resolves. *)
Definition movedInWorld : World :=
  {| files := <["/app/types.ts" := plainFile "export type Variant = 'primary';" 500]>
                (files unresolvedWorld);
     cacheFiles := cacheFiles (saveCache demoDigest unresolvedWorld "/app/Card.tsx" cardStructure).1;
     cacheWritable := true;
     project := {[ "/app/Card.tsx" := sourceFileOf ["Card"] [Some "/app/types.ts"] ]};
     dateNow := 2000;
     performanceNow := 0 |}.

(** No file at all: [Ghost.tsx] is neither on disk nor loadable. *)
Definition emptyWorld : World :=
  {| files := ∅;
     cacheFiles := ∅;
     cacheWritable := true;
     project := ∅;
     dateNow := 1000;
     performanceNow := 0 |}.

Definition ghostCached : World :=
  (saveCache demoDigest emptyWorld "/app/Ghost.tsx" {| cs_name := "Ghost"; cs_props := [] |}).1.

(** Two import declarations that name the same module. *)
Definition twiceImporting : SourceFile :=
  sourceFileOf ["Card"] [Some "/app/types.ts"; Some "/app/node_modules/react/index.d.ts";
                         Some "/app/types.ts"].

Definition twiceImportingWorld : World :=
  {| files := {[ "/app/Card.tsx" := plainFile cardBytes 400 ]};
     cacheFiles := ∅;
     cacheWritable := true;
     project := {[ "/app/Card.tsx" := twiceImporting ]};
     dateNow := 1000;
     performanceNow := 0 |}.

(** A file whose only export is in lower case. *)
Definition helperOnly : SourceFile := sourceFileOf ["useWidget"] [].

(** A file that exports a helper before its component. *)
Definition helperThenComponent : SourceFile := sourceFileOf ["useButton"; "Button"; "Icon"] [].

(** A batch of three staged files.  The second, [Broken.tsx], was
    removed from the working tree after it was staged: git still lists
    it, the disk lacks it, and the project cannot load it.  (A file with
    syntax errors would not do: the parser recovers and loads it.) *)
Definition batchWorld : World :=
  {| files := {[ "/app/A.tsx" := plainFile "export const A = 1;" 100;
                 "/app/C.tsx" := plainFile "export const C = 1;" 100 ]};
     cacheFiles := ∅;
     cacheWritable := true;
     project := {[ "/app/A.tsx" := sourceFileOf ["A"] [];
                   "/app/C.tsx" := sourceFileOf ["C"] [] ]};
     dateNow := 1000;
     performanceNow := 0 |}.

Definition quietGenerate : ComponentMeta → string → bool → M unit := fun _ _ _ w => (w, Ok ()).
Definition quietStage : string → M unit := fun _ w => (w, Ok ()).
Definition sameDirectory : string → string := fun _ => "/app".
Definition joinWithSlash (a b : string) : string := a +:+ "/" +:+ b.

End Examples.

(** Further worlds, for the properties of the second part. *)
Module Scenes.

(** After [Card.tsx] was cached: its own modification time is touched,
    and [theme.ts], which only [types.ts] imports, is rewritten. *)
Definition transitiveEdit : World :=
  {| files := <["/app/theme.ts" := Examples.plainFile "export const accent = 'red';" 9999]>
                (<["/app/Card.tsx" := Examples.plainFile Examples.cardBytes 9000]>
                   (files Examples.cardCached));
     cacheFiles := cacheFiles Examples.cardCached;
     cacheWritable := true;
     project := <["/app/types.ts" := Examples.sourceFileOf ["Variant"] [Some "/app/theme.ts"]]>
                  (project Examples.cardCached);
     dateNow := 9999;
     performanceNow := 0 |}.

(** [Card.tsx] imports [types.ts], which the project resolves but which
    is no longer on disk. *)
Definition danglingImport : World :=
  {| files := {[ "/app/Card.tsx" := Examples.plainFile Examples.cardBytes 400 ]};
     cacheFiles := ∅;
     cacheWritable := true;
     project := {[ "/app/Card.tsx" := Examples.sourceFileOf ["Card"] [Some "/app/types.ts"] ]};
     dateNow := 1000;
     performanceNow := 0 |}.

(** A button with a documented required prop and an optional one, and a
    second interface that is not a props interface. *)
Definition buttonSource : SourceFile :=
  {| exportedDeclarations := [("Button", 1%nat)];
     interfaces :=
       [ {| iface_name := "ButtonProps";
            iface_properties :=
              [ {| ps_name := "children"; ps_typeText := "React.ReactNode";
                   ps_hasQuestionToken := false;
                   ps_jsDocs := [ {| jsdoc_description := " Button label  " |} ] |};
                {| ps_name := "variant"; ps_typeText := "'primary' | 'secondary'";
                   ps_hasQuestionToken := true;
                   ps_jsDocs := [] |} ] |};
         {| iface_name := "Theme";
            iface_properties :=
              [ {| ps_name := "accent"; ps_typeText := "string";
                   ps_hasQuestionToken := false; ps_jsDocs := [] |} ] |} ];
     functionJsDocs := [];
     variableStatementJsDocs := [[]];
     importDeclarations := [ {| moduleSpecifierSourceFile := Some "/app/theme.ts" |};
                             {| moduleSpecifierSourceFile := None |} ] |}.

(** A props interface whose only member has a documentation comment
    made of a tag and no text: [getDescription()] is the empty string. *)
Definition deprecatedOnly : SourceFile :=
  {| exportedDeclarations := [("Card", 1%nat)];
     interfaces :=
       [ {| iface_name := "CardProps";
            iface_properties :=
              [ {| ps_name := "legacy"; ps_typeText := "boolean";
                   ps_hasQuestionToken := true;
                   ps_jsDocs := [ {| jsdoc_description := EmptyString |} ] |} ] |} ];
     functionJsDocs := [];
     variableStatementJsDocs := [];
     importDeclarations := [] |}.

Definition buttonWorld : World :=
  {| files := {[ "/app/Button.tsx" := Examples.plainFile "export const Button = null;" 100;
                 "/app/theme.ts" := Examples.plainFile "export const accent = 'red';" 100 ]};
     cacheFiles := ∅;
     cacheWritable := true;
     project := {[ "/app/Button.tsx" := buttonSource ]};
     dateNow := 1000;
     performanceNow := 0 |}.

(** Collaborators of [run]: a regular-expression test that accepts the
    [.tsx] files, and constructors that succeed. *)
Definition suffixTest : string → string → Exc bool :=
  fun source s => Ok (bool_decide (is_Some (stripSuffix ".tsx" s))).
Definition readyComponents : M unit := fun w => (w, Ok ()).

(** A collaborator that fails to stage. *)
Definition failingStage : string → M unit := fun _ w => (w, Throw (ExternalError "Failed to stage file")).

(** A git that answers every query with the same top-level directory. *)
Definition quietGit : string → string → M string :=
  fun _ _ w => (w, Ok ("/repo" +:+ String newline EmptyString)).


Definition everyPath : string → bool := fun _ => true.

Definition huskyHook : string := "#!/bin/sh npx husky run pre-commit".

(** A repository whose pre-commit hook belongs to another tool. *)
Definition foreignHookWorld : World :=
  {| files := {[ "/repo/.git/hooks/pre-commit" := Examples.plainFile huskyHook 50;
                 "/repo/src/A.tsx" := Examples.plainFile "export const A = 1;" 60 ]};
     cacheFiles := ∅;
     cacheWritable := true;
     project := ∅;
     dateNow := 1000;
     performanceNow := 0 |}.

(** A package that lists Next.js in both sections, and React. *)
Definition nextPackage : PackageJson :=
  {| pkg_dependencies := Some {[ "next" := "^14.0.0"; "react" := "^18.0.0" ]};
     pkg_devDependencies := Some {[ "next" := "~15.1.0"; "typescript" := "^5.0.0" ]};
     pkg_name := Some "shop" |}.

Definition parseDemo (content : string) : Exc PackageJson :=
  if String.eqb content "next-package" then Ok nextPackage
  else Throw (ExternalError "Unexpected token in JSON").

Definition packageWorld : World :=
  {| files := {[ "/repo/package.json" := Examples.plainFile "next-package" 10 ]};
     cacheFiles := ∅;
     cacheWritable := true;
     project := ∅;
     dateNow := 1000;
     performanceNow := 0 |}.

(** A renderer that prints the name and the description it is given. *)
Definition plainRender : ComponentTemplateData → M string :=
  fun data w => (w, Ok ("# " +:+ td_name data +:+ default EmptyString (td_description data))).

Definition fixedDate : Z → string := fun _ => "2026-01-21T00:00:00.000Z".

(** A provider whose requests are all refused. *)
Definition refusingProvider : AIProvider :=
  {| generateDescription := fun _ w => (w, Throw (ExternalError "429 Too Many Requests"));
     generateExample := fun _ w => (w, Throw (ExternalError "429 Too Many Requests")) |}.

Definition cardMeta (dependencies : list string) : ComponentMeta :=
  {| cm_name := "Card";
     cm_filePath := "/app/Card.tsx";
     cm_props := [];
     cm_dependencies := dependencies;
     cm_hasJSDoc := false |}.

End Scenes.

(** * Properties *)

Ltac exc_simpl :=
  unfold mbind, mret, exc_bind, exc_ret, m_bind, m_ret, try_catch, catch_null, reads, pure in *;
  simpl in *.

(** ** Numbers and lists *)

Lemma Qgtb_true (a b : Q) : Qgtb a b = true ↔ (b < a)%Q.
Proof.
  unfold Qgtb. rewrite negb_true_iff. split.
  - intros H. apply Qnot_le_lt. intros Hle.
    apply Qle_bool_iff in Hle. congruence.
  - intros H. destruct (Qle_bool a b) eqn:E; [|reflexivity].
    apply Qle_bool_iff in E. exfalso. exact (Qlt_not_le _ _ H E).
Qed.

Lemma Qgtb_false (a b : Q) : Qgtb a b = false ↔ (a <= b)%Q.
Proof.
  unfold Qgtb. rewrite negb_false_iff. apply Qle_bool_iff.
Qed.

Lemma find_path_is_Some (imp : string) (deps : list DependencyCache) :
  is_Some (List.find (fun d => String.eqb (dep_path d) imp) deps) ↔ imp ∈ map dep_path deps.
Proof.
  induction deps as [|d deps IH]; simpl.
  - split; [intros [x Hx]; discriminate | intros H; inversion H].
  - destruct (String.eqb (dep_path d) imp) eqn:E.
    + apply String.eqb_eq in E. subst. split; [intros _; left | intros _; eauto].
    + apply String.eqb_neq in E. rewrite IH. split.
      * intros H. right. exact H.
      * intros H. inversion H; subst; [congruence | assumption].
Qed.

(** ** The cache store *)

Section CacheManagerFacts.

Variable sha256 : string → string.

Lemma hashFile_eq (w : World) (filePath : string) :
  hashFile sha256 w filePath =
  Ok (match fs_readFile w filePath with Ok content => sha256 content | Throw _ => "" end).
Proof.
  unfold hashFile. destruct (fs_readFile w filePath); reflexivity.
Qed.

Lemma loadCache_eq (w : World) (filePath : string) :
  loadCache sha256 w filePath =
  Ok (match storedEntry sha256 w filePath with
      | Some e => if String.eqb (version e) this_version then Some e else None
      | None => None
      end).
Proof.
  unfold loadCache, storedEntry.
  destruct (cacheFiles w !! getCacheFilePath sha256 filePath) as [[|e]|]; try reflexivity.
  exc_simpl. destruct (String.eqb (version e) this_version); reflexivity.
Qed.

Lemma extractImports_eq (w : World) (filePath : string) :
  extractImports w filePath = Ok (liveDependencies w filePath).
Proof.
  unfold liveDependencies, extractImports.
  destruct (getOrAddSourceFile w filePath); reflexivity.
Qed.

Lemma dependencyModified_true (w : World) (e : CacheEntry) (imports : list string) :
  dependencyModified w e imports = true ↔
  ∃ d node, d ∈ imports ∧ files w !! d = Some node ∧
            ((inject_Z (lastParsed e) < mtimeMs node)%Q ∨ d ∉ snapshotPaths e).
Proof.
  induction imports as [|imp rest IH]; simpl.
  - split; [discriminate | intros (d & node & Hd & _); inversion Hd].
  - unfold fs_stat, catch_null. destruct (files w !! imp) as [stats|] eqn:Hstat.
    + destruct (negb (bool_decide (is_Some (List.find (fun d => String.eqb (dep_path d) imp)
                                                       (dependencies e))))
                || Qgtb (mtimeMs stats) (inject_Z (lastParsed e))) eqn:Hcond.
      * split; [intros _ | reflexivity].
        exists imp, stats. split; [left|]. split; [assumption|].
        apply orb_true_iff in Hcond as [Hmiss | Hnew].
        -- right. apply negb_true_iff, bool_decide_eq_false in Hmiss.
           rewrite find_path_is_Some in Hmiss. exact Hmiss.
        -- left. apply Qgtb_true. exact Hnew.
      * rewrite IH. apply orb_false_iff in Hcond as [Hhit Hold].
        apply negb_false_iff, bool_decide_eq_true in Hhit.
        rewrite find_path_is_Some in Hhit. apply Qgtb_false in Hold.
        split.
        -- intros (d & node & Hd & Hnode & Hwhy). exists d, node.
           split; [right; assumption | split; assumption].
        -- intros (d & node & Hd & Hnode & Hwhy).
           inversion Hd; subst.
           ++ exfalso. rewrite Hstat in Hnode. injection Hnode as <-.
              destruct Hwhy as [Hlt | Hout].
              ** exact (Qlt_not_le _ _ Hlt Hold).
              ** exact (Hout Hhit).
           ++ exists d, node. split; [assumption | split; assumption].
    + rewrite IH. split.
      * intros (d & node & Hd & Hnode & Hwhy). exists d, node.
        split; [right; assumption | split; assumption].
      * intros (d & node & Hd & Hnode & Hwhy).
        inversion Hd; subst; [congruence|].
        exists d, node. split; [assumption | split; assumption].
Qed.

(** [needsUpdate] never rejects, and its answer is decided by the
    stored entry, the digest and the loop over the live imports. *)
Lemma needsUpdate_eq (w : World) (filePath : string) :
  needsUpdate sha256 w filePath =
  Ok (match storedEntry sha256 w filePath with
      | None => true
      | Some e =>
          negb (String.eqb (version e) this_version)
          || negb (String.eqb (match fs_readFile w filePath with
                               | Ok content => sha256 content
                               | Throw _ => ""
                               end) (fileHash e))
          || dependencyModified w e (liveDependencies w filePath)
      end).
Proof.
  unfold needsUpdate. rewrite loadCache_eq.
  destruct (storedEntry sha256 w filePath) as [e|]; [|reflexivity].
  exc_simpl. destruct (String.eqb (version e) this_version); [|reflexivity].
  rewrite hashFile_eq. exc_simpl.
  destruct (String.eqb _ (fileHash e)); [|reflexivity].
  rewrite extractImports_eq. exc_simpl.
  destruct (dependencyModified w e (liveDependencies w filePath)); reflexivity.
Qed.

Lemma loadCache_Some (w : World) (filePath : string) (e : CacheEntry) :
  loadCache sha256 w filePath = Ok (Some e) ↔
  storedEntry sha256 w filePath = Some e ∧ version e = this_version.
Proof.
  rewrite loadCache_eq. destruct (storedEntry sha256 w filePath) as [e'|].
  - destruct (String.eqb (version e') this_version) eqn:E.
    + apply String.eqb_eq in E. split.
      * intros H. injection H as <-. split; [reflexivity | assumption].
      * intros [H _]. injection H as <-. reflexivity.
    + apply String.eqb_neq in E. split; [discriminate|].
      intros [H Hv]. injection H as <-. contradiction.
  - split; [discriminate | intros [H _]; discriminate].
Qed.

Lemma hashFile_matches (w : World) (filePath : string) (e : CacheEntry) :
  hashFile sha256 w filePath = Ok (fileHash e) ↔
  String.eqb (match fs_readFile w filePath with
              | Ok content => sha256 content
              | Throw _ => ""
              end) (fileHash e) = true.
Proof.
  rewrite hashFile_eq, String.eqb_eq. split; [intros H; injection H as H; exact H | congruence].
Qed.

(** When the import list cannot be derived, [extractImports] answers with
    the empty list instead of rejecting. *)
Lemma extractImports_swallows (w : World) (filePath : string) :
  throws (getOrAddSourceFile w filePath) → extractImports w filePath = Ok [].
Proof.
  intros [err Herr]. unfold extractImports. rewrite Herr. reflexivity.
Qed.

(** With a cached digest that still matches, an import list that cannot
    be derived leaves the cache trusted. *)
Lemma needsUpdate_false_when_imports_fail (w : World) (filePath : string) (e : CacheEntry) :
  loadCache sha256 w filePath = Ok (Some e) →
  hashFile sha256 w filePath = Ok (fileHash e) →
  throws (getOrAddSourceFile w filePath) →
  needsUpdate sha256 w filePath = Ok false.
Proof.
  intros Hload Hhash Hthrows.
  apply loadCache_Some in Hload as [Hstored Hversion].
  apply hashFile_matches in Hhash.
  rewrite needsUpdate_eq, Hstored, Hhash, Hversion.
  assert (Hlive : liveDependencies w filePath = []).
  { unfold liveDependencies. rewrite (extractImports_swallows _ _ Hthrows). reflexivity. }
  rewrite Hlive. reflexivity.
Qed.

Lemma snapshotDependency_eq (w : World) (imp : string) (node : FileNode) :
  files w !! imp = Some node →
  snapshotDependency sha256 w imp =
  Ok {| dep_path := imp;
        dep_hash := match fs_readFile w imp with
                    | Ok content => sha256 content
                    | Throw _ => ""
                    end;
        dep_mtime := mtimeMs node |}.
Proof.
  intros Hnode. unfold snapshotDependency, fs_stat. rewrite Hnode, hashFile_eq. reflexivity.
Qed.

Lemma mapM_snapshotDependency (w : World) (imports : list string) :
  (∀ d, d ∈ imports → is_Some (files w !! d)) →
  ∃ deps, mapM (snapshotDependency sha256 w) imports = Ok deps ∧ map dep_path deps = imports.
Proof.
  induction imports as [|imp rest IH]; intros Hall.
  - exists []. split; reflexivity.
  - destruct IH as (deps & Hdeps & Hpaths).
    { intros d Hd. apply Hall. right. exact Hd. }
    destruct (Hall imp) as [node Hnode]; [left|].
    exists ({| dep_path := imp;
               dep_hash := match fs_readFile w imp with
                           | Ok content => sha256 content
                           | Throw _ => ""
                           end;
               dep_mtime := mtimeMs node |} :: deps).
    split; [|simpl; congruence].
    simpl. rewrite (snapshotDependency_eq w imp node Hnode), Hdeps. reflexivity.
Qed.

(** The world a successful [saveCache] leaves behind. *)
Lemma saveCache_success (w : World) (filePath : string) (structure : ComponentStructure) :
  cacheWritable w = true →
  (∀ d, d ∈ liveDependencies w filePath → is_Some (files w !! d)) →
  ∃ deps,
    map dep_path deps = liveDependencies w filePath ∧
    (saveCache sha256 w filePath structure).1 =
    writeCacheFile w (getCacheFilePath sha256 filePath)
      {| fileHash := match fs_readFile w filePath with
                     | Ok content => sha256 content
                     | Throw _ => ""
                     end;
         dependencies := deps;
         structure := structure;
         lastParsed := dateNow w;
         version := this_version |}.
Proof.
  intros Hwritable Hall.
  destruct (mapM_snapshotDependency w _ Hall) as (deps & Hdeps & Hpaths).
  exists deps. split; [assumption|].
  unfold saveCache, saveCacheTry. rewrite Hwritable, extractImports_eq, hashFile_eq.
  exc_simpl. rewrite Hdeps. reflexivity.
Qed.

Lemma dependencyModified_unlink (w : World) (e : CacheEntry) (d : string) (imports : list string) :
  dependencyModified w e imports = false →
  dependencyModified (unlink w d) e imports = false.
Proof.
  intros H. apply not_true_is_false. intros Hafter. apply not_true_iff_false in H. apply H.
  apply dependencyModified_true in Hafter as (d' & node & Hd' & Hnode & Hwhy).
  apply dependencyModified_true. exists d', node. split; [assumption|]. split; [|assumption].
  simpl in Hnode. apply lookup_delete_Some in Hnode as [_ Hnode]. exact Hnode.
Qed.

Lemma dependencyModified_skips_missing (w : World) (e : CacheEntry) (d : string)
    (before after : list string) :
  files w !! d = None →
  dependencyModified w e (before ++ d :: after) = dependencyModified w e (before ++ after).
Proof.
  intros Hmissing. induction before as [|imp rest IH]; simpl.
  - unfold fs_stat. rewrite Hmissing. reflexivity.
  - rewrite IH. reflexivity.
Qed.

End CacheManagerFacts.

Section CacheStoreClaims.

Variable sha256 : string → string.

(** C7 (as amended).  For a path whose bytes cannot be read, [hashFile]
    does not reject: its own [catch] turns the failure into the empty
    string, which the callers then compare like any digest. *)
Theorem hashFile_unreadable_gives_empty_string (w : World) (filePath : string) :
  throws (fs_readFile w filePath) → hashFile sha256 w filePath = Ok "".
Proof.
  intros [err Herr]. rewrite hashFile_eq, Herr. reflexivity.
Qed.

(** C1 (as amended).  [needsUpdate] always answers, and it answers [true]
    exactly when no entry is stored, or the stored version differs from
    the running one, or the current digest differs from the stored
    [fileHash], or some live direct dependency that is on disk has a
    modification time strictly after [lastParsed], or some live direct
    dependency that is on disk is missing from the stored snapshot list.
    In particular, under an injective digest, a cached file whose bytes
    were changed is stale. *)
Theorem needsUpdate_true_iff_stale (w : World) (filePath : string) :
  (needsUpdate sha256 w filePath = Ok true ∨ needsUpdate sha256 w filePath = Ok false) ∧
  (needsUpdate sha256 w filePath = Ok true ↔ staleByCode sha256 w filePath) ∧
  (∀ e old new,
     (∀ a b, sha256 a = sha256 b → a = b) →
     storedEntry sha256 w filePath = Some e →
     fileHash e = sha256 old →
     fs_readFile w filePath = Ok new →
     new ≠ old →
     needsUpdate sha256 w filePath = Ok true).
Proof.
  split; [|split].
  - rewrite needsUpdate_eq.
    match goal with |- Ok ?b = _ ∨ _ => destruct b end; [left | right]; reflexivity.
  - rewrite needsUpdate_eq. unfold staleByCode.
    destruct (storedEntry sha256 w filePath) as [e|]; [|split; reflexivity || constructor].
    rewrite hashFile_eq.
    set (h := match fs_readFile w filePath with Ok content => sha256 content | Throw _ => "" end).
    split.
    + intros H. injection H as H.
      apply orb_true_iff in H as [H | Hdeps]; [apply orb_true_iff in H as [Hv | Hh]|].
      * left. apply negb_true_iff, String.eqb_neq in Hv. exact Hv.
      * right; left. apply negb_true_iff, String.eqb_neq in Hh. congruence.
      * apply dependencyModified_true in Hdeps as (d & node & Hd & Hnode & [Hnew | Hout]).
        -- right; right; left. exists d, node. auto.
        -- right; right; right. exists d, node. auto.
    + intros H. f_equal. apply orb_true_iff.
      destruct H as [Hv | [Hh | Hdeps]].
      * left. apply orb_true_iff. left. apply negb_true_iff, String.eqb_neq. exact Hv.
      * left. apply orb_true_iff. right. apply negb_true_iff, String.eqb_neq. congruence.
      * right. apply dependencyModified_true.
        destruct Hdeps as [(d & node & Hd & Hnode & Hnew) | (d & node & Hd & Hnode & Hout)];
          exists d, node; auto.
  - intros e old new Hinj Hstored Hhash Hread Hchanged.
    rewrite needsUpdate_eq, Hstored, Hread, Hhash.
    assert (Hne : String.eqb (sha256 new) (sha256 old) = false).
    { apply String.eqb_neq. intros Heq. apply Hchanged, Hinj, Heq. }
    rewrite Hne. simpl. rewrite orb_true_r. reflexivity.
Qed.

(** C10.  With an entry of the running version and a digest that still
    matches, a live import that is on disk but that the stored snapshot
    list does not mention makes [needsUpdate] answer [true], whatever the
    modification time of that import. *)
Theorem untracked_dependency_forces_update
    (w : World) (filePath : string) (e : CacheEntry) (d : string) (node : FileNode) :
  loadCache sha256 w filePath = Ok (Some e) →
  hashFile sha256 w filePath = Ok (fileHash e) →
  d ∈ liveDependencies w filePath →
  files w !! d = Some node →
  d ∉ snapshotPaths e →
  needsUpdate sha256 w filePath = Ok true.
Proof.
  intros Hload Hhash Hlive Hnode Hout.
  apply loadCache_Some in Hload as [Hstored Hversion].
  apply hashFile_matches in Hhash.
  rewrite needsUpdate_eq, Hstored, Hhash, Hversion. simpl. f_equal.
  apply dependencyModified_true. exists d, node. auto.
Qed.

(** C4.  A dependency that is missing from disk is passed over by the
    dependency loop, and deleting a dependency from disk does not turn an
    up-to-date answer into a stale one. *)
Theorem deleted_dependency_is_skipped (w : World) (filePath d : string) :
  (∀ e before after,
     files w !! d = None →
     dependencyModified w e (before ++ d :: after) = dependencyModified w e (before ++ after)) ∧
  (d ≠ filePath →
   needsUpdate sha256 w filePath = Ok false →
   needsUpdate sha256 (unlink w d) filePath = Ok false).
Proof.
  split.
  - intros e before after Hmissing. apply dependencyModified_skips_missing. exact Hmissing.
  - intros Hne Hfresh. rewrite needsUpdate_eq in Hfresh. rewrite needsUpdate_eq.
    assert (Hread : fs_readFile (unlink w d) filePath = fs_readFile w filePath).
    { unfold fs_readFile. simpl. rewrite lookup_delete_ne by exact Hne. reflexivity. }
    assert (Hstored : storedEntry sha256 (unlink w d) filePath = storedEntry sha256 w filePath)
      by reflexivity.
    assert (Hlive : liveDependencies (unlink w d) filePath = liveDependencies w filePath)
      by reflexivity.
    rewrite Hread, Hstored, Hlive.
    destruct (storedEntry sha256 w filePath) as [e|]; [|exact Hfresh].
    injection Hfresh as Hfresh. f_equal.
    apply orb_false_iff in Hfresh as [Hfirst Hdeps].
    rewrite Hfirst. simpl. apply dependencyModified_unlink. exact Hdeps.
Qed.

(** C2 (as amended).  When the save goes through (the cache directory
    can be written and every live import is on disk) and no live import
    carries a modification time after the clock's reading at the save,
    [needsUpdate] answers [false] right after [saveCache], and in every
    later world in which the cache file, the bytes of the file, its import
    list and the nodes of its imports are the same. *)
Theorem save_then_needsUpdate_is_false
    (w : World) (filePath : string) (structure : ComponentStructure) :
  cacheWritable w = true →
  (∀ d, d ∈ liveDependencies w filePath →
        ∃ node, files w !! d = Some node ∧ (mtimeMs node <= inject_Z (dateNow w))%Q) →
  ∀ w2, unchangedFor sha256 filePath (saveCache sha256 w filePath structure).1 w2 →
        needsUpdate sha256 w2 filePath = Ok false.
Proof.
  intros Hwritable Hdeps w2 (Hcache & Hread & Hproject & Hnodes).
  destruct (saveCache_success sha256 w filePath structure Hwritable) as (deps & Hpaths & Hsaved).
  { intros d Hd. destruct (Hdeps d Hd) as (node & Hnode & _). eauto. }
  rewrite Hsaved in Hcache, Hread, Hproject, Hnodes. clear Hsaved.
  assert (Hlive1 : ∀ w', project w' !! filePath = project w !! filePath →
                         liveDependencies w' filePath = liveDependencies w filePath).
  { intros w' Hp. unfold liveDependencies, extractImports, getOrAddSourceFile. rewrite Hp.
    reflexivity. }
  assert (Hlive2 : liveDependencies w2 filePath = liveDependencies w filePath)
    by (apply Hlive1; exact Hproject).
  rewrite (Hlive1 (writeCacheFile w _ _) eq_refl) in Hnodes.
  rewrite needsUpdate_eq. unfold storedEntry. rewrite Hcache. simpl.
  rewrite lookup_insert_eq. simpl.
  assert (Hread' : fs_readFile w2 filePath = fs_readFile w filePath) by exact Hread.
  rewrite Hread', String.eqb_refl, Hlive2. simpl. f_equal.
  apply not_true_is_false. intros Hmod.
  apply dependencyModified_true in Hmod as (d & node & Hd & Hnode & Hwhy). simpl in Hwhy.
  destruct (Hdeps d Hd) as (node' & Hnode' & Hold).
  rewrite (Hnodes d Hd) in Hnode. simpl in Hnode. rewrite Hnode' in Hnode. injection Hnode as <-.
  destruct Hwhy as [Hnew | Hout].
  - exact (Qlt_not_le _ _ Hnew Hold).
  - apply Hout. unfold snapshotPaths. simpl. rewrite Hpaths. exact Hd.
Qed.

End CacheStoreClaims.

(** *** The cache store on concrete worlds *)

Lemma demoDigest_injective (a b : string) :
  Examples.demoDigest a = Examples.demoDigest b → a = b.
Proof.
  unfold Examples.demoDigest. simpl. intros H. injection H as H. exact H.
Qed.

(** C7, the claim as stated fails: nothing can be read at the path, and
    [hashFile] still resolves, with the empty string. *)
Lemma hashFile_unreadable_does_not_reject :
  throws (fs_readFile Examples.emptyWorld "/app/Ghost.tsx") ∧
  hashFile Examples.demoDigest Examples.emptyWorld "/app/Ghost.tsx" = Ok "" ∧
  ¬ throws (hashFile Examples.demoDigest Examples.emptyWorld "/app/Ghost.tsx").
Proof.
  split; [|split].
  - exists (FsError "/app/Ghost.tsx"). reflexivity.
  - reflexivity.
  - intros [err Herr]. discriminate Herr.
Qed.

Lemma hashFile_unreadable_witness :
  throws (fs_readFile Examples.cardWorld "/app/missing.ts") ∧
  hashFile Examples.demoDigest Examples.cardWorld "/app/missing.ts" = Ok "".
Proof.
  assert (H : throws (fs_readFile Examples.cardWorld "/app/missing.ts")).
  { exists (FsError "/app/missing.ts"). reflexivity. }
  split; [exact H|].
  exact (hashFile_unreadable_gives_empty_string Examples.demoDigest
           Examples.cardWorld "/app/missing.ts" H).
Defined.

(** C1, the claim as stated fails: [types.ts] is on disk, older than
    [lastParsed] and absent from the snapshot list; none of the four
    causes of the claim holds, and [needsUpdate] answers [true]. *)
Lemma needsUpdate_true_without_the_four_causes :
  needsUpdate Examples.demoDigest Examples.movedInWorld "/app/Card.tsx" = Ok true ∧
  ¬ staleBySpec Examples.demoDigest Examples.movedInWorld "/app/Card.tsx".
Proof.
  split; [vm_compute; reflexivity|].
  unfold staleBySpec.
  destruct (storedEntry Examples.demoDigest Examples.movedInWorld "/app/Card.tsx")
    as [e|] eqn:Hstored; [|vm_compute in Hstored; discriminate Hstored].
  vm_compute in Hstored. injection Hstored as <-.
  intros [Hversion | [Hhash | (d & node & Hd & Hnode & Hnew)]].
  - apply Hversion. reflexivity.
  - apply Hhash. vm_compute. reflexivity.
  - assert (Hlive : liveDependencies Examples.movedInWorld "/app/Card.tsx" = ["/app/types.ts"])
      by (vm_compute; reflexivity).
    rewrite Hlive in Hd. apply list_elem_of_singleton in Hd. subst d.
    assert (Hfile : files Examples.movedInWorld !! "/app/types.ts"
                    = Some (Examples.plainFile "export type Variant = 'primary';" 500))
      by (vm_compute; reflexivity).
    rewrite Hfile in Hnode. injection Hnode as <-.
    revert Hnew. unfold Qlt. simpl. lia.
Qed.

Lemma needsUpdate_true_iff_stale_witness :
  needsUpdate Examples.demoDigest Examples.cardCached "/app/Card.tsx" = Ok false ∧
  needsUpdate Examples.demoDigest Examples.cardEdited "/app/Card.tsx" = Ok true.
Proof.
  split; [vm_compute; reflexivity|].
  eapply (proj2 (proj2 (needsUpdate_true_iff_stale Examples.demoDigest
                          Examples.cardEdited "/app/Card.tsx")))
    with (old := Examples.cardBytes) (new := "export const Card = 1;").
  - exact demoDigest_injective.
  - vm_compute. reflexivity.
  - reflexivity.
  - vm_compute. reflexivity.
  - discriminate.
Defined.

Lemma untracked_dependency_witness :
  ∃ e node,
    loadCache Examples.demoDigest Examples.movedInWorld "/app/Card.tsx" = Ok (Some e) ∧
    files Examples.movedInWorld !! "/app/types.ts" = Some node ∧
    (mtimeMs node <= inject_Z (lastParsed e))%Q ∧
    needsUpdate Examples.demoDigest Examples.movedInWorld "/app/Card.tsx" = Ok true.
Proof.
  eexists. exists (Examples.plainFile "export type Variant = 'primary';" 500).
  assert (Hload : loadCache Examples.demoDigest Examples.movedInWorld "/app/Card.tsx"
                  = Ok (Some {| fileHash := Examples.demoDigest Examples.cardBytes;
                                dependencies := [];
                                structure := Examples.cardStructure;
                                lastParsed := 1000;
                                version := this_version |}))
    by (vm_compute; reflexivity).
  assert (Hnode : files Examples.movedInWorld !! "/app/types.ts"
                  = Some (Examples.plainFile "export type Variant = 'primary';" 500))
    by (vm_compute; reflexivity).
  split; [exact Hload|]. split; [exact Hnode|]. split.
  - unfold Qle. simpl. lia.
  - eapply (untracked_dependency_forces_update Examples.demoDigest Examples.movedInWorld
              "/app/Card.tsx" _ "/app/types.ts" _ Hload).
    + vm_compute. reflexivity.
    + assert (Hlive : liveDependencies Examples.movedInWorld "/app/Card.tsx" = ["/app/types.ts"])
        by (vm_compute; reflexivity).
      rewrite Hlive. left.
    + exact Hnode.
    + simpl. intros Hin. inversion Hin.
Defined.

Lemma deleted_dependency_witness :
  needsUpdate Examples.demoDigest Examples.cardCached "/app/Card.tsx" = Ok false ∧
  files (unlink Examples.cardCached "/app/types.ts") !! "/app/types.ts" = None ∧
  needsUpdate Examples.demoDigest (unlink Examples.cardCached "/app/types.ts") "/app/Card.tsx"
  = Ok false.
Proof.
  assert (Hfresh : needsUpdate Examples.demoDigest Examples.cardCached "/app/Card.tsx" = Ok false)
    by (vm_compute; reflexivity).
  split; [exact Hfresh|]. split; [vm_compute; reflexivity|].
  apply (proj2 (deleted_dependency_is_skipped Examples.demoDigest Examples.cardCached
                  "/app/Card.tsx" "/app/types.ts")).
  - discriminate.
  - exact Hfresh.
Defined.

(** C2, the claim as stated fails: [types.ts] carries a modification
    time after the clock's reading; the save goes through, nothing
    changes, and [needsUpdate] answers [true]. *)
Lemma save_then_needsUpdate_true_on_future_mtime :
  is_Some (storedEntry Examples.demoDigest
             (saveCache Examples.demoDigest Examples.futureDependencyWorld
                "/app/Card.tsx" Examples.cardStructure).1 "/app/Card.tsx") ∧
  needsUpdate Examples.demoDigest
    (saveCache Examples.demoDigest Examples.futureDependencyWorld
       "/app/Card.tsx" Examples.cardStructure).1 "/app/Card.tsx" = Ok true.
Proof.
  split; [vm_compute; eauto | vm_compute; reflexivity].
Qed.

Lemma save_then_needsUpdate_witness :
  cacheWritable Examples.cardWorld = true ∧
  needsUpdate Examples.demoDigest Examples.cardCached "/app/Card.tsx" = Ok false.
Proof.
  split; [reflexivity|].
  apply (save_then_needsUpdate_is_false Examples.demoDigest Examples.cardWorld
           "/app/Card.tsx" Examples.cardStructure).
  - reflexivity.
  - intros d Hd.
    assert (Hlive : liveDependencies Examples.cardWorld "/app/Card.tsx" = ["/app/types.ts"])
      by (vm_compute; reflexivity).
    rewrite Hlive in Hd. apply list_elem_of_singleton in Hd. subst d.
    exists (Examples.plainFile "export type Variant = 'primary';" 500).
    split; [vm_compute; reflexivity|]. unfold Qle. simpl. lia.
  - repeat split.
Defined.

(** C3, the code at the failing input: [Ghost.tsx] is neither on disk nor
    loadable; [saveCache] stored an entry for it all the same; deriving
    its imports fails, the failure is turned into an empty import list,
    and [needsUpdate] answers [false]. *)
Theorem import_failure_leaves_cache_trusted :
  is_Some (storedEntry Examples.demoDigest Examples.ghostCached "/app/Ghost.tsx") ∧
  throws (getOrAddSourceFile Examples.ghostCached "/app/Ghost.tsx") ∧
  extractImports Examples.ghostCached "/app/Ghost.tsx" = Ok [] ∧
  needsUpdate Examples.demoDigest Examples.ghostCached "/app/Ghost.tsx" = Ok false.
Proof.
  split; [vm_compute; eauto|]. split; [exists (ProjectError "/app/Ghost.tsx"); reflexivity|].
  split; vm_compute; reflexivity.
Qed.

(** ** The extractor *)

Lemma list_ascii_of_string_app (a b : string) :
  list_ascii_of_string (a +:+ b) = (list_ascii_of_string a ++ list_ascii_of_string b)%list.
Proof.
  induction a as [|c a IH]; simpl; [reflexivity | rewrite IH; reflexivity].
Qed.

Lemma string_of_list_ascii_app (a b : list ascii) :
  string_of_list_ascii (a ++ b)%list = string_of_list_ascii a +:+ string_of_list_ascii b.
Proof.
  induction a as [|c a IH]; simpl; [reflexivity | rewrite IH; reflexivity].
Qed.

Lemma fromEnd_app (a b : string) : fromEnd (a +:+ b) = (fromEnd b ++ fromEnd a)%list.
Proof.
  unfold fromEnd. rewrite list_ascii_of_string_app. apply rev_app_distr.
Qed.

Lemma toEnd_fromEnd (s : string) : toEnd (fromEnd s) = s.
Proof.
  unfold toEnd, fromEnd. rewrite rev_involutive. apply string_of_list_ascii_of_string.
Qed.

Lemma stripLeading_Some (pre l rest : list ascii) :
  stripLeading pre l = Some rest ↔ l = (pre ++ rest)%list.
Proof.
  revert l. induction pre as [|p pre IH]; intros l; simpl.
  - split; [intros H; injection H as ->; reflexivity | intros ->; reflexivity].
  - destruct l as [|c l]; [split; discriminate|].
    destruct (Ascii.eqb p c) eqn:E.
    + apply Ascii.eqb_eq in E. subst c. rewrite IH. split; [intros ->; reflexivity|].
      intros H. injection H as H. exact H.
    + apply Ascii.eqb_neq in E. split; [discriminate|].
      intros H. injection H as H _. congruence.
Qed.

Lemma stripSuffix_Some (suffix name stem : string) :
  stripSuffix suffix name = Some stem ↔ name = stem +:+ suffix.
Proof.
  unfold stripSuffix. split.
  - destruct (stripLeading (fromEnd suffix) (fromEnd name)) as [rest|] eqn:E; [|discriminate].
    simpl. intros H. injection H as <-.
    apply stripLeading_Some in E.
    rewrite <- (toEnd_fromEnd name), E. unfold toEnd, fromEnd.
    rewrite rev_app_distr, rev_involutive, string_of_list_ascii_app.
    rewrite string_of_list_ascii_of_string. reflexivity.
  - intros ->. rewrite fromEnd_app.
    assert (E : stripLeading (fromEnd suffix) (fromEnd suffix ++ fromEnd stem)%list
                = Some (fromEnd stem))
      by (apply stripLeading_Some; reflexivity).
    rewrite E. simpl. rewrite toEnd_fromEnd. reflexivity.
Qed.

Lemma startsUpper_not_default (name : string) :
  startsUpper name = true → String.eqb name "default" = false.
Proof.
  intros H. apply String.eqb_neq. intros ->. discriminate H.
Qed.

Lemma firstComponentExport_first (before after : list (string * nat)) (name : string) (n : nat) :
  startsUpper name = true →
  (∀ other, other ∈ map fst before → startsUpper other = false) →
  firstComponentExport (before ++ (name, n) :: after)%list = Some name.
Proof.
  intros Hname. induction before as [|[other k] before IH]; intros Hbefore; simpl.
  - rewrite (startsUpper_not_default name Hname), Hname. reflexivity.
  - rewrite (Hbefore other) by (simpl; left).
    rewrite IH by (intros o Ho; apply Hbefore; simpl; right; exact Ho).
    destruct (String.eqb other "default"); reflexivity.
Qed.

Lemma firstComponentExport_none (entries : list (string * nat)) :
  (∀ name, name ∈ map fst entries → startsUpper name = false) →
  firstComponentExport entries = None.
Proof.
  induction entries as [|[name k] entries IH]; intros Hall; simpl; [reflexivity|].
  rewrite (Hall name) by (simpl; left).
  rewrite IH by (intros o Ho; apply Hall; simpl; right; exact Ho).
  destruct (String.eqb name "default"); reflexivity.
Qed.

Lemma stripScriptExtension_drops (stem ext : string) :
  ext ∈ scriptExtensions → stripScriptExtension (stem +:+ ext) = stem.
Proof.
  unfold scriptExtensions. intros Hext.
  repeat (apply elem_of_cons in Hext as [-> | Hext]); [| | | | apply elem_of_nil in Hext as []];
    unfold stripScriptExtension, stripSuffix; rewrite fromEnd_app;
    match goal with
    | |- context [(fromEnd ?e ++ _)%list] =>
        let l := eval vm_compute in (fromEnd e) in change (fromEnd e) with l
    end;
    simpl; apply toEnd_fromEnd.
Qed.

Lemma stripScriptExtension_cases (name : string) :
  stripScriptExtension name = name ∨
  ∃ ext, ext ∈ scriptExtensions ∧ name = stripScriptExtension name +:+ ext.
Proof.
  unfold stripScriptExtension, scriptExtensions.
  destruct (stripSuffix ".tsx" name) eqn:E1.
  { right. exists ".tsx". split; [set_solver | apply stripSuffix_Some; exact E1]. }
  destruct (stripSuffix ".jsx" name) eqn:E2.
  { right. exists ".jsx". split; [set_solver | apply stripSuffix_Some; exact E2]. }
  destruct (stripSuffix ".ts" name) eqn:E3.
  { right. exists ".ts". split; [set_solver | apply stripSuffix_Some; exact E3]. }
  destruct (stripSuffix ".js" name) eqn:E4.
  { right. exists ".js". split; [set_solver | apply stripSuffix_Some; exact E4]. }
  left. reflexivity.
Qed.

Lemma extractDependenciesLoop_eq (imports : list ImportDeclaration) :
  extractDependenciesLoop imports =
  List.filter isLocalPath (omap moduleSpecifierSourceFile imports).
Proof.
  induction imports as [|imp rest IH]; simpl; [reflexivity|].
  destruct (moduleSpecifierSourceFile imp) as [p|]; simpl; [|exact IH].
  unfold isLocalPath at 1.
  destruct (negb (includes p "node_modules") && negb (includes p "@types"));
    rewrite IH; reflexivity.
Qed.

(** The two copies of the import loop agree. *)
Lemma localImports_eq (imports : list ImportDeclaration) :
  localImports imports = extractDependenciesLoop imports.
Proof.
  induction imports as [|imp rest IH]; simpl; [reflexivity|].
  rewrite IH. reflexivity.
Qed.

Lemma analyze_Ok (w : World) (filePath : string) (meta : ComponentMeta) :
  analyze w filePath = Ok meta →
  ∃ sourceFile,
    project w !! filePath = Some sourceFile ∧
    meta = {| cm_name := extractComponentName sourceFile filePath;
              cm_filePath := filePath;
              cm_props := extractProps sourceFile;
              cm_dependencies := extractDependencies sourceFile;
              cm_hasJSDoc := hasJSDocumentation sourceFile |}.
Proof.
  unfold analyze, getOrAddSourceFile.
  destruct (project w !! filePath) as [sf|]; exc_simpl; [|discriminate].
  intros H. injection H as <-. exists sf. split; reflexivity.
Qed.

(** What [extractComponentName] computes: the first export name, in the
    order in which the loop meets the exported declarations, that starts
    with a capital letter A-Z; when no export name does, the base name of
    the file with a final .ts, .tsx, .js or .jsx removed.  The regular
    expression of the fallback knows these four endings only, so a base
    name with any other ending comes back whole. *)
Theorem extractComponentName_first_capitalised_export
    (sourceFile : SourceFile) (filePath : string) :
  (∀ before name n after,
     exportedDeclarations sourceFile = (before ++ (name, n) :: after)%list →
     startsUpper name = true →
     (∀ other, other ∈ map fst before → startsUpper other = false) →
     extractComponentName sourceFile filePath = name) ∧
  ((∀ name, name ∈ map fst (exportedDeclarations sourceFile) → startsUpper name = false) →
   extractComponentName sourceFile filePath = stripScriptExtension (basename filePath)) ∧
  (∀ stem ext, ext ∈ scriptExtensions → stripScriptExtension (stem +:+ ext) = stem) ∧
  (∀ name, stripScriptExtension name = name ∨
           ∃ ext, ext ∈ scriptExtensions ∧ name = stripScriptExtension name +:+ ext).
Proof.
  split; [|split; [|split]].
  - intros before name n after Hsplit Hname Hbefore. unfold extractComponentName.
    rewrite Hsplit, (firstComponentExport_first before after name n Hname Hbefore). reflexivity.
  - intros Hnone. unfold extractComponentName.
    rewrite (firstComponentExport_none _ Hnone). reflexivity.
  - exact stripScriptExtension_drops.
  - exact stripScriptExtension_cases.
Qed.

(** C8 (as amended).  The dependencies that [analyze] returns are, in
    the order of the import declarations and one per declaration, the
    paths of the resolved imports that contain neither [node_modules] nor
    [@types]; a module imported by two declarations is listed twice. *)
Theorem analyze_dependencies_are_local_imports
    (w : World) (filePath : string) (meta : ComponentMeta) :
  analyze w filePath = Ok meta →
  ∃ sourceFile,
    project w !! filePath = Some sourceFile ∧
    cm_dependencies meta =
      List.filter isLocalPath (omap moduleSpecifierSourceFile (importDeclarations sourceFile)) ∧
    ∀ p, p ∈ cm_dependencies meta →
         includes p "node_modules" = false ∧ includes p "@types" = false ∧
         ∃ imp, imp ∈ importDeclarations sourceFile ∧ moduleSpecifierSourceFile imp = Some p.
Proof.
  intros Hmeta. apply analyze_Ok in Hmeta as (sf & Hsf & ->). exists sf.
  split; [exact Hsf|]. simpl. unfold extractDependencies. rewrite extractDependenciesLoop_eq.
  split; [reflexivity|].
  intros p Hp. apply list_elem_of_In, filter_In in Hp as [Hin Hlocal].
  unfold isLocalPath in Hlocal. apply andb_true_iff in Hlocal as [Hnm Hty].
  apply negb_true_iff in Hnm, Hty. split; [exact Hnm|]. split; [exact Hty|].
  apply list_elem_of_In, list_elem_of_omap in Hin. exact Hin.
Qed.

(** *** The extractor on concrete files *)

(** C9.  The fallback does not do what its own comment says ("Fallback
    to filename without extension"): no export of [Widget.vue] or of
    [mod.mts] starts with a capital letter, and the name that comes back
    is the whole base name, extension included, where the base name
    without its extension is [Widget] and [mod]. *)
Lemma extractComponentName_keeps_other_extensions :
  firstComponentExport (exportedDeclarations Examples.helperOnly) = None ∧
  extractComponentName Examples.helperOnly "/app/src/components/Widget.vue" = "Widget.vue" ∧
  withoutExtension (basename "/app/src/components/Widget.vue") = "Widget" ∧
  extractComponentName Examples.helperOnly "/app/src/components/Widget.vue"
  ≠ withoutExtension (basename "/app/src/components/Widget.vue") ∧
  extractComponentName Examples.helperOnly "/app/src/mod.mts" = "mod.mts" ∧
  withoutExtension (basename "/app/src/mod.mts") = "mod" ∧
  extractComponentName Examples.helperOnly "/app/src/mod.mts"
  ≠ withoutExtension (basename "/app/src/mod.mts").
Proof.
  split; [reflexivity|]. split; [reflexivity|]. split; [reflexivity|].
  split; [vm_compute; discriminate|].
  split; [reflexivity|]. split; [reflexivity|].
  vm_compute. discriminate.
Qed.

Lemma extractComponentName_witness :
  extractComponentName Examples.helperThenComponent "/app/src/Button.tsx" = "Button" ∧
  extractComponentName Examples.helperOnly "/app/src/widget.tsx" = "widget".
Proof.
  split.
  - apply (proj1 (extractComponentName_first_capitalised_export
                    Examples.helperThenComponent "/app/src/Button.tsx"))
      with (before := [("useButton", 1%nat)]) (n := 1%nat) (after := [("Icon", 1%nat)]).
    + reflexivity.
    + reflexivity.
    + intros other Hother. apply list_elem_of_singleton in Hother. subst other. reflexivity.
  - rewrite (proj1 (proj2 (extractComponentName_first_capitalised_export
                             Examples.helperOnly "/app/src/widget.tsx"))).
    + reflexivity.
    + intros name Hname. apply list_elem_of_singleton in Hname. subst name. reflexivity.
Defined.

(** C8, the claim as stated fails: two import declarations name
    [types.ts], and [analyze] lists it twice. *)
Lemma analyze_dependencies_keep_duplicates :
  ∃ meta,
    analyze Examples.twiceImportingWorld "/app/Card.tsx" = Ok meta ∧
    cm_dependencies meta = ["/app/types.ts"; "/app/types.ts"] ∧
    ¬ NoDup (cm_dependencies meta).
Proof.
  eexists. split; [vm_compute; reflexivity|]. split; [reflexivity|].
  simpl. intros Hnodup. apply NoDup_cons in Hnodup as [Hnotin _]. apply Hnotin. left.
Qed.

Lemma analyze_dependencies_witness :
  ∃ meta sourceFile,
    analyze Examples.twiceImportingWorld "/app/Card.tsx" = Ok meta ∧
    project Examples.twiceImportingWorld !! "/app/Card.tsx" = Some sourceFile ∧
    cm_dependencies meta =
      List.filter isLocalPath (omap moduleSpecifierSourceFile (importDeclarations sourceFile)) ∧
    "/app/node_modules/react/index.d.ts" ∉ cm_dependencies meta.
Proof.
  assert (Hmeta : analyze Examples.twiceImportingWorld "/app/Card.tsx"
                  = Ok {| cm_name := "Card";
                          cm_filePath := "/app/Card.tsx";
                          cm_props := [];
                          cm_dependencies := ["/app/types.ts"; "/app/types.ts"];
                          cm_hasJSDoc := false |})
    by (vm_compute; reflexivity).
  destruct (analyze_dependencies_are_local_imports _ _ _ Hmeta) as (sf & Hsf & Heq & Hlocal).
  eexists. exists sf. split; [exact Hmeta|]. split; [exact Hsf|]. split; [exact Heq|].
  intros Hin. destruct (Hlocal _ Hin) as [Hnm _]. vm_compute in Hnm. discriminate Hnm.
Defined.

(** ** The batch loops *)

Section OrchestratorFacts.

Variable sha256 : string → string.
Variable loadOrThrow : M AnchorConfig.
Variable getStagedFiles : M (list string).
Variable stageFile : string → M unit.
Variable regExpTest : string → string → Exc bool.
Variable initComponents : M unit.
Variable generateToFile : ComponentMeta → string → bool → M unit.
Variable path_dirname : string → string.
Variable path_join : string → string → string.

#[local] Abbreviation processFileTry := (processFileTry sha256 stageFile generateToFile path_dirname path_join).
#[local] Abbreviation processFile := (processFile sha256 stageFile generateToFile path_dirname path_join).
#[local] Abbreviation processFiles := (processFiles sha256 stageFile generateToFile path_dirname path_join).
#[local] Abbreviation worldAfter := (worldAfter sha256 stageFile generateToFile path_dirname path_join).
#[local] Abbreviation goodTurn := (goodTurn sha256 stageFile generateToFile path_dirname path_join).
#[local] Abbreviation failingTurn := (failingTurn sha256).
#[local] Abbreviation atEachTurn := (atEachTurn sha256 stageFile generateToFile path_dirname path_join).
#[local] Abbreviation run :=
  (run sha256 loadOrThrow getStagedFiles stageFile regExpTest initComponents
       generateToFile path_dirname path_join).
#[local] Abbreviation runSilent :=
  (runSilent sha256 loadOrThrow getStagedFiles stageFile regExpTest initComponents
             generateToFile path_dirname path_join).
#[local] Abbreviation syncFiles := (syncFiles sha256 generateToFile path_dirname path_join).

Lemma saveCache_resolves (w : World) (filePath : string) (structure : ComponentStructure) :
  (saveCache sha256 w filePath structure).2 = Ok ().
Proof.
  unfold saveCache. destruct (saveCacheTry sha256 w filePath structure); reflexivity.
Qed.

(** The world a turn leaves does not depend on the counters. *)
Lemma processFile_world (file : string) (c : Counters) (w : World) :
  (processFile file c w).1 = (processFileTry file w).1.
Proof.
  unfold processFile.
  destruct (processFileTry file w) as [w' [[|]|err]]; reflexivity.
Qed.

(** One turn counts the file once, whatever happens to it. *)
Lemma processFile_attempted (file : string) (c : Counters) (w : World) :
  attempted (processFile file c w).2 = S (attempted c).
Proof.
  unfold processFile, attempted.
  destruct (processFileTry file w) as [w' [[|]|err]]; simpl; lia.
Qed.

Lemma processFiles_attempted (componentFiles : list string) (c : Counters) (w : World) :
  attempted (processFiles componentFiles c w).2 = attempted c + length componentFiles.
Proof.
  revert c w. induction componentFiles as [|file rest IH]; intros c w; simpl.
  - lia.
  - destruct (processFile file c w) as [w' c'] eqn:E. rewrite IH.
    pose proof (processFile_attempted file c w) as H. rewrite E in H. simpl in H. lia.
Qed.

Lemma processFiles_world (componentFiles : list string) (c : Counters) (w : World) :
  (processFiles componentFiles c w).1 = worldAfter componentFiles w.
Proof.
  unfold worldAfter. generalize noCounts as c0.
  revert c w. induction componentFiles as [|file rest IH]; intros c w c0; simpl; [reflexivity|].
  pose proof (processFile_world file c w) as Hc. pose proof (processFile_world file c0 w) as Hc0.
  destruct (processFile file c w) as [w1 c1]. destruct (processFile file c0 w) as [w2 c2].
  simpl in Hc, Hc0. subst w1 w2. apply IH.
Qed.

Lemma processFiles_app (front back : list string) (c : Counters) (w : World) :
  (processFiles (front ++ back) c w).2 =
  (processFiles back (processFiles front c w).2 (worldAfter front w)).2.
Proof.
  rewrite <- (processFiles_world front c w).
  revert c w. induction front as [|file rest IH]; intros c w; simpl; [reflexivity|].
  destruct (processFile file c w) as [w' c']. apply IH.
Qed.

Lemma worldAfter_app (front back : list string) (w : World) :
  worldAfter (front ++ back) w = worldAfter back (worldAfter front w).
Proof.
  rewrite <- (processFiles_world (front ++ back) noCounts w).
  rewrite <- (processFiles_world front noCounts w).
  rewrite <- (processFiles_world back (processFiles front noCounts w).2).
  generalize noCounts as c.
  revert w. induction front as [|file rest IH]; intros w c; simpl; [reflexivity|].
  destruct (processFile file c w) as [w' c']. apply IH.
Qed.

Lemma worldAfter_one (file : string) (c : Counters) (w : World) :
  worldAfter [file] w = (processFile file c w).1.
Proof.
  rewrite <- (processFiles_world [file] c w). simpl.
  destruct (processFile file c w); reflexivity.
Qed.

Lemma goodTurn_counts (file : string) (c : Counters) (w : World) :
  goodTurn w file →
  (processFile file c w).2 =
  {| n_processed := S (n_processed c); n_skipped := n_skipped c; n_errors := n_errors c |}.
Proof.
  intros (Hstale & meta & w1 & w2 & Hmeta & Hdoc & Hstage).
  unfold processFile, processFileTry. exc_simpl.
  rewrite Hstale, Hmeta, Hdoc, Hstage.
  pose proof (saveCache_resolves w2 file (structureOf meta)) as Hsave.
  destruct (saveCache sha256 w2 file (structureOf meta)) as [w3 r]. simpl in Hsave. subst r.
  reflexivity.
Qed.

Lemma failingTurn_counts (file : string) (c : Counters) (w : World) :
  failingTurn w file →
  processFile file c w =
  (w, {| n_processed := n_processed c; n_skipped := n_skipped c; n_errors := S (n_errors c) |}).
Proof.
  intros (Hstale & err & Herr).
  unfold processFile, processFileTry. exc_simpl.
  rewrite Hstale, Herr. reflexivity.
Qed.

Lemma allGood_counts (componentFiles : list string) (c : Counters) (w : World) :
  atEachTurn goodTurn componentFiles w →
  (processFiles componentFiles c w).2 =
  {| n_processed := n_processed c + length componentFiles;
     n_skipped := n_skipped c;
     n_errors := n_errors c |}.
Proof.
  revert c w. induction componentFiles as [|file rest IH]; intros c w; simpl.
  - intros _. destruct c. simpl. f_equal. lia.
  - intros [Hgood Hrest].
    pose proof (goodTurn_counts file c w Hgood) as Hc.
    rewrite (worldAfter_one file c w) in Hrest.
    destruct (processFile file c w) as [w' c']. simpl in Hc, Hrest. subst c'.
    rewrite (IH _ _ Hrest). simpl. f_equal. lia.
Qed.

(** C5 (as amended).  The loop of [run] counts every file of the batch
    exactly once, whatever happens to it; and when one file of the batch
    is stale and fails analysis while every other file, at its turn, is
    stale, is analysed, and has its document generated and staged, the
    counters end at [errors = 1], [skipped = 0] and [processed = N - 1].
    That the other files are stale and analysable is not enough: writing
    the document and staging it are inside the same [try], and their
    failure is counted as an error too. *)
Theorem batch_with_one_failure (before after : list string) (bad : string) (w : World) :
  attempted (processFiles (before ++ bad :: after) noCounts w).2
  = length (before ++ bad :: after) ∧
  (atEachTurn goodTurn before w →
   failingTurn (worldAfter before w) bad →
   atEachTurn goodTurn after (worldAfter (before ++ [bad]) w) →
   (processFiles (before ++ bad :: after) noCounts w).2 =
   {| n_processed := length (before ++ bad :: after) - 1; n_skipped := 0; n_errors := 1 |}).
Proof.
  split; [apply processFiles_attempted|].
  intros Hbefore Hbad Hafter.
  rewrite processFiles_app, (allGood_counts before noCounts w Hbefore). simpl.
  pose proof (failingTurn_counts bad
                {| n_processed := length before; n_skipped := 0; n_errors := 0 |}
                (worldAfter before w) Hbad) as Hturn.
  rewrite worldAfter_app, (worldAfter_one bad
                {| n_processed := length before; n_skipped := 0; n_errors := 0 |}) in Hafter.
  rewrite Hturn in Hafter |- *. simpl in Hafter.
  rewrite (allGood_counts after _ _ Hafter). simpl. f_equal.
  rewrite length_app. simpl. lia.
Qed.

(** The loop of the sync command counts every file once as well. *)
Lemma syncFiles_attempted (useAI : bool) (filesToSync : list string)
    (successCount errorCount : nat) (w : World) :
  let '(_, (successes, failures)) := syncFiles useAI filesToSync successCount errorCount w in
  successes + failures = successCount + errorCount + length filesToSync.
Proof.
  revert successCount errorCount w.
  induction filesToSync as [|file rest IH]; intros successCount errorCount w; simpl; [lia|].
  destruct (syncFileTry sha256 generateToFile path_dirname path_join useAI file w)
    as [w' [[]|err]].
  - specialize (IH (S successCount) errorCount w').
    destruct (syncFiles useAI rest (S successCount) errorCount w') as [w'' [s f]]. lia.
  - specialize (IH successCount (S errorCount) w').
    destruct (syncFiles useAI rest successCount (S errorCount) w') as [w'' [s f]]. lia.
Qed.

(** A file whose analysis fails costs the sync loop one error and
    nothing else. *)
Lemma syncFiles_failure_is_counted (useAI : bool) (file : string) (rest : list string)
    (successCount errorCount : nat) (w : World) :
  throws (analyze w file) →
  syncFiles useAI (file :: rest) successCount errorCount w
  = syncFiles useAI rest successCount (S errorCount) w.
Proof.
  intros [err Herr]. simpl. unfold syncFileTry. exc_simpl. rewrite Herr. reflexivity.
Qed.

Lemma run_resolves (w : World) : ∃ w' result, run w = (w', Ok result).
Proof.
  unfold run.
  destruct (prepare loadOrThrow getStagedFiles regExpTest initComponents w)
    as [w1 [[componentFiles|]|err]].
  - destruct (processFiles componentFiles noCounts w1) as [w2 c]. eauto.
  - eauto.
  - eauto.
Qed.

(** A configuration that cannot be loaded is reported as one error. *)
Lemma run_without_configuration (w w1 : World) (err : JsError) :
  loadOrThrow w = (w1, Throw err) →
  run w = (w1, Ok {| processed := 0; skipped := 0; errors := 1;
                     duration := performanceNow w1 - performanceNow w |}).
Proof.
  intros Hload. unfold run, prepare. exc_simpl. rewrite Hload. reflexivity.
Qed.

(** Nothing staged: the first early return. *)
Lemma run_nothing_staged (w w1 w2 : World) (config : AnchorConfig) :
  loadOrThrow w = (w1, Ok config) →
  getStagedFiles w1 = (w2, Ok []) →
  run w = (w2, Ok {| processed := 0; skipped := 0; errors := 0; duration := 0 |}).
Proof.
  intros Hload Hstaged. unfold run, prepare. exc_simpl.
  rewrite Hload, Hstaged. reflexivity.
Qed.

(** C6.  Whatever the collaborators do and whatever the world holds,
    [run] resolves with a result and [runSilent] resolves. *)
Theorem runSilent_never_rejects (w : World) :
  (∃ w' result, run w = (w', Ok result)) ∧ (∃ w', runSilent w = (w', Ok ())).
Proof.
  split; [apply run_resolves|].
  unfold runSilent. destruct (run w) as [w' [result|err]]; eauto.
Qed.

End OrchestratorFacts.

(** *** The loop on a concrete batch *)

Lemma batch_with_one_failure_witness :
  throws (analyze Examples.batchWorld "/app/Broken.tsx") ∧
  (processFiles Examples.demoDigest Examples.quietStage Examples.quietGenerate
     Examples.sameDirectory Examples.joinWithSlash
     ["/app/A.tsx"; "/app/Broken.tsx"; "/app/C.tsx"] noCounts Examples.batchWorld).2
  = {| n_processed := 2; n_skipped := 0; n_errors := 1 |}.
Proof.
  split; [eexists; vm_compute; reflexivity|].
  apply (proj2 (batch_with_one_failure Examples.demoDigest Examples.quietStage
                  Examples.quietGenerate Examples.sameDirectory Examples.joinWithSlash
                  ["/app/A.tsx"] ["/app/C.tsx"] "/app/Broken.tsx" Examples.batchWorld)).
  - split; [|exact I]. split; [vm_compute; reflexivity|].
    eexists _, _, _. split; [vm_compute; reflexivity|]. split; reflexivity.
  - split; [vm_compute; reflexivity|]. eexists. vm_compute. reflexivity.
  - split; [|exact I]. split; [vm_compute; reflexivity|].
    eexists _, _, _. split; [vm_compute; reflexivity|]. split; reflexivity.
Defined.

(** C5, the claim as stated fails: one file of the batch fails analysis,
    the two others are stale and analysable at their turn, and git
    refuses to stage; the loop reports three errors and no file
    processed, where the claim has [errors = 1] and [processed = 2]. *)
Lemma batch_with_one_failure_and_failing_stage :
  atEachTurn Examples.demoDigest Scenes.failingStage Examples.quietGenerate
    Examples.sameDirectory Examples.joinWithSlash
    (analysableTurn Examples.demoDigest) ["/app/A.tsx"] Examples.batchWorld ∧
  failingTurn Examples.demoDigest
    (worldAfter Examples.demoDigest Scenes.failingStage Examples.quietGenerate
       Examples.sameDirectory Examples.joinWithSlash ["/app/A.tsx"] Examples.batchWorld)
    "/app/Broken.tsx" ∧
  atEachTurn Examples.demoDigest Scenes.failingStage Examples.quietGenerate
    Examples.sameDirectory Examples.joinWithSlash
    (analysableTurn Examples.demoDigest) ["/app/C.tsx"]
    (worldAfter Examples.demoDigest Scenes.failingStage Examples.quietGenerate
       Examples.sameDirectory Examples.joinWithSlash
       ["/app/A.tsx"; "/app/Broken.tsx"] Examples.batchWorld) ∧
  (processFiles Examples.demoDigest Scenes.failingStage Examples.quietGenerate
     Examples.sameDirectory Examples.joinWithSlash
     ["/app/A.tsx"; "/app/Broken.tsx"; "/app/C.tsx"] noCounts Examples.batchWorld).2
  = {| n_processed := 0; n_skipped := 0; n_errors := 3 |} ∧
  (processFiles Examples.demoDigest Scenes.failingStage Examples.quietGenerate
     Examples.sameDirectory Examples.joinWithSlash
     ["/app/A.tsx"; "/app/Broken.tsx"; "/app/C.tsx"] noCounts Examples.batchWorld).2
  ≠ {| n_processed := 2; n_skipped := 0; n_errors := 1 |}.
Proof.
  split; [|split; [|split; [|split]]].
  - split; [|exact I]. split; [vm_compute; reflexivity|]. eexists. vm_compute. reflexivity.
  - split; [vm_compute; reflexivity|]. eexists. vm_compute. reflexivity.
  - split; [|exact I]. split; [vm_compute; reflexivity|]. eexists. vm_compute. reflexivity.
  - vm_compute. reflexivity.
  - vm_compute. discriminate.
Qed.

(** * Further properties *)

(** ** The cache store: frames, failures and round trips *)

Lemma string_app_inv_tail (a b t : string) : a +:+ t = b +:+ t → a = b.
Proof.
  intros H. apply (f_equal fromEnd) in H. rewrite !fromEnd_app in H.
  apply app_inv_head in H. apply (f_equal toEnd) in H. rewrite !toEnd_fromEnd in H. exact H.
Qed.

Section CacheStoreFrames.

Variable sha256 : string → string.

Lemma getCacheFilePath_digest (f g : string) :
  getCacheFilePath sha256 f = getCacheFilePath sha256 g → sha256 f = sha256 g.
Proof.
  unfold getCacheFilePath, this_cacheDir. simpl. intros H. injection H as H.
  change (sha256 f +:+ ".json" = sha256 g +:+ ".json") in H.
  exact (string_app_inv_tail _ _ _ H).
Qed.

Lemma dependencyModified_ext (w1 w2 : World) (e : CacheEntry) (imports : list string) :
  (∀ d, d ∈ imports → files w2 !! d = files w1 !! d) →
  dependencyModified w2 e imports = dependencyModified w1 e imports.
Proof.
  induction imports as [|imp rest IH]; intros Hsame; simpl; [reflexivity|].
  unfold fs_stat. rewrite (Hsame imp) by left.
  rewrite IH by (intros d Hd; apply Hsame; right; exact Hd). reflexivity.
Qed.

Lemma liveDependencies_project (w1 w2 : World) (filePath : string) :
  project w2 !! filePath = project w1 !! filePath →
  liveDependencies w2 filePath = liveDependencies w1 filePath.
Proof.
  intros Hp. unfold liveDependencies, extractImports, getOrAddSourceFile. rewrite Hp. reflexivity.
Qed.

(** What [saveCache] leaves behind is the old world or the old world with
    one cache file written. *)
Lemma saveCache_world (w : World) (filePath : string) (structure : ComponentStructure) :
  (saveCache sha256 w filePath structure).1 = w ∨
  ∃ e, (saveCache sha256 w filePath structure).1
       = writeCacheFile w (getCacheFilePath sha256 filePath) e.
Proof.
  unfold saveCache, saveCacheTry.
  destruct (cacheWritable w); exc_simpl; [|left; reflexivity].
  destruct (extractImports w filePath) as [imports|]; exc_simpl; [|left; reflexivity].
  destruct (mapM (snapshotDependency sha256 w) imports) as [deps|]; exc_simpl;
    [|left; reflexivity].
  destruct (hashFile sha256 w filePath) as [h|]; exc_simpl; [|left; reflexivity].
  right. eexists. reflexivity.
Qed.

(** X1.  [saveCache] writes nothing but the cache file of its own path:
    the working tree and the project are as before, and for a file with
    another path digest [needsUpdate] answers as it did. *)
Theorem saveCache_leaves_other_files
    (w : World) (filePath other : string) (structure : ComponentStructure) :
  sha256 filePath ≠ sha256 other →
  files (saveCache sha256 w filePath structure).1 = files w ∧
  project (saveCache sha256 w filePath structure).1 = project w ∧
  needsUpdate sha256 (saveCache sha256 w filePath structure).1 other
  = needsUpdate sha256 w other.
Proof.
  intros Hdigest.
  destruct (saveCache_world w filePath structure) as [Hsame | [e Hwritten]].
  - rewrite Hsame. auto.
  - rewrite Hwritten. split; [reflexivity|]. split; [reflexivity|].
    rewrite !needsUpdate_eq.
    assert (Hstored : storedEntry sha256 (writeCacheFile w (getCacheFilePath sha256 filePath) e)
                        other = storedEntry sha256 w other).
    { unfold storedEntry. simpl. rewrite lookup_insert_ne; [reflexivity|].
      intros Hkey. apply Hdigest, getCacheFilePath_digest, Hkey. }
    rewrite Hstored.
    change (fs_readFile (writeCacheFile w (getCacheFilePath sha256 filePath) e) other)
      with (fs_readFile w other).
    change (liveDependencies (writeCacheFile w (getCacheFilePath sha256 filePath) e) other)
      with (liveDependencies w other).
    destruct (storedEntry sha256 w other) as [e'|]; [|reflexivity].
    rewrite (dependencyModified_ext w (writeCacheFile w (getCacheFilePath sha256 filePath) e) e')
      by reflexivity.
    reflexivity.
Qed.

Lemma mapM_snapshotDependency_missing (w : World) (imports : list string) (d : string) :
  d ∈ imports → files w !! d = None →
  throws (mapM (snapshotDependency sha256 w) imports).
Proof.
  intros Hd Hmissing. induction imports as [|imp rest IH]; [inversion Hd|].
  simpl. apply elem_of_cons in Hd as [<- | Hd].
  - unfold snapshotDependency, fs_stat. rewrite Hmissing. eexists. reflexivity.
  - destruct (IH Hd) as [err Herr]. rewrite Herr.
    destruct (snapshotDependency sha256 w imp); eexists; reflexivity.
Qed.

(** X2.  [saveCache] does not skip a live import that is missing from
    disk, as [needsUpdate] does: the snapshot fails, the failure is
    swallowed, and nothing is written.  An unwritable cache directory has
    the same effect. *)
Theorem saveCache_writes_nothing_on_failure
    (w : World) (filePath : string) (structure : ComponentStructure) :
  cacheWritable w = false ∨
  (∃ d, d ∈ liveDependencies w filePath ∧ files w !! d = None) →
  saveCache sha256 w filePath structure = (w, Ok ()).
Proof.
  unfold saveCache, saveCacheTry. intros [Hlocked | (d & Hd & Hmissing)].
  - rewrite Hlocked. reflexivity.
  - destruct (cacheWritable w); [|reflexivity].
    destruct (mapM_snapshotDependency_missing w _ d Hd Hmissing) as [err Herr].
    rewrite extractImports_eq. exc_simpl. rewrite Herr. reflexivity.
Qed.

Lemma mapM_snapshotDependency_details (w : World) (imports : list string) :
  (∀ d, d ∈ imports → is_Some (files w !! d)) →
  ∃ deps,
    mapM (snapshotDependency sha256 w) imports = Ok deps ∧
    map dep_path deps = imports ∧
    ∀ dc, dc ∈ deps →
          ∃ node, files w !! dep_path dc = Some node ∧
                  dep_mtime dc = mtimeMs node ∧
                  hashFile sha256 w (dep_path dc) = Ok (dep_hash dc).
Proof.
  induction imports as [|imp rest IH]; intros Hall.
  - exists []. split; [reflexivity|]. split; [reflexivity|]. intros dc Hdc. inversion Hdc.
  - destruct IH as (deps & Hdeps & Hpaths & Hdetails).
    { intros d Hd. apply Hall. right. exact Hd. }
    destruct (Hall imp) as [node Hnode]; [left|].
    eexists (_ :: deps). split; [|split].
    + simpl. rewrite (snapshotDependency_eq sha256 w imp node Hnode), Hdeps. reflexivity.
    + simpl. congruence.
    + intros dc Hdc. apply elem_of_cons in Hdc as [-> | Hdc]; [|apply Hdetails; exact Hdc].
      exists node. simpl. split; [exact Hnode|]. split; [reflexivity|]. apply hashFile_eq.
Qed.

(** X3.  Save, then load: when the cache directory can be written and
    every live import is on disk, [loadCache] gives back an entry that
    carries the saved structure, the current digest of the file, the
    clock's reading, and one snapshot per live import, in order, each
    with the modification time and digest of that import.  Whatever was
    stored for the file before is replaced. *)
Theorem saveCache_then_loadCache
    (w : World) (filePath : string) (saved : ComponentStructure) :
  cacheWritable w = true →
  (∀ d, d ∈ liveDependencies w filePath → is_Some (files w !! d)) →
  ∃ e,
    loadCache sha256 (saveCache sha256 w filePath saved).1 filePath = Ok (Some e) ∧
    structure e = saved ∧
    hashFile sha256 w filePath = Ok (fileHash e) ∧
    lastParsed e = dateNow w ∧
    snapshotPaths e = liveDependencies w filePath ∧
    ∀ dc, dc ∈ dependencies e →
          ∃ node, files w !! dep_path dc = Some node ∧
                  dep_mtime dc = mtimeMs node ∧
                  hashFile sha256 w (dep_path dc) = Ok (dep_hash dc).
Proof.
  intros Hwritable Hall.
  destruct (mapM_snapshotDependency_details w _ Hall) as (deps & Hdeps & Hpaths & Hdetails).
  assert (Hsaved : (saveCache sha256 w filePath saved).1 =
                   writeCacheFile w (getCacheFilePath sha256 filePath)
                     {| fileHash := match fs_readFile w filePath with
                                    | Ok content => sha256 content
                                    | Throw _ => ""
                                    end;
                        dependencies := deps;
                        structure := saved;
                        lastParsed := dateNow w;
                        version := this_version |}).
  { unfold saveCache, saveCacheTry. rewrite Hwritable, extractImports_eq, hashFile_eq.
    exc_simpl. rewrite Hdeps. reflexivity. }
  rewrite Hsaved. eexists. split.
  - apply loadCache_Some. split.
    + unfold storedEntry. simpl. rewrite lookup_insert_eq. reflexivity.
    + reflexivity.
  - simpl. split; [reflexivity|]. split; [apply hashFile_eq|]. split; [reflexivity|].
    split; [exact Hpaths | exact Hdetails].
Qed.

(** X4.  After [clearCache] on a writable cache directory every file
    needs an update, and the working tree is as before. *)
Theorem clearCache_forgets_every_file (w : World) (filePath : string) :
  cacheWritable w = true →
  needsUpdate sha256 (clearCache w).1 filePath = Ok true ∧
  files (clearCache w).1 = files w.
Proof.
  intros Hwritable. unfold clearCache. rewrite Hwritable. simpl. split; [|reflexivity].
  rewrite needsUpdate_eq. unfold storedEntry. simpl. rewrite lookup_empty. reflexivity.
Qed.

(** X5.  [needsUpdate] reads one level deep and no further: between two
    worlds that agree on the cache file, on the bytes of the file, on its
    import list and on the nodes of its direct imports, the answer is the
    same, whatever else differs (the file's own modification time, the
    files its imports import, the clock). *)
Theorem needsUpdate_reads_only_direct_dependencies (w1 w2 : World) (filePath : string) :
  unchangedFor sha256 filePath w1 w2 →
  needsUpdate sha256 w2 filePath = needsUpdate sha256 w1 filePath.
Proof.
  intros (Hcache & Hread & Hproject & Hnodes).
  rewrite !needsUpdate_eq. unfold storedEntry. rewrite Hcache, Hread.
  rewrite (liveDependencies_project w1 w2 filePath Hproject).
  destruct (cacheFiles w1 !! getCacheFilePath sha256 filePath) as [[|e]|]; try reflexivity.
  rewrite (dependencyModified_ext w1 w2 e _ Hnodes). reflexivity.
Qed.

End CacheStoreFrames.

Lemma saveCache_leaves_other_files_witness :
  needsUpdate Examples.demoDigest
    (saveCache Examples.demoDigest Examples.batchWorld "/app/A.tsx" Examples.cardStructure).1
    "/app/C.tsx"
  = needsUpdate Examples.demoDigest Examples.batchWorld "/app/C.tsx".
Proof.
  apply (saveCache_leaves_other_files Examples.demoDigest Examples.batchWorld
           "/app/A.tsx" "/app/C.tsx" Examples.cardStructure).
  discriminate.
Defined.

Lemma saveCache_writes_nothing_witness :
  files Scenes.danglingImport !! "/app/types.ts" = None ∧
  saveCache Examples.demoDigest Scenes.danglingImport "/app/Card.tsx" Examples.cardStructure
  = (Scenes.danglingImport, Ok ()) ∧
  needsUpdate Examples.demoDigest Scenes.danglingImport "/app/Card.tsx" = Ok true.
Proof.
  split; [vm_compute; reflexivity|]. split; [|vm_compute; reflexivity].
  apply (saveCache_writes_nothing_on_failure Examples.demoDigest Scenes.danglingImport
           "/app/Card.tsx" Examples.cardStructure).
  right. exists "/app/types.ts". split; [|vm_compute; reflexivity].
  assert (Hlive : liveDependencies Scenes.danglingImport "/app/Card.tsx" = ["/app/types.ts"])
    by (vm_compute; reflexivity).
  rewrite Hlive. left.
Defined.

Lemma saveCache_then_loadCache_witness :
  ∃ e,
    loadCache Examples.demoDigest Examples.cardCached "/app/Card.tsx" = Ok (Some e) ∧
    structure e = Examples.cardStructure ∧
    lastParsed e = 1000%Z ∧
    snapshotPaths e = ["/app/types.ts"].
Proof.
  destruct (saveCache_then_loadCache Examples.demoDigest Examples.cardWorld
              "/app/Card.tsx" Examples.cardStructure)
    as (e & Hload & Hstructure & _ & Hparsed & Hpaths & _).
  - reflexivity.
  - intros d Hd.
    assert (Hlive : liveDependencies Examples.cardWorld "/app/Card.tsx" = ["/app/types.ts"])
      by (vm_compute; reflexivity).
    rewrite Hlive in Hd. apply list_elem_of_singleton in Hd. subst d. vm_compute. eauto.
  - exists e. split; [exact Hload|]. split; [exact Hstructure|]. split; [exact Hparsed|].
    exact Hpaths.
Defined.

Lemma clearCache_forgets_witness :
  needsUpdate Examples.demoDigest Examples.cardCached "/app/Card.tsx" = Ok false ∧
  needsUpdate Examples.demoDigest (clearCache Examples.cardCached).1 "/app/Card.tsx" = Ok true.
Proof.
  split; [vm_compute; reflexivity|].
  apply (clearCache_forgets_every_file Examples.demoDigest Examples.cardCached "/app/Card.tsx").
  reflexivity.
Defined.

Lemma needsUpdate_reads_only_direct_witness :
  files Scenes.transitiveEdit !! "/app/theme.ts" ≠ files Examples.cardCached !! "/app/theme.ts" ∧
  files Scenes.transitiveEdit !! "/app/Card.tsx" ≠ files Examples.cardCached !! "/app/Card.tsx" ∧
  needsUpdate Examples.demoDigest Scenes.transitiveEdit "/app/Card.tsx"
  = needsUpdate Examples.demoDigest Examples.cardCached "/app/Card.tsx".
Proof.
  split; [vm_compute; discriminate|]. split; [vm_compute; discriminate|].
  apply (needsUpdate_reads_only_direct_dependencies Examples.demoDigest
           Examples.cardCached Scenes.transitiveEdit "/app/Card.tsx").
  split; [vm_compute; reflexivity|]. split; [vm_compute; reflexivity|].
  split; [vm_compute; reflexivity|].
  intros d Hd.
  assert (Hlive : liveDependencies Examples.cardCached "/app/Card.tsx" = ["/app/types.ts"])
    by (vm_compute; reflexivity).
  rewrite Hlive in Hd. apply list_elem_of_singleton in Hd. subst d. vm_compute. reflexivity.
Defined.

(** ** The extractor: props, documentation and dependencies *)

Lemma extractPropsLoop_elem (ifaces : list InterfaceDeclaration) (p : PropMeta) :
  p ∈ extractPropsLoop ifaces ↔
  ∃ iface prop, iface ∈ ifaces ∧ includes (iface_name iface) "Props" = true ∧
                prop ∈ iface_properties iface ∧ p = propMetaOf prop.
Proof.
  induction ifaces as [|iface rest IH]; simpl.
  - split; [intros H; inversion H | intros (i & _ & Hi & _); inversion Hi].
  - destruct (includes (iface_name iface) "Props") eqn:Hname.
    + rewrite elem_of_app, IH. unfold extractPropsFromInterface. rewrite list_elem_of_fmap.
      split.
      * intros [(prop & -> & Hprop) | (i & prop & Hi & Hn & Hprop & ->)].
        -- exists iface, prop. split; [left|]. auto.
        -- exists i, prop. split; [right; exact Hi|]. auto.
      * intros (i & prop & Hi & Hn & Hprop & ->).
        apply elem_of_cons in Hi as [-> | Hi].
        -- left. exists prop. auto.
        -- right. exists i, prop. auto.
    + rewrite IH. split.
      * intros (i & prop & Hi & Hn & Hprop & ->). exists i, prop. split; [right; exact Hi|]. auto.
      * intros (i & prop & Hi & Hn & Hprop & ->).
        apply elem_of_cons in Hi as [-> | Hi]; [congruence|]. exists i, prop. auto.
Qed.

Lemma propMetaOf_fields (prop : PropertySignature) (p : PropMeta) :
  p = propMetaOf prop ↔
  pm_name p = ps_name prop ∧
  pm_type p = ps_typeText prop ∧
  pm_required p = negb (ps_hasQuestionToken prop) ∧
  pm_description p = (fun doc => trim (jsdoc_description doc)) <$> head (ps_jsDocs prop) ∧
  pm_default p = None.
Proof.
  split.
  - intros ->. unfold propMetaOf. simpl. repeat split.
    destruct (ps_jsDocs prop); reflexivity.
  - destruct p as [name type required description dflt]. simpl.
    intros (-> & -> & -> & -> & ->). unfold propMetaOf, extractDefaultValue. f_equal.
    destruct (ps_jsDocs prop); reflexivity.
Qed.

Lemma extractPropsLoop_names (ifaces : list InterfaceDeclaration) :
  map pm_name (extractPropsLoop ifaces) =
  concat (map (fun iface => map ps_name (iface_properties iface))
              (List.filter (fun iface => includes (iface_name iface) "Props") ifaces)).
Proof.
  induction ifaces as [|iface rest IH]; simpl; [reflexivity|].
  destruct (includes (iface_name iface) "Props"); simpl; [|exact IH].
  rewrite List.map_app, IH. unfold extractPropsFromInterface. rewrite List.map_map.
  reflexivity.
Qed.

(** X6.  The props that the extractor reports are exactly those made
    from the members of the interfaces whose name contains [Props]
    (case-sensitively), one per member and in the order of declaration.
    The prop made from a member has its name and the text of its type; it
    is required exactly when the member has no question mark; its
    description is the trimmed description of the member's first
    documentation comment, and is undefined when the member has none;
    and its default value is always undefined. *)
Theorem extractProps_are_members_of_props_interfaces (sourceFile : SourceFile) :
  (∀ p,
     p ∈ extractProps sourceFile ↔
     ∃ iface prop,
       iface ∈ interfaces sourceFile ∧ includes (iface_name iface) "Props" = true ∧
       prop ∈ iface_properties iface ∧
       pm_name p = ps_name prop ∧
       pm_type p = ps_typeText prop ∧
       pm_required p = negb (ps_hasQuestionToken prop) ∧
       pm_description p = (fun doc => trim (jsdoc_description doc)) <$> head (ps_jsDocs prop) ∧
       pm_default p = None) ∧
  map pm_name (extractProps sourceFile) =
  concat (map (fun iface => map ps_name (iface_properties iface))
              (List.filter (fun iface => includes (iface_name iface) "Props")
                           (interfaces sourceFile))).
Proof.
  split; [|apply extractPropsLoop_names].
  intros p. unfold extractProps. rewrite extractPropsLoop_elem. split.
  - intros (iface & prop & Hi & Hname & Hprop & Hp). exists iface, prop.
    split; [exact Hi|]. split; [exact Hname|]. split; [exact Hprop|].
    apply propMetaOf_fields. exact Hp.
  - intros (iface & prop & Hi & Hname & Hprop & Hfields). exists iface, prop.
    split; [exact Hi|]. split; [exact Hname|]. split; [exact Hprop|].
    apply propMetaOf_fields. exact Hfields.
Qed.

Lemma nonEmpty_true {A : Type} (l : list A) : nonEmpty l = true ↔ l ≠ [].
Proof.
  destruct l; simpl; split; try congruence; try discriminate; intros _; reflexivity.
Qed.

Lemma described_iff_documented (prop : PropertySignature) :
  is_Some (pm_description (propMetaOf prop)) ↔ nonEmpty (ps_jsDocs prop) = true.
Proof.
  unfold propMetaOf. simpl. destruct (ps_jsDocs prop); simpl.
  - split; [intros [x Hx]; discriminate | discriminate].
  - split; [reflexivity | eauto].
Qed.

Lemma documented_member_iff_described_prop (sourceFile : SourceFile) :
  (∃ iface prop,
     iface ∈ interfaces sourceFile ∧ includes (iface_name iface) "Props" = true ∧
     prop ∈ iface_properties iface ∧ ps_jsDocs prop ≠ []) ↔
  (∃ p, p ∈ extractProps sourceFile ∧ is_Some (pm_description p)).
Proof.
  split.
  - intros (iface & prop & Hi & Hname & Hprop & Hdocs). exists (propMetaOf prop). split.
    + apply extractPropsLoop_elem. exists iface, prop. auto.
    + apply described_iff_documented, nonEmpty_true. exact Hdocs.
  - intros (p & Hp & Hdesc).
    apply extractPropsLoop_elem in Hp as (iface & prop & Hi & Hname & Hprop & ->).
    exists iface, prop. split; [exact Hi|]. split; [exact Hname|]. split; [exact Hprop|].
    apply nonEmpty_true, described_iff_documented. exact Hdesc.
Qed.

Lemma hasJSDocumentation_true (sourceFile : SourceFile) :
  hasJSDocumentation sourceFile = true ↔
  (∃ iface prop,
     iface ∈ interfaces sourceFile ∧ includes (iface_name iface) "Props" = true ∧
     prop ∈ iface_properties iface ∧ ps_jsDocs prop ≠ []) ∨
  (∃ docs, docs ∈ functionJsDocs sourceFile ∧ docs ≠ []) ∨
  (∃ docs, docs ∈ variableStatementJsDocs sourceFile ∧ docs ≠ []).
Proof.
  unfold hasJSDocumentation. rewrite !orb_true_iff, !existsb_exists.
  split.
  - intros [[(iface & Hi & Hcond) | (docs & Hd & Hne)] | (docs & Hd & Hne)].
    + apply andb_true_iff in Hcond as [Hname Hprops].
      apply existsb_exists in Hprops as (prop & Hprop & Hdocs).
      left. exists iface, prop.
      split; [apply list_elem_of_In; exact Hi|]. split; [exact Hname|].
      split; [apply list_elem_of_In; exact Hprop|]. apply nonEmpty_true. exact Hdocs.
    + right; left. exists docs. split; [apply list_elem_of_In; exact Hd|].
      apply nonEmpty_true. exact Hne.
    + right; right. exists docs. split; [apply list_elem_of_In; exact Hd|].
      apply nonEmpty_true. exact Hne.
  - intros [(iface & prop & Hi & Hname & Hprop & Hdocs)
           | [(docs & Hd & Hne) | (docs & Hd & Hne)]].
    + left; left. exists iface. split; [apply list_elem_of_In; exact Hi|].
      apply andb_true_iff. split; [exact Hname|].
      apply existsb_exists. exists prop. split; [apply list_elem_of_In; exact Hprop|].
      apply nonEmpty_true. exact Hdocs.
    + left; right. exists docs. split; [apply list_elem_of_In; exact Hd|].
      apply nonEmpty_true. exact Hne.
    + right. exists docs. split; [apply list_elem_of_In; exact Hd|].
      apply nonEmpty_true. exact Hne.
Qed.

(** X7.  [hasJSDoc] is true exactly when some member of an interface
    whose name contains [Props] carries at least one documentation
    comment, or some function or some variable statement of the file
    does.  Only the presence of a comment is looked at, never its text:
    the first case is the case where some reported prop has its
    description defined, and a defined description may be the empty
    string (a comment made of tags only), which sets [hasJSDoc] all the
    same. *)
Theorem hasJSDocumentation_iff (sourceFile : SourceFile) :
  (hasJSDocumentation sourceFile = true ↔
   (∃ iface prop,
      iface ∈ interfaces sourceFile ∧ includes (iface_name iface) "Props" = true ∧
      prop ∈ iface_properties iface ∧ ps_jsDocs prop ≠ []) ∨
   (∃ docs, docs ∈ functionJsDocs sourceFile ∧ docs ≠ []) ∨
   (∃ docs, docs ∈ variableStatementJsDocs sourceFile ∧ docs ≠ [])) ∧
  (hasJSDocumentation sourceFile = true ↔
   (∃ p, p ∈ extractProps sourceFile ∧ is_Some (pm_description p)) ∨
   (∃ docs, docs ∈ functionJsDocs sourceFile ∧ docs ≠ []) ∨
   (∃ docs, docs ∈ variableStatementJsDocs sourceFile ∧ docs ≠ [])) ∧
  (∀ p, p ∈ extractProps sourceFile → pm_description p = Some EmptyString →
        hasJSDocumentation sourceFile = true).
Proof.
  split; [apply hasJSDocumentation_true|].
  split.
  - rewrite hasJSDocumentation_true, documented_member_iff_described_prop. reflexivity.
  - intros p Hp Hempty. apply hasJSDocumentation_true. left.
    apply documented_member_iff_described_prop. exists p. split; [exact Hp|].
    rewrite Hempty. eauto.
Qed.

(** X8.  The analyzer and the cache store derive the same direct
    dependencies: for a file that [analyze] accepts, the import list
    that [needsUpdate] and [saveCache] work from is the [dependencies]
    field of the metadata, and the metadata names the file it was asked
    for. *)
Theorem analyzer_and_cache_agree_on_dependencies
    (w : World) (filePath : string) (meta : ComponentMeta) :
  analyze w filePath = Ok meta →
  extractImports w filePath = Ok (cm_dependencies meta) ∧ cm_filePath meta = filePath.
Proof.
  intros Hmeta. apply analyze_Ok in Hmeta as (sf & Hsf & ->). simpl. split; [|reflexivity].
  unfold extractImports, getOrAddSourceFile. rewrite Hsf. exc_simpl.
  rewrite localImports_eq. reflexivity.
Qed.

Lemma extractProps_witness :
  map pm_name (extractProps Scenes.buttonSource) = ["children"; "variant"] ∧
  map pm_required (extractProps Scenes.buttonSource) = [true; false] ∧
  ∀ p, p ∈ extractProps Scenes.buttonSource → pm_default p = None.
Proof.
  split; [rewrite (proj2 (extractProps_are_members_of_props_interfaces Scenes.buttonSource));
          reflexivity|].
  split; [reflexivity|].
  intros p Hp.
  destruct (proj1 (proj1 (extractProps_are_members_of_props_interfaces Scenes.buttonSource) p) Hp)
    as (iface & prop & _ & _ & _ & _ & _ & _ & _ & Hdefault).
  exact Hdefault.
Defined.

(** A member documented by tags only: its description is the empty
    string, and the file counts as documented. *)
Lemma tag_only_comment_counts :
  map pm_description (extractProps Scenes.deprecatedOnly) = [Some EmptyString] ∧
  hasJSDocumentation Scenes.deprecatedOnly = true.
Proof.
  split; reflexivity.
Qed.

Lemma analyzer_and_cache_agree_witness :
  ∃ meta,
    analyze Scenes.buttonWorld "/app/Button.tsx" = Ok meta ∧
    cm_dependencies meta = ["/app/theme.ts"] ∧
    extractImports Scenes.buttonWorld "/app/Button.tsx" = Ok (cm_dependencies meta).
Proof.
  eexists. split; [vm_compute; reflexivity|]. split; [reflexivity|].
  refine (proj1 (analyzer_and_cache_agree_on_dependencies Scenes.buttonWorld
                   "/app/Button.tsx" _ _)).
  vm_compute. reflexivity.
Defined.

(** ** The hook's batch: turns, filters and patterns *)

Lemma replaceStars1_cons (c : ascii) (rest : string) :
  replaceStars1 (String c rest) =
  if Ascii.eqb c "*" then "[^/]*" +:+ replaceStars1 rest else String c (replaceStars1 rest).
Proof.
  destruct c as [[] [] [] [] [] [] [] []]; reflexivity.
Qed.

Lemma replaceStars1_no_dot_star (s : string) :
  includes (replaceStars1 s) ".*" = false ∧ String.prefix "*" (replaceStars1 s) = false.
Proof.
  induction s as [|c rest [IHin IHpre]]; [split; reflexivity|].
  rewrite replaceStars1_cons. destruct (Ascii.eqb c "*") eqn:Estar.
  - change ("[^/]*" +:+ replaceStars1 rest)
      with (String "[" (String "^" (String "/" (String "]" (String "*" (replaceStars1 rest)))))).
    split; [|reflexivity]. simpl. exact IHin.
  - apply Ascii.eqb_neq in Estar. split.
    + change (includes (String c (replaceStars1 rest)) ".*")
        with (String.prefix ".*" (String c (replaceStars1 rest))
              || includes (replaceStars1 rest) ".*").
      rewrite IHin, orb_false_r.
      change (String.prefix ".*" (String c (replaceStars1 rest)))
        with (if ascii_dec "." c then String.prefix "*" (replaceStars1 rest) else false).
      destruct (ascii_dec "." c); [exact IHpre | reflexivity].
    + change (String.prefix "*" (String c (replaceStars1 rest)))
        with (if ascii_dec "*" c then String.prefix "" (replaceStars1 rest) else false).
      destruct (ascii_dec "*" c); [congruence | reflexivity].
Qed.

(** X9.  The regular expression that [run] builds from a watch pattern
    never contains [.*]: the [.*] written for a double star is itself
    rewritten by the replacement of single stars, so a double star ends
    up as one arbitrary character followed by characters other than a
    slash. *)
Theorem watch_pattern_never_yields_dot_star (pattern : string) :
  includes (replaceStars1 (replaceStars2 pattern)) ".*" = false.
Proof.
  exact (proj1 (replaceStars1_no_dot_star (replaceStars2 pattern))).
Qed.

Section OrchestratorTurns.

Variable sha256 : string → string.
Variable loadOrThrow : M AnchorConfig.
Variable getStagedFiles : M (list string).
Variable stageFile : string → M unit.
Variable regExpTest : string → string → Exc bool.
Variable initComponents : M unit.
Variable generateToFile : ComponentMeta → string → bool → M unit.
Variable path_dirname : string → string.
Variable path_join : string → string → string.

#[local] Abbreviation processFileTry :=
  (processFileTry sha256 stageFile generateToFile path_dirname path_join).
#[local] Abbreviation processFile :=
  (processFile sha256 stageFile generateToFile path_dirname path_join).
#[local] Abbreviation processFiles :=
  (processFiles sha256 stageFile generateToFile path_dirname path_join).
#[local] Abbreviation goodTurn :=
  (goodTurn sha256 stageFile generateToFile path_dirname path_join).
#[local] Abbreviation matchesSomePattern := (matchesSomePattern regExpTest).
#[local] Abbreviation filterComponentFiles := (filterComponentFiles regExpTest).

(** X10.  A batch in which no file needs an update is skipped whole:
    every file is counted as skipped, and the world is left exactly as it
    was (nothing is analysed, generated, staged or cached). *)
Theorem up_to_date_batch_is_left_alone (componentFiles : list string) (w : World) :
  (∀ file, file ∈ componentFiles → needsUpdate sha256 w file = Ok false) →
  processFiles componentFiles noCounts w =
  (w, {| n_processed := 0; n_skipped := length componentFiles; n_errors := 0 |}).
Proof.
  assert (Hgen : ∀ c, (∀ file, file ∈ componentFiles → needsUpdate sha256 w file = Ok false) →
                      processFiles componentFiles c w =
                      (w, {| n_processed := n_processed c;
                             n_skipped := n_skipped c + length componentFiles;
                             n_errors := n_errors c |})).
  { induction componentFiles as [|file rest IH]; intros c Hfresh; simpl.
    - destruct c. simpl. do 2 f_equal. lia.
    - unfold processFile, processFileTry. exc_simpl.
      rewrite (Hfresh file) by left.
      rewrite IH by (intros f Hf; apply Hfresh; right; exact Hf).
      simpl. do 2 f_equal. lia. }
  intros Hfresh. rewrite (Hgen noCounts Hfresh). reflexivity.
Qed.

(** X11.  What one turn of the loop counts: the file is counted as
    processed exactly when it was stale, was analysed, and its document
    was generated and staged; it is counted as skipped exactly when
    [needsUpdate] answered [false]. *)
Theorem turn_counts_processed_only_when_documented (file : string) (c : Counters) (w : World) :
  (n_processed (processFile file c w).2 = S (n_processed c) ↔ goodTurn w file) ∧
  (n_skipped (processFile file c w).2 = S (n_skipped c) ↔ needsUpdate sha256 w file = Ok false).
Proof.
  unfold processFile, processFileTry, goodTurn. exc_simpl.
  destruct (needsUpdate sha256 w file) as [[|]|err] eqn:Hn.
  - destruct (analyze w file) as [meta|err] eqn:Ha.
    + destruct (generateToFile meta (path_join (path_dirname file) "README.md") false w)
        as [w1 [[]|err]] eqn:Hg.
      * destruct (stageFile (path_join (path_dirname file) "README.md") w1)
          as [w2 [[]|err]] eqn:Hs.
        -- pose proof (saveCache_resolves sha256 w2 file (structureOf meta)) as Hsave.
           destruct (saveCache sha256 w2 file (structureOf meta)) as [w3 r].
           simpl in Hsave. subst r. simpl.
           split; split; intros H; try discriminate H; try lia; try reflexivity.
           split; [reflexivity|]. exists meta, w1, w2. auto.
        -- simpl. split; split; intros H; try discriminate H; try lia.
           destruct H as (_ & m & a & b & Hm & Hd & Hst). congruence.
      * simpl. split; split; intros H; try discriminate H; try lia.
        destruct H as (_ & m & a & b & Hm & Hd & Hst). congruence.
    + simpl. split; split; intros H; try discriminate H; try lia.
      destruct H as (_ & m & a & b & Hm & Hd & Hst). congruence.
  - simpl. split; split; intros H; try discriminate H; try lia; try reflexivity.
    destruct H as (Hstale & _). discriminate Hstale.
  - simpl. split; split; intros H; try discriminate H; try lia.
    destruct H as (Hstale & _). discriminate Hstale.
Qed.

Lemma matchesSomePattern_true (patterns : list string) (file : string) :
  matchesSomePattern patterns file = Ok true →
  ∃ pattern, pattern ∈ patterns ∧
             regExpTest (replaceStars1 (replaceStars2 pattern)) file = Ok true.
Proof.
  induction patterns as [|pattern rest IH]; simpl; [discriminate|].
  exc_simpl.
  destruct (regExpTest (replaceStars1 (replaceStars2 pattern)) file) as [[|]|err] eqn:Htest.
  - intros _. exists pattern. split; [left | exact Htest].
  - intros Hrest. destruct (IH Hrest) as (p & Hp & Hhit). exists p. split; [right|]; assumption.
  - discriminate.
Qed.

Lemma filterComponentFiles_cons (config : AnchorConfig) (file : string) (rest kept : list string) :
  filterComponentFiles config (file :: rest) = Ok kept →
  ∃ keep kept',
    matchesSomePattern (watchPatterns config) file = Ok keep ∧
    filterComponentFiles config rest = Ok kept' ∧
    kept = if keep : bool then file :: kept' else kept'.
Proof.
  simpl. exc_simpl.
  destruct (matchesSomePattern (watchPatterns config) file) as [keep|]; [|discriminate].
  destruct (filterComponentFiles config rest) as [kept'|]; [|discriminate].
  intros H. injection H as <-. eauto.
Qed.

(** X12.  The filter of staged files keeps, in their order, exactly the
    staged files that some watch pattern matches; a kept file is matched
    by the regular expression built from one of the configured patterns;
    and with no watch pattern configured nothing is kept. *)
Theorem filterComponentFiles_keeps_matching_files
    (config : AnchorConfig) (stagedFiles : list string) :
  (∀ kept, filterComponentFiles config stagedFiles = Ok kept →
           sublist kept stagedFiles ∧
           ∀ file, file ∈ kept ↔
                   file ∈ stagedFiles ∧
                   matchesSomePattern (watchPatterns config) file = Ok true) ∧
  (∀ file, matchesSomePattern (watchPatterns config) file = Ok true →
           ∃ pattern, pattern ∈ watchPatterns config ∧
                      regExpTest (replaceStars1 (replaceStars2 pattern)) file = Ok true) ∧
  (watchPatterns config = [] → filterComponentFiles config stagedFiles = Ok []).
Proof.
  split; [|split].
  - induction stagedFiles as [|file rest IH]; intros kept Hkept.
    + injection Hkept as <-. split; [constructor|].
      intros f. split; [intros H; inversion H | intros [H _]; inversion H].
    + apply filterComponentFiles_cons in Hkept as (keep & kept' & Hmatch & Hrest & ->).
      destruct (IH kept' Hrest) as [Hsub Hiff]. destruct keep.
      * split; [constructor; exact Hsub|]. intros f. rewrite !elem_of_cons, Hiff. split.
        -- intros [-> | [Hin Hm]]; [split; [left; reflexivity | exact Hmatch] | auto].
        -- intros [[-> | Hin] Hm]; [left; reflexivity | right; auto].
      * split; [constructor; exact Hsub|]. intros f. rewrite elem_of_cons, Hiff. split.
        -- intros [Hin Hm]. auto.
        -- intros [[-> | Hin] Hm]; [congruence | auto].
  - intros file. apply matchesSomePattern_true.
  - intros Hnone. induction stagedFiles as [|file rest IH]; simpl; [reflexivity|].
    rewrite Hnone in *. simpl. rewrite IH. reflexivity.
Qed.

End OrchestratorTurns.

Lemma up_to_date_batch_witness :
  processFiles Examples.demoDigest Examples.quietStage Examples.quietGenerate
    Examples.sameDirectory Examples.joinWithSlash ["/app/Card.tsx"] noCounts Examples.cardCached
  = (Examples.cardCached, {| n_processed := 0; n_skipped := 1; n_errors := 0 |}).
Proof.
  apply (up_to_date_batch_is_left_alone Examples.demoDigest Examples.quietStage
           Examples.quietGenerate Examples.sameDirectory Examples.joinWithSlash
           ["/app/Card.tsx"] Examples.cardCached).
  intros file Hfile. apply list_elem_of_singleton in Hfile. subst file. vm_compute. reflexivity.
Defined.

Lemma turn_counts_witness :
  n_processed (processFile Examples.demoDigest Scenes.failingStage Examples.quietGenerate
                 Examples.sameDirectory Examples.joinWithSlash
                 "/app/A.tsx" noCounts Examples.batchWorld).2 = 0 ∧
  ¬ goodTurn Examples.demoDigest Scenes.failingStage Examples.quietGenerate
      Examples.sameDirectory Examples.joinWithSlash Examples.batchWorld "/app/A.tsx".
Proof.
  assert (Hcount : n_processed (processFile Examples.demoDigest Scenes.failingStage
                                  Examples.quietGenerate Examples.sameDirectory
                                  Examples.joinWithSlash
                                  "/app/A.tsx" noCounts Examples.batchWorld).2 = 0)
    by (vm_compute; reflexivity).
  split; [exact Hcount|]. intros Hgood.
  apply (proj1 (turn_counts_processed_only_when_documented Examples.demoDigest
                  Scenes.failingStage Examples.quietGenerate Examples.sameDirectory
                  Examples.joinWithSlash "/app/A.tsx" noCounts Examples.batchWorld)) in Hgood.
  rewrite Hcount in Hgood. discriminate Hgood.
Defined.

Lemma filterComponentFiles_witness :
  filterComponentFiles Scenes.suffixTest {| watchPatterns := ["src/**/*.tsx"] |}
    ["/app/A.tsx"; "/app/notes.md"; "/app/C.tsx"] = Ok ["/app/A.tsx"; "/app/C.tsx"] ∧
  sublist ["/app/A.tsx"; "/app/C.tsx"] ["/app/A.tsx"; "/app/notes.md"; "/app/C.tsx"] ∧
  filterComponentFiles Scenes.suffixTest {| watchPatterns := [] |} ["/app/A.tsx"] = Ok [].
Proof.
  assert (Hkept : filterComponentFiles Scenes.suffixTest {| watchPatterns := ["src/**/*.tsx"] |}
                    ["/app/A.tsx"; "/app/notes.md"; "/app/C.tsx"]
                  = Ok ["/app/A.tsx"; "/app/C.tsx"]) by (vm_compute; reflexivity).
  split; [exact Hkept|]. split.
  - exact (proj1 (proj1 (filterComponentFiles_keeps_matching_files Scenes.suffixTest
                           {| watchPatterns := ["src/**/*.tsx"] |}
                           ["/app/A.tsx"; "/app/notes.md"; "/app/C.tsx"]) _ Hkept)).
  - apply (proj2 (proj2 (filterComponentFiles_keeps_matching_files Scenes.suffixTest
                           {| watchPatterns := [] |} ["/app/A.tsx"]))).
    reflexivity.
Defined.

(** ** git-utils: what git prints and what sh reads *)


Lemma shWord_in_quote (c : ascii) (rest : string) :
  shWord true (String c rest) =
  if Ascii.eqb c "'" then shWord false rest else String c <$> shWord true rest.
Proof. reflexivity. Qed.

Lemma shWord_quoted (message : string) :
  shWord true (escapeSingleQuotes message +:+ "'") = Some message.
Proof.
  induction message as [|c rest IH]; [reflexivity|].
  simpl escapeSingleQuotes. destruct (Ascii.eqb c "'") eqn:Hc.
  - apply Ascii.eqb_eq in Hc. subst c.
    change (("'\''" +:+ escapeSingleQuotes rest) +:+ "'")
      with (String "'" (String "\" (String "'" (String "'" (escapeSingleQuotes rest +:+ "'"))))).
    rewrite shWord_in_quote.
    change (Ascii.eqb "'" "'") with true. cbv iota.
    change (shWord false (String "\" (String "'" (String "'" (escapeSingleQuotes rest +:+ "'")))))
      with (String "'"%char <$> shWord true (escapeSingleQuotes rest +:+ "'")).
    rewrite IH. reflexivity.
  - change (String c (escapeSingleQuotes rest) +:+ "'")
      with (String c (escapeSingleQuotes rest +:+ "'")).
    rewrite shWord_in_quote, Hc, IH. reflexivity.
Qed.

(** X13.  The command line of [createCommit] quotes the message so that
    [sh] reads it back whole: the text after [-m] is one word whose
    value, by the quoting rules of [sh], is the message itself, single
    quotes, backslashes and line feeds included. *)
Theorem createCommit_message_survives_quoting (message : string) :
  ∃ word,
    commitCommandLine message = "git commit -m " +:+ word ∧
    shWord false word = Some message.
Proof.
  exists ("'" +:+ escapeSingleQuotes message +:+ "'"). split; [reflexivity|].
  change (shWord false ("'" +:+ escapeSingleQuotes message +:+ "'"))
    with (shWord true (escapeSingleQuotes message +:+ "'")).
  apply shWord_quoted.
Qed.

Section GitUtilsFacts.

Variable execAsync : string → string → M string.
Variable path_resolve : string → string → string.


End GitUtilsFacts.

(** ** The hook installer *)

Lemma backup_path_differs (p : string) : p +:+ ".backup" ≠ p.
Proof.
  intros H. apply (f_equal fromEnd) in H. rewrite fromEnd_app in H.
  apply (f_equal (@length ascii)) in H. rewrite length_app in H. simpl in H. lia.
Qed.

Lemma hook_script_is_marked : includes PRE_COMMIT_SCRIPT hookMarker = true.
Proof. vm_compute. reflexivity. Qed.

Section HooksInstallerFacts.

Variable execAsync : string → string → M string.
Variable mayWrite : string → bool.
Variable path_join : string → string → string.
Variable cwd gitDir topLevel : string.

#[local] Abbreviation install := (install execAsync mayWrite path_join).
#[local] Abbreviation uninstall := (uninstall execAsync mayWrite path_join).
#[local] Abbreviation isInstalled := (isInstalled execAsync path_join).
#[local] Abbreviation hookPath := (hookPathOf path_join (trim topLevel)).
#[local] Abbreviation backupPath := (backupPathOf path_join (trim topLevel)).
#[local] Abbreviation hooksDir := (hooksDirOf path_join (trim topLevel)).

Hypothesis inWorkTree : gitAnswers execAsync cwd gitDir topLevel.

Lemma isGitRepository_true (w : World) : isGitRepository execAsync cwd w = (w, Ok true).
Proof.
  unfold isGitRepository, succeeds. rewrite (proj1 inWorkTree w). reflexivity.
Qed.

Lemma getGitRoot_trimmed (w : World) : getGitRoot execAsync cwd w = (w, Ok (trim topLevel)).
Proof.
  unfold getGitRoot, orGitError. exc_simpl. rewrite (proj2 inWorkTree w). reflexivity.
Qed.

Lemma fs_writeFile_Ok (p content : string) (w w' : World) :
  fs_writeFile mayWrite p content w = (w', Ok ()) →
  mayWrite p = true ∧
  files w' = <[p := writtenNode w content]> (files w) ∧
  dateNow w' = dateNow w.
Proof.
  unfold fs_writeFile. destruct (mayWrite p); [|discriminate].
  intros H. injection H as <-. auto.
Qed.

(** What a successful [install] has done: the hook is the script, and
    the backup holds the previous hook when that was somebody else's and
    is untouched otherwise. *)
Lemma install_Ok (w w' : World) :
  install cwd w = (w', Ok ()) →
  mayWrite hookPath = true ∧
  dateNow w' = dateNow w ∧
  ((∃ existing, foreignHook path_join w (trim topLevel) existing ∧
                mayWrite backupPath = true ∧
                files w' = <[hookPath := writtenNode w PRE_COMMIT_SCRIPT]>
                             (<[backupPath := writtenNode w existing]> (files w))) ∨
   ((∀ existing, ¬ foreignHook path_join w (trim topLevel) existing) ∧
    files w' = <[hookPath := writtenNode w PRE_COMMIT_SCRIPT]> (files w))).
Proof.
  unfold install, mbind, m_bind. rewrite isGitRepository_true. change (negb true) with false. cbv beta iota.
  rewrite getGitRoot_trimmed. unfold fs_mkdir.
  destruct (mayWrite hooksDir); [|discriminate].
  unfold readFileOrNull, foreignHook.
  destruct (fs_readFile w hookPath) as [existing|err] eqn:Hread; unfold catch_null; cbv beta iota.
  - destruct (negb (existing =? "") && negb (includes existing hookMarker)) eqn:Hcond.
    + destruct (fs_writeFile mayWrite backupPath existing w) as [w1 [[]|e]] eqn:Hbackup;
        [|discriminate].
      intros Hhook.
      apply fs_writeFile_Ok in Hbackup as (Hmb & Hf1 & Hd1).
      apply fs_writeFile_Ok in Hhook as (Hmh & Hf2 & Hd2).
      split; [exact Hmh|]. split; [congruence|]. left. exists existing.
      apply andb_true_iff in Hcond as [Hne Hinc].
      apply negb_true_iff in Hne, Hinc. apply String.eqb_neq in Hne.
      split; [auto|]. split; [exact Hmb|].
      rewrite Hf2, Hf1. unfold writtenNode. rewrite Hd1. reflexivity.
    + unfold mret, m_ret. intros Hhook.
      apply fs_writeFile_Ok in Hhook as (Hmh & Hf2 & Hd2).
      split; [exact Hmh|]. split; [exact Hd2|]. right. split; [|exact Hf2].
      intros ex (Hr & Hne & Hinc). injection Hr as <-.
      apply String.eqb_neq in Hne. rewrite Hne, Hinc in Hcond. discriminate Hcond.
  - unfold mret, m_ret. intros Hhook.
    apply fs_writeFile_Ok in Hhook as (Hmh & Hf2 & Hd2).
    split; [exact Hmh|]. split; [exact Hd2|]. right. split; [|exact Hf2].
    intros ex (Hr & _). discriminate Hr.
Qed.

Lemma fs_readFile_written (w w' : World) (p content : string) (rest : gmap string FileNode) :
  files w' = <[p := writtenNode w content]> rest → fs_readFile w' p = Ok content.
Proof.
  intros Hfiles. unfold fs_readFile. rewrite Hfiles, lookup_insert_eq. reflexivity.
Qed.

(** X15.  After a successful [install] the hook file holds the
    CodeAnchor script and [isInstalled] answers [true]. *)
Theorem install_then_isInstalled (w w' : World) :
  install cwd w = (w', Ok ()) →
  fs_readFile w' hookPath = Ok PRE_COMMIT_SCRIPT ∧ isInstalled cwd w' = (w', Ok true).
Proof.
  intros Hinstall. apply install_Ok in Hinstall as (_ & _ & Hfiles).
  assert (Hread : fs_readFile w' hookPath = Ok PRE_COMMIT_SCRIPT).
  { destruct Hfiles as [(existing & _ & _ & Hfiles) | (_ & Hfiles)];
      exact (fs_readFile_written _ _ _ _ _ Hfiles). }
  split; [exact Hread|].
  unfold isInstalled, mbind, m_bind. rewrite isGitRepository_true. change (negb true) with false. cbv beta iota.
  unfold ownHookPresent. rewrite getGitRoot_trimmed, Hread, hook_script_is_marked. reflexivity.
Qed.

(** X16.  [install] never loses somebody else's hook and never
    overwrites a backup with its own: when the hook in place is foreign
    (readable, not empty, without the marker) its text is in the backup
    file afterwards; in every other case the backup file is exactly as it
    was before. *)
Theorem install_backs_up_only_foreign_hooks (w w' : World) :
  install cwd w = (w', Ok ()) →
  (∀ existing, foreignHook path_join w (trim topLevel) existing →
               fs_readFile w' backupPath = Ok existing) ∧
  ((∀ existing, ¬ foreignHook path_join w (trim topLevel) existing) →
   files w' !! backupPath = files w !! backupPath).
Proof.
  intros Hinstall. apply install_Ok in Hinstall as (_ & _ & Hfiles).
  assert (Hne : hookPath ≠ backupPath).
  { intros Heq. symmetry in Heq. exact (backup_path_differs _ Heq). }
  destruct Hfiles as [(existing & Hforeign & _ & Hfiles) | (Hnone & Hfiles)].
  - split.
    + intros ex (Hread & _). destruct Hforeign as (Hread' & _).
      rewrite Hread in Hread'. injection Hread' as ->.
      unfold fs_readFile. rewrite Hfiles, lookup_insert_ne, lookup_insert_eq by exact Hne.
      reflexivity.
    + intros Hnone. exfalso. exact (Hnone existing Hforeign).
  - split.
    + intros ex Hforeign. exfalso. exact (Hnone ex Hforeign).
    + intros _. rewrite Hfiles, lookup_insert_ne by exact Hne. reflexivity.
Qed.

(** X17.  Install, then uninstall, over somebody else's hook: the hook
    file holds the previous text again, the backup file is gone, and no
    other file of the tree has changed. *)
Theorem install_then_uninstall_restores_hook (w w1 : World) (existing : string) :
  foreignHook path_join w (trim topLevel) existing →
  install cwd w = (w1, Ok ()) →
  ∃ w2,
    uninstall cwd w1 = (w2, Ok ()) ∧
    fs_readFile w2 hookPath = Ok existing ∧
    files w2 !! backupPath = None ∧
    ∀ p, p ≠ hookPath → p ≠ backupPath → files w2 !! p = files w !! p.
Proof.
  intros Hforeign Hinstall. apply install_Ok in Hinstall as (Hmh & Hdate & Hfiles).
  assert (Hne : hookPath ≠ backupPath).
  { intros Heq. symmetry in Heq. exact (backup_path_differs _ Heq). }
  destruct Hfiles as [(ex & Hforeign' & Hmb & Hfiles) | (Hnone & _)];
    [|exfalso; exact (Hnone existing Hforeign)].
  assert (ex = existing) as ->.
  { destruct Hforeign as (Hr & _), Hforeign' as (Hr' & _). congruence. }
  unfold uninstall, mbind, m_bind. rewrite isGitRepository_true. change (negb true) with false. cbv beta iota.
  rewrite getGitRoot_trimmed. unfold removeOwnHook.
  rewrite Hfiles, lookup_insert_eq. unfold writtenNode at 1. cbv beta iota.
  rewrite hook_script_is_marked. change (negb true) with false. cbv iota.
  unfold fs_unlink. rewrite Hfiles, lookup_insert_eq, Hmh. cbv beta iota.
  unfold restoreBackup, fs_readFile. simpl files.
  rewrite lookup_delete_ne by congruence.
  rewrite Hfiles, lookup_insert_ne, lookup_insert_eq by congruence.
  unfold writtenNode at 1. cbv beta iota.
  unfold fs_writeFile at 1. rewrite Hmh. cbv beta iota.
  unfold fs_unlink. simpl files.
  rewrite lookup_insert_ne, lookup_delete_ne by congruence.
  rewrite Hfiles, lookup_insert_ne, lookup_insert_eq by congruence. rewrite Hmb. cbv beta iota.
  eexists. split; [reflexivity|]. simpl. split; [|split].
  - rewrite lookup_delete_ne, lookup_insert_eq by congruence. reflexivity.
  - apply lookup_delete_eq.
  - intros p Hp Hb.
    rewrite lookup_delete_ne, lookup_insert_ne, lookup_delete_ne by congruence.
    rewrite !lookup_insert_ne by congruence. reflexivity.
Qed.


End HooksInstallerFacts.

(** ** The tech-stack detector *)

Lemma generateSuggestions_shape (detected : list string) :
  sg_watchPatterns (generateSuggestions detected) ≠ [] ∧
  (sg_structure (generateSuggestions detected) = Atomic ∨
   sg_structure (generateSuggestions detected) = FeatureBased).
Proof.
  unfold generateSuggestions. simpl.
  destruct (existsb (fun d => includes d "Next.js") detected),
           (existsb (fun d => includes d "React") detected),
           (existsb (fun d => includes d "Vue") detected); simpl; split; auto; discriminate.
Qed.

Lemma truthy_delete (deps : gmap string string) (gone key : string) :
  key ≠ gone → truthy (delete gone deps) key = truthy deps key.
Proof.
  intros Hne. unfold truthy. rewrite lookup_delete_ne by congruence. reflexivity.
Qed.

Lemma versionOf_delete (deps : gmap string string) (gone key : string) :
  key ≠ gone → versionOf (delete gone deps) key = versionOf deps key.
Proof.
  intros Hne. unfold versionOf. rewrite lookup_delete_ne by congruence. reflexivity.
Qed.

(** With [next] listed, the labels are the Next.js label and then what
    the dependencies give without the two frameworks. *)
Lemma detectLabels_with_next (deps : gmap string string) :
  truthy deps "next" = true →
  detectLabels deps =
  ("Next.js " +:+ cleanVersion (versionOf deps "next"))
  :: detectLabels (delete "react" (delete "next" deps)).
Proof.
  intros Hnext.
  assert (Hn : truthy (delete "react" (delete "next" deps)) "next" = false).
  { unfold truthy. rewrite lookup_delete_ne by discriminate. rewrite lookup_delete_eq.
    reflexivity. }
  assert (Hr : truthy (delete "react" (delete "next" deps)) "react" = false).
  { unfold truthy. rewrite lookup_delete_eq. reflexivity. }
  unfold detectLabels. rewrite Hnext, Hn, Hr. cbv beta iota.
  rewrite !truthy_delete, !versionOf_delete by discriminate. reflexivity.
Qed.

Lemma pushIf_elem (cond : bool) (label x : string) : x ∈ pushIf cond label → x = label.
Proof.
  destruct cond; simpl; intros H; [apply list_elem_of_singleton in H; exact H | inversion H].
Qed.

(** Without the two frameworks no label starts as a React label does. *)
Lemma detectLabels_without_framework (deps : gmap string string) (label : string) :
  label ∈ detectLabels deps →
  truthy deps "next" = false →
  truthy deps "react" = false →
  String.prefix "React " label = false.
Proof.
  intros Hlabel Hnext Hreact. unfold detectLabels in Hlabel. rewrite Hnext, Hreact in Hlabel.
  repeat (apply elem_of_app in Hlabel as [Hlabel | Hlabel]);
    try (apply pushIf_elem in Hlabel; subst label; reflexivity);
    try (inversion Hlabel; fail).
  destruct (truthy deps "vitest"); [|destruct (truthy deps "jest")];
    try (apply list_elem_of_singleton in Hlabel; subst label; reflexivity);
    inversion Hlabel.
Qed.

Section TechDetectorFacts.

Variable parsePackageJson : string → Exc PackageJson.

(** X19.  [detectFromPackageJson] always resolves, whatever the file
    holds or lacks; the stack it reports is never empty, it suggests at
    least one watch pattern, and the structure it suggests is [atomic] or
    [feature-based]. *)
Theorem detection_is_never_empty (w : World) (pkgPath : string) :
  ∃ result,
    detectFromPackageJson parsePackageJson w pkgPath = Ok result ∧
    dr_stack result ≠ [] ∧
    sg_watchPatterns (dr_suggestions result) ≠ [] ∧
    (sg_structure (dr_suggestions result) = Atomic ∨
     sg_structure (dr_suggestions result) = FeatureBased).
Proof.
  unfold detectFromPackageJson.
  destruct (fs_readFile w pkgPath) as [content|err]; exc_simpl.
  - destruct (parsePackageJson content) as [pkg|err]; exc_simpl.
    + eexists. split; [reflexivity|]. simpl.
      pose proof (generateSuggestions_shape (detectLabels (mergedDependencies pkg))) as [Hp Hs].
      split; [|split; assumption].
      destruct (detectLabels (mergedDependencies pkg)); simpl; discriminate.
    + eexists. split; [reflexivity|]. simpl. split; [discriminate|]. split; [discriminate|auto].
  - eexists. split; [reflexivity|]. simpl. split; [discriminate|]. split; [discriminate|auto].
Qed.

(** X20.  Next.js takes precedence: when the merged dependencies list
    [next] with a non-empty version, the stack is the Next.js label with
    the cleaned version followed by exactly the labels that the same
    dependencies give without [next] and [react]; so whether React is
    installed too changes nothing, and no label of the stack is a React
    label.  The suggestions are the feature-based structure with the
    [app] and [components] patterns, whatever else is installed.  On a
    key present in both sections the version of [devDependencies] is the
    one reported. *)
Theorem next_takes_precedence (w : World) (pkgPath content : string) (pkg : PackageJson) :
  fs_readFile w pkgPath = Ok content →
  parsePackageJson content = Ok pkg →
  truthy (mergedDependencies pkg) "next" = true →
  detectFromPackageJson parsePackageJson w pkgPath =
  Ok {| dr_stack :=
          ("Next.js " +:+ cleanVersion (versionOf (mergedDependencies pkg) "next"))
          :: detectLabels (delete "react" (delete "next" (mergedDependencies pkg)));
        dr_suggestions :=
          {| sg_structure := FeatureBased;
             sg_watchPatterns := ["app/**/*.{ts,tsx}"; "components/**/*.{ts,tsx}"] |} |} ∧
  (∀ label,
     label ∈ ("Next.js " +:+ cleanVersion (versionOf (mergedDependencies pkg) "next"))
             :: detectLabels (delete "react" (delete "next" (mergedDependencies pkg))) →
     String.prefix "React " label = false) ∧
  (∀ dev v, pkg_devDependencies pkg = Some dev → dev !! "next" = Some v →
            versionOf (mergedDependencies pkg) "next" = v).
Proof.
  intros Hread Hparse Hnext. split; [|split].
  - unfold detectFromPackageJson. rewrite Hread. exc_simpl. rewrite Hparse. exc_simpl.
    rewrite (detectLabels_with_next _ Hnext). simpl. unfold generateSuggestions. simpl.
    reflexivity.
  - intros label Hlabel. apply elem_of_cons in Hlabel as [-> | Hlabel]; [reflexivity|].
    apply detectLabels_without_framework in Hlabel; [exact Hlabel| |].
    + unfold truthy. rewrite lookup_delete_ne by discriminate. rewrite lookup_delete_eq.
      reflexivity.
    + unfold truthy. rewrite lookup_delete_eq. reflexivity.
  - intros dev v Hdev Hv. unfold versionOf, mergedDependencies. rewrite Hdev. simpl.
    rewrite (lookup_union_Some_l _ _ _ _ Hv). reflexivity.
Qed.

End TechDetectorFacts.

(** ** The document generator *)

Section DocGeneratorFacts.

Variable renderComponentDoc : ComponentTemplateData → M string.
Variable toISOString : Z → string.
Variable mayWrite : string → bool.
Variable path_dirname : string → string.
Variable aiProvider : option AIProvider.
Variable includeExamples : bool.
Variable includeTimestamp : bool.

#[local] Abbreviation generate :=
  (generate renderComponentDoc toISOString aiProvider includeExamples includeTimestamp).
#[local] Abbreviation templateDataOf := (templateDataOf toISOString includeTimestamp).
#[local] Abbreviation generateToFileOf :=
  (generateToFileOf renderComponentDoc toISOString mayWrite path_dirname aiProvider
     includeExamples includeTimestamp).
#[local] Abbreviation generateBatchLoop :=
  (generateBatchLoop renderComponentDoc toISOString aiProvider includeExamples includeTimestamp).
#[local] Abbreviation generateBatch :=
  (generateBatch renderComponentDoc toISOString aiProvider includeExamples includeTimestamp).

Lemma enrich_keeps_the_component (ai : AIProvider) (component : ComponentMeta)
    (data : ComponentTemplateData) (w : World) :
  td_name (enrich includeExamples ai component data w).2 = td_name data ∧
  td_props (enrich includeExamples ai component data w).2 = td_props data ∧
  td_dependencies (enrich includeExamples ai component data w).2 = td_dependencies data ∧
  (td_description data = None → td_example data = None →
   is_Some (td_example (enrich includeExamples ai component data w).2) →
   is_Some (td_description (enrich includeExamples ai component data w).2)).
Proof.
  unfold enrich.
  destruct (generateDescription ai (aiComponentOf component) w) as [w1 [description|err]].
  - destruct includeExamples.
    + destruct (generateExample ai (aiComponentOf component) w1) as [w2 [example|err]];
        simpl; repeat split; eauto.
    + simpl. repeat split; eauto.
  - simpl. repeat split; try reflexivity. intros _ Hex [x Hx]. congruence.
Qed.

(** X21.  [generate] always ends in the template: whatever the provider
    does, including rejecting either request, the outcome is the outcome
    of rendering template data that carry the component's name, props and
    dependencies, with an example only where there is a description; so
    [generate] rejects only when rendering does.  Without the AI flag the
    provider is not consulted at all. *)
Theorem generate_always_renders (component : ComponentMeta) (useAI : bool) (w : World) :
  ∃ data w1,
    generate component useAI w = renderComponentDoc data w1 ∧
    td_name data = cm_name component ∧
    td_props data = cm_props component ∧
    td_dependencies data = td_dependencies (templateDataOf component w) ∧
    (is_Some (td_example data) → is_Some (td_description data)) ∧
    (useAI = false → data = templateDataOf component w ∧ w1 = w).
Proof.
  unfold generate. destruct aiProvider as [ai|].
  - destruct useAI.
    + pose proof (enrich_keeps_the_component ai component (templateDataOf component w) w)
        as (Hname & Hprops & Hdeps & Hex).
      destruct (enrich includeExamples ai component (templateDataOf component w) w)
        as [w1 data] eqn:Henrich.
      simpl in *. exists data, w1. split; [reflexivity|]. split; [exact Hname|].
      split; [exact Hprops|]. split; [exact Hdeps|]. split; [|discriminate].
      apply Hex; reflexivity.
    + exists (templateDataOf component w), w. simpl. repeat split; auto.
      all: intros [x Hx]; discriminate.
  - exists (templateDataOf component w), w. simpl. repeat split; auto.
    all: intros [x Hx]; discriminate.
Qed.

(** X22.  Write, then read: after a successful [generateToFile] the file
    at the output path holds exactly the markdown that [generate]
    produced, and no other file has changed since [generate] returned. *)
Theorem generateToFile_writes_the_markdown
    (component : ComponentMeta) (outputPath : string) (useAI : bool) (w w' : World) :
  generateToFileOf component outputPath useAI w = (w', Ok ()) →
  ∃ markdown w1,
    generate component useAI w = (w1, Ok markdown) ∧
    fs_readFile w' outputPath = Ok markdown ∧
    ∀ p, p ≠ outputPath → files w' !! p = files w1 !! p.
Proof.
  unfold generateToFileOf, mbind, m_bind.
  destruct (generate component useAI w) as [w1 [markdown|err]]; [|discriminate].
  unfold fs_mkdir. destruct (mayWrite (path_dirname outputPath)); [|discriminate].
  unfold fs_writeFile. destruct (mayWrite outputPath); [|discriminate].
  intros H. injection H as <-. exists markdown, w1. split; [reflexivity|]. split.
  - unfold fs_readFile. simpl. rewrite lookup_insert_eq. reflexivity.
  - intros p Hp. simpl. rewrite lookup_insert_ne by congruence. reflexivity.
Qed.

Lemma generateBatchLoop_names (components : list ComponentMeta) (useAI : bool)
    (results final : gmap string string) (w w' : World) :
  generateBatchLoop components useAI results w = (w', Ok final) →
  ∀ name, is_Some (final !! name) ↔
          is_Some (results !! name) ∨ name ∈ map cm_name components.
Proof.
  revert results w. induction components as [|component rest IH]; intros results w; simpl.
  - unfold mret, m_ret. intros H. injection H as <- <-. intros name. split; [auto|].
    intros [H | H]; [exact H | inversion H].
  - unfold mbind, m_bind.
    destruct (generate component useAI w) as [w1 [markdown|err]]; [|discriminate].
    intros Hrest name. rewrite (IH _ _ Hrest name), elem_of_cons.
    destruct (decide (name = cm_name component)) as [-> | Hne].
    + rewrite lookup_insert_eq. split; [intros _; right; left; reflexivity | eauto].
    + rewrite lookup_insert_ne by congruence. split.
      * intros [H | H]; auto.
      * intros [H | [H | H]]; auto. contradiction.
Qed.

Lemma generateBatchLoop_size (components : list ComponentMeta) (useAI : bool)
    (results final : gmap string string) (w w' : World) :
  generateBatchLoop components useAI results w = (w', Ok final) →
  (size final ≤ size results + length components)%nat.
Proof.
  revert results w. induction components as [|component rest IH]; intros results w; simpl.
  - unfold mret, m_ret. intros H. injection H as <- <-. lia.
  - unfold mbind, m_bind.
    destruct (generate component useAI w) as [w1 [markdown|err]]; [|discriminate].
    intros Hrest. apply IH in Hrest. rewrite map_size_insert in Hrest.
    destruct (results !! cm_name component); simpl in Hrest; lia.
Qed.

(** X23.  [generateBatch] answers with a map keyed by component name:
    its keys are exactly the names of the components, so components that
    share a name share one entry and the map can hold fewer documents
    than there were components. *)
Theorem generateBatch_is_keyed_by_name (components : list ComponentMeta) (useAI : bool)
    (final : gmap string string) (w w' : World) :
  generateBatch components useAI w = (w', Ok final) →
  (∀ name, is_Some (final !! name) ↔ name ∈ map cm_name components) ∧
  (size final ≤ length components)%nat.
Proof.
  intros Hbatch.
  pose proof (generateBatchLoop_names components useAI ∅ final w w' Hbatch) as Hnames.
  assert (Hkeys : ∀ name, is_Some (final !! name) ↔ name ∈ map cm_name components).
  { intros name. rewrite Hnames, lookup_empty. split; [|auto].
    intros [[x Hx] | H]; [discriminate | exact H]. }
  split; [exact Hkeys|].
  pose proof (generateBatchLoop_size components useAI ∅ final w w' Hbatch) as Hsize.
  rewrite map_size_empty in Hsize. exact Hsize.
Qed.

End DocGeneratorFacts.

(** ** The further properties on concrete inputs *)


Lemma quietGit_answers :
  gitAnswers Scenes.quietGit "/repo" ("/repo" +:+ String newline EmptyString)
    ("/repo" +:+ String newline EmptyString).
Proof. split; intros w; reflexivity. Qed.

Lemma install_foreign_run :
  install Scenes.quietGit Scenes.everyPath Examples.joinWithSlash "/repo" Scenes.foreignHookWorld
  = ((install Scenes.quietGit Scenes.everyPath Examples.joinWithSlash "/repo"
        Scenes.foreignHookWorld).1, Ok ()).
Proof. vm_compute. reflexivity. Qed.

Lemma foreignHookWorld_is_foreign :
  foreignHook Examples.joinWithSlash Scenes.foreignHookWorld
    (trim ("/repo" +:+ String newline EmptyString)) Scenes.huskyHook.
Proof.
  split; [vm_compute; reflexivity|]. split; [discriminate | vm_compute; reflexivity].
Qed.

Lemma install_then_isInstalled_witness :
  isInstalled Scenes.quietGit Examples.joinWithSlash "/repo" Scenes.foreignHookWorld
  = (Scenes.foreignHookWorld, Ok false) ∧
  (isInstalled Scenes.quietGit Examples.joinWithSlash "/repo"
     (install Scenes.quietGit Scenes.everyPath Examples.joinWithSlash "/repo"
        Scenes.foreignHookWorld).1).2 = Ok true.
Proof.
  split; [vm_compute; reflexivity|].
  rewrite (proj2 (install_then_isInstalled Scenes.quietGit Scenes.everyPath
                    Examples.joinWithSlash "/repo" _ _ quietGit_answers
                    Scenes.foreignHookWorld _ install_foreign_run)).
  reflexivity.
Defined.

Lemma install_backs_up_witness :
  fs_readFile (install Scenes.quietGit Scenes.everyPath Examples.joinWithSlash "/repo"
                 Scenes.foreignHookWorld).1 "/repo/.git/hooks/pre-commit.backup"
  = Ok Scenes.huskyHook.
Proof.
  exact (proj1 (install_backs_up_only_foreign_hooks Scenes.quietGit Scenes.everyPath
                  Examples.joinWithSlash "/repo" _ _ quietGit_answers
                  Scenes.foreignHookWorld _ install_foreign_run)
           Scenes.huskyHook foreignHookWorld_is_foreign).
Defined.

Lemma install_then_uninstall_witness :
  ∃ w2,
    uninstall Scenes.quietGit Scenes.everyPath Examples.joinWithSlash "/repo"
      (install Scenes.quietGit Scenes.everyPath Examples.joinWithSlash "/repo"
         Scenes.foreignHookWorld).1 = (w2, Ok ()) ∧
    fs_readFile w2 "/repo/.git/hooks/pre-commit" = Ok Scenes.huskyHook ∧
    files w2 !! "/repo/.git/hooks/pre-commit.backup" = None.
Proof.
  destruct (install_then_uninstall_restores_hook Scenes.quietGit Scenes.everyPath
              Examples.joinWithSlash "/repo" _ _ quietGit_answers
              Scenes.foreignHookWorld _ Scenes.huskyHook
              foreignHookWorld_is_foreign install_foreign_run)
    as (w2 & Huninstall & Hhook & Hbackup & _).
  exists w2. split; [exact Huninstall|]. split; [exact Hhook | exact Hbackup].
Defined.


Lemma next_takes_precedence_witness :
  detectFromPackageJson Scenes.parseDemo Scenes.packageWorld "/repo/package.json" =
  Ok {| dr_stack := ["Next.js 15.1.0"; "TypeScript"];
        dr_suggestions :=
          {| sg_structure := FeatureBased;
             sg_watchPatterns := ["app/**/*.{ts,tsx}"; "components/**/*.{ts,tsx}"] |} |}.
Proof.
  destruct (next_takes_precedence Scenes.parseDemo Scenes.packageWorld "/repo/package.json"
              "next-package" Scenes.nextPackage)
    as (Hdetect & _ & _).
  - vm_compute. reflexivity.
  - reflexivity.
  - vm_compute. reflexivity.
  - rewrite Hdetect. vm_compute. reflexivity.
Defined.

Lemma generateToFile_witness :
  ∃ w',
    generateToFileOf Scenes.plainRender Scenes.fixedDate Scenes.everyPath Examples.sameDirectory
      (Some Scenes.refusingProvider) true true (Scenes.cardMeta []) "/app/README.md" true
      Examples.emptyWorld = (w', Ok ()) ∧
    fs_readFile w' "/app/README.md" = Ok "# Card".
Proof.
  eexists. split; [vm_compute; reflexivity|].
  destruct (generateToFile_writes_the_markdown Scenes.plainRender Scenes.fixedDate
              Scenes.everyPath Examples.sameDirectory (Some Scenes.refusingProvider) true true
              (Scenes.cardMeta []) "/app/README.md" true Examples.emptyWorld _ eq_refl)
    as (markdown & w1 & Hgenerate & Hread & _).
  vm_compute in Hgenerate. injection Hgenerate as _ <-. exact Hread.
Defined.

Lemma generateBatch_witness :
  ∃ final,
    generateBatch Scenes.plainRender Scenes.fixedDate None true true
      [Scenes.cardMeta []; Scenes.cardMeta ["/app/types.ts"]] false Examples.emptyWorld
    = (Examples.emptyWorld, Ok final) ∧
    size final = 1 ∧
    (size final ≤ 2)%nat.
Proof.
  eexists. split; [vm_compute; reflexivity|]. split; [vm_compute; reflexivity|].
  refine (proj2 (generateBatch_is_keyed_by_name Scenes.plainRender Scenes.fixedDate None
                   true true [Scenes.cardMeta []; Scenes.cardMeta ["/app/types.ts"]] false
                   _ Examples.emptyWorld Examples.emptyWorld _)).
  vm_compute. reflexivity.
Defined.

(** ** The sync command and the hook, end to end *)

Section SyncAndRun.

Variable sha256 : string → string.
Variable loadOrThrow : M AnchorConfig.
Variable getStagedFiles : M (list string).
Variable stageFile : string → M unit.
Variable regExpTest : string → string → Exc bool.
Variable initComponents : M unit.
Variable generateToFile : ComponentMeta → string → bool → M unit.
Variable path_dirname : string → string.
Variable path_join : string → string → string.

#[local] Abbreviation run :=
  (run sha256 loadOrThrow getStagedFiles stageFile regExpTest initComponents
       generateToFile path_dirname path_join).

Lemma changedFilesOf_stale (files : list string) (w : World) :
  ∃ kept,
    changedFilesOf sha256 false files w = Ok kept ∧
    sublist kept files ∧
    ∀ file, file ∈ kept ↔ file ∈ files ∧ needsUpdate sha256 w file = Ok true.
Proof.
  induction files as [|file rest (kept & Hkept & Hsub & Hiff)]; simpl.
  - exists []. split; [reflexivity|]. split; [constructor|].
    intros f. split; [intros H; inversion H | intros [H _]; inversion H].
  - rewrite Hkept.
    assert (Hn : ∃ b, needsUpdate sha256 w file = Ok b)
      by (rewrite needsUpdate_eq; eexists; reflexivity).
    destruct Hn as [b Hn]. rewrite Hn. destruct b; exc_simpl.
    + exists (file :: kept). split; [reflexivity|]. split; [constructor; exact Hsub|].
      intros f. rewrite !elem_of_cons, Hiff. split.
      * intros [-> | [Hin Hm]]; [split; [left; reflexivity | exact Hn] | auto].
      * intros [[-> | Hin] Hm]; [left; reflexivity | right; auto].
    + exists kept. split; [reflexivity|]. split; [constructor; exact Hsub|].
      intros f. rewrite elem_of_cons, Hiff. split.
      * intros [Hin Hm]. auto.
      * intros [[-> | Hin] Hm]; [|auto]. rewrite Hn in Hm. discriminate Hm.
Qed.

Lemma changedFilesOf_forced (files : list string) (w : World) :
  changedFilesOf sha256 true files w = Ok files.
Proof.
  induction files as [|file rest IH]; simpl; [reflexivity|]. rewrite IH. reflexivity.
Qed.

(** X24.  The sync command asks the cache only in fast mode and without
    [force]: then it visits, in their order, exactly the files for which
    [needsUpdate] answers [true]; in every other mode it visits every
    file found, whatever the cache holds. *)
Theorem sync_consults_cache_only_in_unforced_fast_mode
    (fast force : bool) (files : list string) (w : World) :
  (fast = false ∨ force = true → filesToSyncOf sha256 fast force files w = Ok files) ∧
  (fast = true → force = false →
   ∃ kept,
     filesToSyncOf sha256 fast force files w = Ok kept ∧
     sublist kept files ∧
     ∀ file, file ∈ kept ↔ file ∈ files ∧ needsUpdate sha256 w file = Ok true).
Proof.
  unfold filesToSyncOf. split.
  - intros [-> | ->]; [reflexivity|]. destruct fast; [apply changedFilesOf_forced | reflexivity].
  - intros -> ->. apply changedFilesOf_stale.
Qed.

(** X25.  When the configuration loads, git lists staged files, some of
    them match a watch pattern and the components are set up, the result
    of [run] accounts for every matching file exactly once:
    [processed + skipped + errors] is their number. *)
Theorem run_accounts_for_every_component_file
    (w w1 w2 w3 : World) (config : AnchorConfig) (stagedFiles componentFiles : list string) :
  loadOrThrow w = (w1, Ok config) →
  getStagedFiles w1 = (w2, Ok stagedFiles) →
  filterComponentFiles regExpTest config stagedFiles = Ok componentFiles →
  componentFiles ≠ [] →
  initComponents w2 = (w3, Ok ()) →
  ∃ w' result,
    run w = (w', Ok result) ∧
    processed result + skipped result + errors result = length componentFiles.
Proof.
  intros Hload Hstaged Hfilter Hany Hinit.
  assert (Hsome : stagedFiles ≠ []).
  { intros ->. simpl in Hfilter. injection Hfilter as <-. exact (Hany eq_refl). }
  assert (Hprepare : prepare loadOrThrow getStagedFiles regExpTest initComponents w
                     = (w3, Ok (Some componentFiles))).
  { unfold prepare, pure, mbind, m_bind. rewrite Hload, Hstaged.
    destruct stagedFiles as [|s0 staged]; [contradiction|].
    change (length (s0 :: staged) =? 0)%nat with false. cbv beta iota.
    rewrite Hfilter.
    destruct componentFiles as [|c0 components]; [contradiction|].
    change (length (c0 :: components) =? 0)%nat with false. cbv beta iota.
    rewrite Hinit. reflexivity. }
  unfold run. rewrite Hprepare.
  pose proof (processFiles_attempted sha256 stageFile generateToFile path_dirname path_join
                componentFiles noCounts w3) as Hcount.
  destruct (processFiles sha256 stageFile generateToFile path_dirname path_join
              componentFiles noCounts w3) as [w' c].
  exists w'. eexists. split; [reflexivity|]. simpl. exact Hcount.
Qed.

End SyncAndRun.

Lemma sync_consults_cache_witness :
  filesToSyncOf Examples.demoDigest true false ["/app/Card.tsx"; "/app/New.tsx"]
    Examples.cardCached = Ok ["/app/New.tsx"] ∧
  filesToSyncOf Examples.demoDigest false false ["/app/Card.tsx"; "/app/New.tsx"]
    Examples.cardCached = Ok ["/app/Card.tsx"; "/app/New.tsx"] ∧
  ∃ kept,
    filesToSyncOf Examples.demoDigest true false ["/app/Card.tsx"; "/app/New.tsx"]
      Examples.cardCached = Ok kept ∧
    sublist kept ["/app/Card.tsx"; "/app/New.tsx"] ∧
    ∀ file, file ∈ kept ↔
      file ∈ ["/app/Card.tsx"; "/app/New.tsx"] ∧
      needsUpdate Examples.demoDigest Examples.cardCached file = Ok true.
Proof.
  split; [vm_compute; reflexivity|]. split.
  - apply (proj1 (sync_consults_cache_only_in_unforced_fast_mode Examples.demoDigest
                    false false ["/app/Card.tsx"; "/app/New.tsx"] Examples.cardCached)).
    left. reflexivity.
  - apply (proj2 (sync_consults_cache_only_in_unforced_fast_mode Examples.demoDigest
                    true false ["/app/Card.tsx"; "/app/New.tsx"] Examples.cardCached));
      reflexivity.
Defined.

Lemma run_accounts_witness :
  ∃ w' result,
    run Examples.demoDigest (fun w => (w, Ok {| watchPatterns := ["src/**/*.tsx"] |}))
        (fun w => (w, Ok ["/app/A.tsx"; "/app/notes.md"; "/app/Broken.tsx"]))
        Examples.quietStage Scenes.suffixTest Scenes.readyComponents Examples.quietGenerate
        Examples.sameDirectory Examples.joinWithSlash Examples.batchWorld = (w', Ok result) ∧
    processed result + skipped result + errors result = 2.
Proof.
  apply (run_accounts_for_every_component_file Examples.demoDigest
           (fun w => (w, Ok {| watchPatterns := ["src/**/*.tsx"] |}))
           (fun w => (w, Ok ["/app/A.tsx"; "/app/notes.md"; "/app/Broken.tsx"]))
           Examples.quietStage Scenes.suffixTest Scenes.readyComponents Examples.quietGenerate
           Examples.sameDirectory Examples.joinWithSlash
           Examples.batchWorld Examples.batchWorld Examples.batchWorld Examples.batchWorld
           {| watchPatterns := ["src/**/*.tsx"] |}
           ["/app/A.tsx"; "/app/notes.md"; "/app/Broken.tsx"]
           ["/app/A.tsx"; "/app/Broken.tsx"]).
  - reflexivity.
  - reflexivity.
  - vm_compute. reflexivity.
  - discriminate.
  - reflexivity.
Defined.
